(** * StockAnalyzer: a shallow embedding of [stock_analysis.py]

    The development follows the Python module function by function: the
    fetcher [get_stock_data], the statement extractor
    [get_statement_metrics], the money formatter [fmt_money], the metrics
    calculator [calculate_key_metrics], the news retriever [get_stock_news]
    with the sheet writer [update_news_sheet], and the two macros
    [analyze_stock] and [compare_stocks].

    Python values are a tagged union, Python floats are IEEE binary64 values
    (the executable [spec_float] of the Standard Library at precision 53),
    the entries of an integer column of a statement table are 64-bit
    integers of numpy, text is a sequence of code points held as UTF-8,
    exceptions are an explicit error result, dictionaries read with [.get]
    are finite maps, and the dictionaries whose insertion order is observed
    are association lists. The provider, the HTTP client, the clock, the
    chart library and the hyperlinks of the workbook are parameters of the
    functions that call them. *)

From Stdlib Require Import ZArith Ascii String List Lia Bool.
From Stdlib Require Import SpecFloat DecimalString.
From stdpp Require Import base option list strings gmap.

Local Open Scope Z_scope.

(** ** Exceptions and results *)

Inductive exn : Type :=
  | TypeError
  | ValueError
  | ZeroDivisionError
  | OverflowError
  | KeyError
  | IndexError
  | AttributeError
  | ExternalError.

Inductive result (A : Type) : Type :=
  | Ok (a : A)
  | Err (e : exn).

Arguments Ok {A} a.
Arguments Err {A} e.

(** [result] is a monad; the notation [x ← r; k] is the library's. *)
#[global] Instance result_bind : MBind result := λ A B k r,
  match r with
  | Ok a => k a
  | Err e => Err e
  end.

#[global] Instance result_ret : MRet result := λ A a, Ok a.

Definition is_ok {A} (r : result A) : bool :=
  match r with Ok _ => true | Err _ => false end.

(** ** IEEE binary64 arithmetic *)

Module B64.

Definition prec : Z := 53.
Definition emax : Z := 1024.

Definition add : spec_float → spec_float → spec_float := SFadd prec emax.
Definition sub : spec_float → spec_float → spec_float := SFsub prec emax.
Definition mul : spec_float → spec_float → spec_float := SFmul prec emax.
Definition div : spec_float → spec_float → spec_float := SFdiv prec emax.
Definition ltb : spec_float → spec_float → bool := SFltb.
Definition leb : spec_float → spec_float → bool := SFleb.

Definition is_zero (f : spec_float) : bool :=
  match f with S754_zero _ => true | _ => false end.

Definition is_finite (f : spec_float) : bool :=
  match f with S754_zero _ | S754_finite _ _ _ => true | _ => false end.

(** Nearest binary64 value, ties to even, of the integer [z]. *)
Definition of_Z (z : Z) : spec_float := binary_normalize prec emax z 0 false.

(** Nearest binary64 value, ties to even, of the rational [p / q] with the
    sign [s]: the quotient is taken with enough bits for the rounding
    position and the remainder gives the sticky information. *)
Definition of_ratio (s : bool) (p q : positive) : spec_float :=
  let '(mz, ez, lz) := SFdiv_core_binary prec emax (Zpos p) 0 (Zpos q) 0 in
  binary_round_aux prec emax s mz ez lz.

(** Integers of magnitude at least [2^1024 - 2^970] round to infinity. *)
Definition overflow_threshold : Z := 2 ^ 1024 - 2 ^ 970.

(** [|m * 2^e| * 10^k] rounded to an integer, ties to even. *)
Definition scaled_round (m : positive) (e : Z) (k : nat) : Z :=
  let num := Zpos m * 10 ^ Z.of_nat k in
  match e with
  | Zneg p =>
      let den := 2 ^ Zpos p in
      let q := num / den in
      let r := num mod den in
      match 2 * r ?= den with
      | Lt => q
      | Eq => if Z.even q then q else q + 1
      | Gt => q + 1
      end
  | _ => num * 2 ^ e
  end.

Definition zero : spec_float := S754_zero false.

End B64.

(** The float literals of the module. *)
Definition f1e12 : spec_float := B64.of_Z (10 ^ 12).
Definition f1e9 : spec_float := B64.of_Z (10 ^ 9).
Definition f1e6 : spec_float := B64.of_Z (10 ^ 6).

(** ** Python values

    The values that reach the module from the provider's JSON and from the
    statement tables: [None], booleans, integers, floats and text, and the
    scalars that [.loc] reads from a numeric column of a pandas frame.

    [VInt] is Python's unbounded [int]. [VInt64] is a [numpy.int64], the
    entry of a column of 64-bit integers: its arithmetic wraps around at 64
    bits and its true division is the division of the two operands as
    doubles. [VFloat] stands for Python's [float] and for [numpy.float64]:
    both are binary64 numbers and the operations the module applies to them
    ([float()], [abs], comparison, [*], [+], [-], formatting, and [/] by a
    divisor it has tested to be true) give the same results on both. Other
    numpy scalars are not modelled. *)

Inductive pyval : Type :=
  | VNone
  | VBool (b : bool)
  | VInt (z : Z)
  | VFloat (f : spec_float)
  | VStr (s : string)
  | VInt64 (z : Z).

#[global] Instance spec_float_eq_dec : EqDecision spec_float.
Proof. solve_decision. Defined.

#[global] Instance pyval_eq_dec : EqDecision pyval.
Proof. solve_decision. Defined.

Definition NA : pyval := VStr "N/A".

(** The numeric tower: [bool] is a subclass of [int]; a [numpy.int64] is a
    number of its own kind. *)
Inductive num : Type :=
  | NInt (z : Z)
  | NFloat (f : spec_float)
  | NInt64 (z : Z).

Definition as_num (v : pyval) : option num :=
  match v with
  | VBool b => Some (NInt (Z.b2z b))
  | VInt z => Some (NInt z)
  | VFloat f => Some (NFloat f)
  | VInt64 z => Some (NInt64 z)
  | VNone | VStr _ => None
  end.

(** The 64-bit integers, and the value an integer result wraps around to. *)
Definition int64_bound : Z := 2 ^ 63.

Definition in_int64 (z : Z) : bool := (- int64_bound <=? z) && (z <? int64_bound).

Definition wrap64 (z : Z) : Z := (z + int64_bound) mod 2 ^ 64 - int64_bound.

(** [bool(v)] *)
Definition py_truthy (v : pyval) : bool :=
  match v with
  | VNone => false
  | VBool b => b
  | VInt z => negb (z =? 0)
  | VFloat f => negb (B64.is_zero f)
  | VStr s => negb (String.eqb s "")
  | VInt64 z => negb (z =? 0)
  end.

(** [v is None] *)
Definition is_none (v : pyval) : bool :=
  match v with VNone => true | _ => false end.

(** [v == 0] *)
Definition py_eq_zero (v : pyval) : bool :=
  match as_num v with
  | Some (NInt z) | Some (NInt64 z) => z =? 0
  | Some (NFloat f) => B64.is_zero f
  | None => false
  end.

(** [v != 0] *)
Definition py_ne_zero (v : pyval) : bool := negb (py_eq_zero v).

(** [v == s] for a string literal [s] *)
Definition py_eq_str (v : pyval) (s : string) : bool :=
  match v with VStr t => String.eqb t s | _ => false end.

(** Conversion of an [int] to a [float]; [OverflowError] when too large. *)
Definition int_to_float (z : Z) : result spec_float :=
  if Z.abs z <? B64.overflow_threshold then Ok (B64.of_Z z) else Err OverflowError.

Definition num_to_float (n : num) : result spec_float :=
  match n with
  | NInt z | NInt64 z => int_to_float z
  | NFloat f => Ok f
  end.

(** *** Operations with a [numpy.int64] operand

    When one operand is a [numpy.int64] the operation is numpy's (the
    promotion rules of NumPy 2): a Python [int] or [bool] on the other side
    is converted to 64 bits, which raises [OverflowError] when it does not
    fit; a float on the other side makes it a float operation; two integers
    give a 64-bit integer that wraps around. No numpy operation raises on a
    zero divisor or on overflow: it warns and goes on. *)

Definition is_int64 (n : num) : bool :=
  match n with NInt64 _ => true | _ => false end.

Definition is_nfloat (n : num) : bool :=
  match n with NFloat _ => true | _ => false end.

(** The operand as a 64-bit integer. *)
Definition np_int (n : num) : result Z :=
  match n with
  | NInt z => if in_int64 z then Ok z else Err OverflowError
  | NInt64 z => Ok z
  | NFloat _ => Err TypeError
  end.

(** The operand as a double. *)
Definition np_float (n : num) : result spec_float :=
  match n with
  | NFloat f => Ok f
  | _ => z ← np_int n; Ok (B64.of_Z z)
  end.

(** [+], [-] and [*] of numpy. *)
Definition np_arith (iop : Z → Z → Z) (fop : spec_float → spec_float → spec_float)
    (a b : num) : result pyval :=
  if is_nfloat a || is_nfloat b then
    fa ← np_float a;
    fb ← np_float b;
    Ok (VFloat (fop fa fb))
  else
    ia ← np_int a;
    ib ← np_int b;
    Ok (VInt64 (wrap64 (iop ia ib))).

(** [/] of numpy: the operands are divided as doubles. *)
Definition np_truediv (a b : num) : result pyval :=
  fa ← np_float a;
  fb ← np_float b;
  Ok (VFloat (B64.div fa fb)).

(** True division of two [int]s: correctly rounded, [ZeroDivisionError] on a
    zero divisor, [OverflowError] when the quotient is too large. *)
Definition int_truediv (a b : Z) : result spec_float :=
  if b =? 0 then Err ZeroDivisionError
  else match a with
       | Z0 => Ok (S754_zero (b <? 0))
       | _ =>
           if Z.abs a <? B64.overflow_threshold * Z.abs b
           then Ok (B64.of_ratio (xorb (a <? 0) (b <? 0))
                      (Z.to_pos (Z.abs a)) (Z.to_pos (Z.abs b)))
           else Err OverflowError
       end.

(** [x / y] *)
Definition py_truediv (x y : pyval) : result pyval :=
  match as_num x, as_num y with
  | Some (NInt a), Some (NInt b) => f ← int_truediv a b; Ok (VFloat f)
  | Some a, Some b =>
      if is_int64 a || is_int64 b then np_truediv a b
      else
        fa ← num_to_float a;
        fb ← num_to_float b;
        if B64.is_zero fb then Err ZeroDivisionError
        else Ok (VFloat (B64.div fa fb))
  | _, _ => Err TypeError
  end.

Fixpoint str_repeat (s : string) (n : nat) : string :=
  match n with
  | O => ""
  | S n' => s +:+ str_repeat s n'
  end.

(** [x * y]; a string times an integer is repeated. *)
Definition py_mul (x y : pyval) : result pyval :=
  match x, y with
  | VStr s, _ =>
      match as_num y with
      | Some (NInt n) | Some (NInt64 n) => Ok (VStr (str_repeat s (Z.to_nat n)))
      | _ => Err TypeError
      end
  | _, VStr s =>
      match as_num x with
      | Some (NInt n) | Some (NInt64 n) => Ok (VStr (str_repeat s (Z.to_nat n)))
      | _ => Err TypeError
      end
  | _, _ =>
      match as_num x, as_num y with
      | Some (NInt a), Some (NInt b) => Ok (VInt (a * b))
      | Some a, Some b =>
          if is_int64 a || is_int64 b then np_arith Z.mul B64.mul a b
          else
            fa ← num_to_float a;
            fb ← num_to_float b;
            Ok (VFloat (B64.mul fa fb))
      | _, _ => Err TypeError
      end
  end.

(** [x - y] *)
Definition py_sub (x y : pyval) : result pyval :=
  match as_num x, as_num y with
  | Some (NInt a), Some (NInt b) => Ok (VInt (a - b))
  | Some a, Some b =>
      if is_int64 a || is_int64 b then np_arith Z.sub B64.sub a b
      else
        fa ← num_to_float a;
        fb ← num_to_float b;
        Ok (VFloat (B64.sub fa fb))
  | _, _ => Err TypeError
  end.

(** [x + y] *)
Definition py_add (x y : pyval) : result pyval :=
  match x, y with
  | VStr s, VStr t => Ok (VStr (s +:+ t))
  | _, _ =>
      match as_num x, as_num y with
      | Some (NInt a), Some (NInt b) => Ok (VInt (a + b))
      | Some a, Some b =>
          if is_int64 a || is_int64 b then np_arith Z.add B64.add a b
          else
            fa ← num_to_float a;
            fb ← num_to_float b;
            Ok (VFloat (B64.add fa fb))
      | _, _ => Err TypeError
      end
  end.

(** [x > 0] *)
Definition py_gt_zero (x : pyval) : result bool :=
  match as_num x with
  | Some (NInt z) | Some (NInt64 z) => Ok (0 <? z)
  | Some (NFloat f) => Ok (B64.ltb B64.zero f)
  | None => Err TypeError
  end.

(** ** Text helpers *)

Definition chars (s : string) : list ascii := list_ascii_of_string s.
Definition text (l : list ascii) : string := string_of_list_ascii l.

(** Decimal digits of a natural number. *)
Definition dec_of_N (n : N) : string := NilZero.string_of_uint (N.to_uint n).
Definition dec_of_Z (z : Z) : string := NilZero.string_of_int (Z.to_int z).
Definition dec_of_nat (n : nat) : string := dec_of_N (N.of_nat n).

(** Thousands separators, as the [,] option of the format language. *)
Fixpoint group3_rev (l : list ascii) (fuel : nat) : list ascii :=
  match fuel with
  | O => l
  | S fuel' =>
      match l with
      | a :: b :: c :: (d :: _) as rest =>
          a :: b :: c :: ","%char :: group3_rev rest fuel'
      | _ => l
      end
  end.

Definition group3 (s : string) : string :=
  let l := chars s in text (rev (group3_rev (rev l) (length l))).

(** [s] padded with zeros on the left up to [width] characters. *)
Definition zero_pad (width : nat) (s : string) : string :=
  str_repeat "0" (width - String.length s) +:+ s.

(** ** Text as code points

    A Python [str] is a sequence of code points; a [string] holds its UTF-8
    encoding. [len], slicing, [strip] and [upper] of Python work on the code
    points. A byte that does not belong to a well-formed sequence is kept
    apart, as the code point [0xDC00 + byte], so that encoding gives the
    bytes back. *)

Definition code (c : ascii) : Z := Z.of_N (N_of_ascii c).

Definition byte_of (n : Z) : ascii := ascii_of_N (Z.to_N n).

(** A continuation byte. *)
Definition is_cont (c : ascii) : bool := (128 <=? code c) && (code c <? 192).

Definition stray (n : Z) (rest : list Z) : list Z := (56320 + n) :: rest.

Fixpoint utf8_decode (l : list ascii) : list Z :=
  match l with
  | [] => []
  | b0 :: l1 =>
      let n0 := code b0 in
      if n0 <? 128 then n0 :: utf8_decode l1
      else
        match l1 with
        | [] => stray n0 (utf8_decode l1)
        | b1 :: l2 =>
            if negb (is_cont b1) then stray n0 (utf8_decode l1)
            else if (194 <=? n0) && (n0 <? 224) then
              ((n0 - 192) * 64 + (code b1 - 128)) :: utf8_decode l2
            else
              match l2 with
              | [] => stray n0 (utf8_decode l1)
              | b2 :: l3 =>
                  if negb (is_cont b2) then stray n0 (utf8_decode l1)
                  else if (224 <=? n0) && (n0 <? 240) then
                    let cp := (n0 - 224) * 4096 + (code b1 - 128) * 64 + (code b2 - 128) in
                    if (2048 <=? cp) && negb ((55296 <=? cp) && (cp <? 57344))
                    then cp :: utf8_decode l3
                    else stray n0 (utf8_decode l1)
                  else
                    match l3 with
                    | [] => stray n0 (utf8_decode l1)
                    | b3 :: l4 =>
                        let cp := (n0 - 240) * 262144 + (code b1 - 128) * 4096 +
                                  (code b2 - 128) * 64 + (code b3 - 128) in
                        if is_cont b3 && (240 <=? n0) && (n0 <? 245) &&
                           (65536 <=? cp) && (cp <? 1114112)
                        then cp :: utf8_decode l4
                        else stray n0 (utf8_decode l1)
                    end
              end
        end
  end.

Definition utf8_encode_point (cp : Z) : list ascii :=
  if cp <? 128 then [byte_of cp]
  else if cp <? 2048 then [byte_of (192 + cp / 64); byte_of (128 + cp mod 64)]
  else if (56448 <=? cp) && (cp <? 56576) then [byte_of (cp - 56320)]
  else if cp <? 65536 then
    [byte_of (224 + cp / 4096); byte_of (128 + cp / 64 mod 64); byte_of (128 + cp mod 64)]
  else
    [byte_of (240 + cp / 262144); byte_of (128 + cp / 4096 mod 64);
     byte_of (128 + cp / 64 mod 64); byte_of (128 + cp mod 64)].

Definition utf8_encode (cps : list Z) : list ascii := flat_map utf8_encode_point cps.

Definition points (s : string) : list Z := utf8_decode (chars s).
Definition of_points (cps : list Z) : string := text (utf8_encode cps).

(** [len(s)] *)
Definition py_len (s : string) : nat := length (points s).

(** [s[:n]] *)
Definition str_take (n : nat) (s : string) : string := of_points (take n (points s)).

(** The code points for which [str.isspace] holds (Unicode 14). *)
Definition space_points : list Z :=
  [ 9; 10; 11; 12; 13; 28; 29; 30; 31; 32; 133; 160; 5760; 8192; 8193; 8194; 8195;
    8196; 8197; 8198; 8199; 8200; 8201; 8202; 8232; 8233; 8239; 8287; 12288 ].

Definition is_space_point (cp : Z) : bool := bool_decide (cp ∈ space_points).

Fixpoint lstrip {A} (space : A → bool) (l : list A) : list A :=
  match l with
  | c :: l' => if space c then lstrip space l' else l
  | [] => []
  end.

Definition strip_list {A} (space : A → bool) (l : list A) : list A :=
  rev (lstrip space (rev (lstrip space l))).

(** [s.strip()] *)
Definition strip (s : string) : string :=
  of_points (strip_list is_space_point (points s)).

(** The upper-case mapping of [str.upper] (Unicode 14): the code points
    that map to one code point, as runs [(first, last, step, shift)], and
    those that map to several. *)
Definition upper_runs : list (Z * Z * Z * Z) :=
  [ (97, 122, 1, (-32)); (181, 181, 1, 743); (224, 246, 1, (-32));
    (248, 254, 1, (-32)); (255, 255, 1, 121); (257, 303, 2, (-1));
    (305, 305, 1, (-232)); (307, 311, 2, (-1)); (314, 328, 2, (-1));
    (331, 375, 2, (-1)); (378, 382, 2, (-1)); (383, 383, 1, (-300));
    (384, 384, 1, 195); (387, 389, 2, (-1)); (392, 392, 1, (-1)); (396, 396, 1, (-1));
    (402, 402, 1, (-1)); (405, 405, 1, 97); (409, 409, 1, (-1)); (410, 410, 1, 163);
    (414, 414, 1, 130); (417, 421, 2, (-1)); (424, 424, 1, (-1)); (429, 429, 1, (-1));
    (432, 432, 1, (-1)); (436, 438, 2, (-1)); (441, 441, 1, (-1)); (445, 445, 1, (-1));
    (447, 447, 1, 56); (453, 453, 1, (-1)); (454, 454, 1, (-2)); (456, 456, 1, (-1));
    (457, 457, 1, (-2)); (459, 459, 1, (-1)); (460, 460, 1, (-2)); (462, 476, 2, (-1));
    (477, 477, 1, (-79)); (479, 495, 2, (-1)); (498, 498, 1, (-1));
    (499, 499, 1, (-2)); (501, 501, 1, (-1)); (505, 543, 2, (-1)); (547, 563, 2, (-1));
    (572, 572, 1, (-1)); (575, 576, 1, 10815); (578, 578, 1, (-1));
    (583, 591, 2, (-1)); (592, 592, 1, 10783); (593, 593, 1, 10780);
    (594, 594, 1, 10782); (595, 595, 1, (-210)); (596, 596, 1, (-206));
    (598, 599, 1, (-205)); (601, 601, 1, (-202)); (603, 603, 1, (-203));
    (604, 604, 1, 42319); (608, 608, 1, (-205)); (609, 609, 1, 42315);
    (611, 611, 1, (-207)); (613, 613, 1, 42280); (614, 614, 1, 42308);
    (616, 616, 1, (-209)); (617, 617, 1, (-211)); (618, 618, 1, 42308);
    (619, 619, 1, 10743); (620, 620, 1, 42305); (623, 623, 1, (-211));
    (625, 625, 1, 10749); (626, 626, 1, (-213)); (629, 629, 1, (-214));
    (637, 637, 1, 10727); (640, 640, 1, (-218)); (642, 642, 1, 42307);
    (643, 643, 1, (-218)); (647, 647, 1, 42282); (648, 648, 1, (-218));
    (649, 649, 1, (-69)); (650, 651, 1, (-217)); (652, 652, 1, (-71));
    (658, 658, 1, (-219)); (669, 669, 1, 42261); (670, 670, 1, 42258);
    (837, 837, 1, 84); (881, 883, 2, (-1)); (887, 887, 1, (-1)); (891, 893, 1, 130);
    (940, 940, 1, (-38)); (941, 943, 1, (-37)); (945, 961, 1, (-32));
    (962, 962, 1, (-31)); (963, 971, 1, (-32)); (972, 972, 1, (-64));
    (973, 974, 1, (-63)); (976, 976, 1, (-62)); (977, 977, 1, (-57));
    (981, 981, 1, (-47)); (982, 982, 1, (-54)); (983, 983, 1, (-8));
    (985, 1007, 2, (-1)); (1008, 1008, 1, (-86)); (1009, 1009, 1, (-80));
    (1010, 1010, 1, 7); (1011, 1011, 1, (-116)); (1013, 1013, 1, (-96));
    (1016, 1016, 1, (-1)); (1019, 1019, 1, (-1)); (1072, 1103, 1, (-32));
    (1104, 1119, 1, (-80)); (1121, 1153, 2, (-1)); (1163, 1215, 2, (-1));
    (1218, 1230, 2, (-1)); (1231, 1231, 1, (-15)); (1233, 1327, 2, (-1));
    (1377, 1414, 1, (-48)); (4304, 4346, 1, 3008); (4349, 4351, 1, 3008);
    (5112, 5117, 1, (-8)); (7296, 7296, 1, (-6254)); (7297, 7297, 1, (-6253));
    (7298, 7298, 1, (-6244)); (7299, 7300, 1, (-6242)); (7301, 7301, 1, (-6243));
    (7302, 7302, 1, (-6236)); (7303, 7303, 1, (-6181)); (7304, 7304, 1, 35266);
    (7545, 7545, 1, 35332); (7549, 7549, 1, 3814); (7566, 7566, 1, 35384);
    (7681, 7829, 2, (-1)); (7835, 7835, 1, (-59)); (7841, 7935, 2, (-1));
    (7936, 7943, 1, 8); (7952, 7957, 1, 8); (7968, 7975, 1, 8); (7984, 7991, 1, 8);
    (8000, 8005, 1, 8); (8017, 8023, 2, 8); (8032, 8039, 1, 8); (8048, 8049, 1, 74);
    (8050, 8053, 1, 86); (8054, 8055, 1, 100); (8056, 8057, 1, 128);
    (8058, 8059, 1, 112); (8060, 8061, 1, 126); (8112, 8113, 1, 8);
    (8126, 8126, 1, (-7205)); (8144, 8145, 1, 8); (8160, 8161, 1, 8);
    (8165, 8165, 1, 7); (8526, 8526, 1, (-28)); (8560, 8575, 1, (-16));
    (8580, 8580, 1, (-1)); (9424, 9449, 1, (-26)); (11312, 11359, 1, (-48));
    (11361, 11361, 1, (-1)); (11365, 11365, 1, (-10795)); (11366, 11366, 1, (-10792));
    (11368, 11372, 2, (-1)); (11379, 11379, 1, (-1)); (11382, 11382, 1, (-1));
    (11393, 11491, 2, (-1)); (11500, 11502, 2, (-1)); (11507, 11507, 1, (-1));
    (11520, 11557, 1, (-7264)); (11559, 11559, 1, (-7264)); (11565, 11565, 1, (-7264));
    (42561, 42605, 2, (-1)); (42625, 42651, 2, (-1)); (42787, 42799, 2, (-1));
    (42803, 42863, 2, (-1)); (42874, 42876, 2, (-1)); (42879, 42887, 2, (-1));
    (42892, 42892, 1, (-1)); (42897, 42899, 2, (-1)); (42900, 42900, 1, 48);
    (42903, 42921, 2, (-1)); (42933, 42947, 2, (-1)); (42952, 42954, 2, (-1));
    (42961, 42961, 1, (-1)); (42967, 42969, 2, (-1)); (42998, 42998, 1, (-1));
    (43859, 43859, 1, (-928)); (43888, 43967, 1, (-38864)); (65345, 65370, 1, (-32));
    (66600, 66639, 1, (-40)); (66776, 66811, 1, (-40)); (66967, 66977, 1, (-39));
    (66979, 66993, 1, (-39)); (66995, 67001, 1, (-39)); (67003, 67004, 1, (-39));
    (68800, 68850, 1, (-64)); (71872, 71903, 1, (-32)); (93792, 93823, 1, (-32));
    (125218, 125251, 1, (-34)) ].

Definition upper_special : list (Z * list Z) :=
  [ (223, [83; 83]); (329, [700; 78]); (496, [74; 780]); (912, [921; 776; 769]);
    (944, [933; 776; 769]); (1415, [1333; 1362]); (7830, [72; 817]); (7831, [84; 776]);
    (7832, [87; 778]); (7833, [89; 778]); (7834, [65; 702]); (8016, [933; 787]);
    (8018, [933; 787; 768]); (8020, [933; 787; 769]); (8022, [933; 787; 834]);
    (8064, [7944; 921]); (8065, [7945; 921]); (8066, [7946; 921]); (8067, [7947; 921]);
    (8068, [7948; 921]); (8069, [7949; 921]); (8070, [7950; 921]); (8071, [7951; 921]);
    (8072, [7944; 921]); (8073, [7945; 921]); (8074, [7946; 921]); (8075, [7947; 921]);
    (8076, [7948; 921]); (8077, [7949; 921]); (8078, [7950; 921]); (8079, [7951; 921]);
    (8080, [7976; 921]); (8081, [7977; 921]); (8082, [7978; 921]); (8083, [7979; 921]);
    (8084, [7980; 921]); (8085, [7981; 921]); (8086, [7982; 921]); (8087, [7983; 921]);
    (8088, [7976; 921]); (8089, [7977; 921]); (8090, [7978; 921]); (8091, [7979; 921]);
    (8092, [7980; 921]); (8093, [7981; 921]); (8094, [7982; 921]); (8095, [7983; 921]);
    (8096, [8040; 921]); (8097, [8041; 921]); (8098, [8042; 921]); (8099, [8043; 921]);
    (8100, [8044; 921]); (8101, [8045; 921]); (8102, [8046; 921]); (8103, [8047; 921]);
    (8104, [8040; 921]); (8105, [8041; 921]); (8106, [8042; 921]); (8107, [8043; 921]);
    (8108, [8044; 921]); (8109, [8045; 921]); (8110, [8046; 921]); (8111, [8047; 921]);
    (8114, [8122; 921]); (8115, [913; 921]); (8116, [902; 921]); (8118, [913; 834]);
    (8119, [913; 834; 921]); (8124, [913; 921]); (8130, [8138; 921]);
    (8131, [919; 921]); (8132, [905; 921]); (8134, [919; 834]);
    (8135, [919; 834; 921]); (8140, [919; 921]); (8146, [921; 776; 768]);
    (8147, [921; 776; 769]); (8150, [921; 834]); (8151, [921; 776; 834]);
    (8162, [933; 776; 768]); (8163, [933; 776; 769]); (8164, [929; 787]);
    (8166, [933; 834]); (8167, [933; 776; 834]); (8178, [8186; 921]);
    (8179, [937; 921]); (8180, [911; 921]); (8182, [937; 834]);
    (8183, [937; 834; 921]); (8188, [937; 921]); (64256, [70; 70]); (64257, [70; 73]);
    (64258, [70; 76]); (64259, [70; 70; 73]); (64260, [70; 70; 76]); (64261, [83; 84]);
    (64262, [83; 84]); (64275, [1348; 1350]); (64276, [1348; 1333]);
    (64277, [1348; 1339]); (64278, [1358; 1350]); (64279, [1348; 1341]) ].

Definition upper_point (cp : Z) : list Z :=
  match find (λ entry, entry.1 =? cp) upper_special with
  | Some (_, image) => image
  | None =>
      match find (λ '(first, last, step, _),
                    (first <=? cp) && (cp <=? last) && ((cp - first) mod step =? 0))
              upper_runs with
      | Some (_, _, _, shift) => [cp + shift]
      | None => [cp]
      end
  end.

(** [s.upper()] *)
Definition str_upper (s : string) : string :=
  of_points (flat_map upper_point (points s)).

(** ** The [f] presentation type of [format]

    [format_f k grouped x] is [format(x, ".kf")] (or [",.kf"] when [grouped])
    for a float [x]: the exact binary value is rounded to [k] decimals, ties
    to even; the sign of a negative zero or of a value rounding to zero is
    kept; [nan] and the infinities are spelled out. *)
Definition format_f (k : nat) (grouped : bool) (x : spec_float) : string :=
  let body (n : Z) :=
    let ip := dec_of_Z (n / 10 ^ Z.of_nat k) in
    let ip := if grouped then group3 ip else ip in
    match k with
    | O => ip
    | _ => ip +:+ "." +:+ zero_pad k (dec_of_Z (n mod 10 ^ Z.of_nat k))
    end in
  let sgn (s : bool) := if s then "-" else "" in
  match x with
  | S754_nan => "nan"
  | S754_infinity s => sgn s +:+ "inf"
  | S754_zero s => sgn s +:+ body 0
  | S754_finite s m e => sgn s +:+ body (B64.scaled_round m e k)
  end.

(** [format(v, spec)] with an [f] presentation type for any value: an
    integer (or [bool]) is converted to [float] first, a [str] has no such
    format code, [None] accepts no format string. *)
Definition py_format_f (k : nat) (grouped : bool) (v : pyval) : result string :=
  match v with
  | VNone => Err TypeError
  | VStr _ => Err ValueError
  | VBool b => f ← int_to_float (Z.b2z b); Ok (format_f k grouped f)
  | VInt z | VInt64 z => f ← int_to_float z; Ok (format_f k grouped f)
  | VFloat f => Ok (format_f k grouped f)
  end.

(** [round(x, 2)]: a float is rounded to two decimals through its exact
    decimal expansion and read back; an integer is returned unchanged. The
    module rounds quote fields only, which are floats of Python. *)
Definition round2_float (x : spec_float) : spec_float :=
  match x with
  | S754_finite s m e =>
      match B64.scaled_round m e 2 with
      | Zpos n => B64.of_ratio s n 100
      | _ => S754_zero s
      end
  | _ => x
  end.

Definition py_round2 (v : pyval) : result pyval :=
  match as_num v with
  | Some (NInt z) => Ok (VInt z)
  | Some (NInt64 z) => Ok (VInt64 z)
  | Some (NFloat f) => Ok (VFloat (round2_float f))
  | None => Err TypeError
  end.

(** ** [float(x)]

    Text is first brought to ASCII: a code point below 128 is kept, a
    Unicode space becomes a blank, a Unicode decimal digit becomes its ASCII
    digit and anything else a question mark, which no number contains. What
    results is accepted in the grammar of the builtin: the white space of C
    is dropped at both ends, single underscores may separate digits, then an
    optional sign and either [inf], [infinity], [nan] (any case) or a decimal
    number with an optional exponent. The value is the nearest binary64
    number. *)

(** [isspace] of C: the blank and the characters from tab to carriage
    return. *)
Definition is_c_space (c : ascii) : bool :=
  let n := nat_of_ascii c in
  ((9 <=? n) && (n <=? 13) || (n =? 32))%nat.

(** The zeros of the decimal digits of Unicode 14; the nine code points after
    each are the digits one to nine. *)
Definition digit_blocks : list Z :=
  [ 48; 1632; 1776; 1984; 2406; 2534; 2662; 2790; 2918; 3046; 3174; 3302; 3430; 3558;
    3664; 3792; 3872; 4160; 4240; 6112; 6160; 6470; 6608; 6784; 6800; 6992; 7088; 7232;
    7248; 42528; 43216; 43264; 43472; 43504; 43600; 44016; 65296; 66720; 68912; 69734;
    69872; 69942; 70096; 70384; 70736; 70864; 71248; 71360; 71472; 71904; 72016; 72784;
    73040; 73120; 92768; 92864; 93008; 120782; 120792; 120802; 120812; 120822; 123200;
    123632; 125264; 130032 ].

Definition decimal_of_point (cp : Z) : option Z :=
  first ← find (λ first, (first <=? cp) && (cp <? first + 10)) digit_blocks;
  Some (cp - first).

Definition ascii_of_point (cp : Z) : ascii :=
  if cp <? 128 then byte_of cp
  else if is_space_point cp then " "%char
  else match decimal_of_point cp with
       | Some d => byte_of (48 + d)
       | None => "?"%char
       end.

Definition is_digit (c : ascii) : bool :=
  let n := nat_of_ascii c in ((48 <=? n) && (n <=? 57))%nat.

Definition digit_val (c : ascii) : Z := Z.of_nat (nat_of_ascii c) - 48.

Definition lower (c : ascii) : ascii :=
  let n := nat_of_ascii c in
  if ((65 <=? n) && (n <=? 90))%nat then ascii_of_nat (n + 32) else c.

Fixpoint span_digits (l : list ascii) : list ascii * list ascii :=
  match l with
  | c :: l' =>
      if is_digit c then let '(ds, r) := span_digits l' in (c :: ds, r)
      else ([], l)
  | [] => ([], [])
  end.

Definition digits_val (l : list ascii) : Z :=
  fold_left (λ acc c, 10 * acc + digit_val c) l 0.

(** An underscore must stand between two digits. *)
Fixpoint drop_underscores (prev : option ascii) (l : list ascii)
  : option (list ascii) :=
  match l with
  | [] => if bool_decide (prev = Some "_"%char) then None else Some []
  | c :: l' =>
      if bool_decide (c = "_"%char) then
        if from_option is_digit false prev then drop_underscores (Some c) l'
        else None
      else if bool_decide (prev = Some "_"%char) && negb (is_digit c) then None
      else r ← drop_underscores (Some c) l'; Some (c :: r)
  end.

Definition take_sign (l : list ascii) : bool * list ascii :=
  match l with
  | "-"%char :: r => (true, r)
  | "+"%char :: r => (false, r)
  | _ => (false, l)
  end.

Definition parse_exponent (l : list ascii) : option Z :=
  match l with
  | [] => Some 0
  | c :: r =>
      if bool_decide (lower c = "e"%char) then
        let '(neg, r') := take_sign r in
        let '(ds, rest) := span_digits r' in
        match ds, rest with
        | _ :: _, [] => Some (if neg then - digits_val ds else digits_val ds)
        | _, _ => None
        end
      else None
  end.

(** The nearest binary64 value of [d * 10^e] with the sign [s]. *)
Definition decimal_to_float (s : bool) (d e : Z) : spec_float :=
  match d with
  | Zpos p =>
      match e with
      | Zneg q => B64.of_ratio s p (10 ^ q)%positive
      | _ => B64.of_ratio s (p * Z.to_pos (10 ^ e))%positive 1
      end
  | _ => S754_zero s
  end.

Definition parse_float (s : string) : option spec_float :=
  l ← drop_underscores None (strip_list is_c_space (map ascii_of_point (points s)));
  let '(neg, body) := take_sign l in
  let low := map lower body in
  if bool_decide (low = chars "inf") || bool_decide (low = chars "infinity")
  then Some (S754_infinity neg)
  else if bool_decide (low = chars "nan") then Some S754_nan
  else
    let '(ip, r1) := span_digits body in
    let '(fp, r2) :=
      match r1 with
      | "."%char :: r => span_digits r
      | _ => ([], r1)
      end in
    match ip ++ fp with
    | [] => None
    | ds =>
        ex ← parse_exponent r2;
        Some (decimal_to_float neg (digits_val ds) (ex - Z.of_nat (length fp)))
    end.

Definition py_float (v : pyval) : result spec_float :=
  match v with
  | VNone => Err TypeError
  | VBool b => int_to_float (Z.b2z b)
  | VInt z | VInt64 z => int_to_float z
  | VFloat f => Ok f
  | VStr s => from_option Ok (Err ValueError) (parse_float s)
  end.

(** ** [fmt_money] *)

(** The body of the [try] block once [float(x)] has succeeded. *)
Definition fmt_money_float (x : spec_float) : string :=
  let sign := if B64.ltb x B64.zero then "-" else "" in
  let x := SFabs x in
  if B64.leb f1e12 x then
    sign +:+ "$" +:+ format_f 2 false (B64.div x f1e12) +:+ "T"
  else if B64.leb f1e9 x then
    sign +:+ "$" +:+ format_f 2 false (B64.div x f1e9) +:+ "B"
  else if B64.leb f1e6 x then
    sign +:+ "$" +:+ format_f 2 false (B64.div x f1e6) +:+ "M"
  else
    sign +:+ "$" +:+ format_f 0 true x.

Definition fmt_money (x : pyval) : string :=
  if is_none x then "N/A"
  else
    match (f ← py_float x; Ok (fmt_money_float f)) with
    | Ok s => s
    | Err _ => "N/A"
    end.

(** ** Dictionaries

    [info] and [statement_metrics] are only read, with [.get]: they are
    finite maps. The metrics table and the news items are dictionaries whose
    insertion order is observed: association lists, where assigning to a key
    that is present keeps its position. *)

Abbreviation pymap := (gmap string pyval).

(** [m.get(k)] and [m.get(k, d)] *)
Definition get (m : pymap) (k : string) : pyval := default VNone (m !! k).
Definition get_or (m : pymap) (k : string) (d : pyval) : pyval := default d (m !! k).

Definition pydict : Type := list (string * pyval).

Fixpoint dict_set (d : pydict) (k : string) (v : pyval) : pydict :=
  match d with
  | [] => [(k, v)]
  | (k', v') :: d' =>
      if String.eqb k' k then (k, v) :: d' else (k', v') :: dict_set d' k v
  end.

Fixpoint dict_lookup (d : pydict) (k : string) : option pyval :=
  match d with
  | [] => None
  | (k', v') :: d' => if String.eqb k' k then Some v' else dict_lookup d' k
  end.

(** [d.get(k, dflt)] *)
Definition dict_get (d : pydict) (k : string) (dflt : pyval) : pyval :=
  default dflt (dict_lookup d k).

Definition keys (d : pydict) : list string := map fst d.

(** [d[k] = v] is written [<[k:=v]> d] on both kinds of dictionary. *)
#[global] Instance pydict_insert : Insert string pyval pydict :=
  λ k v d, dict_set d k v.

(** ** Straight-line blocks under [try]

    A block transforms the dictionary it fills and either completes or
    raises; what was assigned before the exception stays assigned. *)

Section Blocks.
Context {D : Type}.

Inductive outcome : Type :=
  | Normal (d : D)
  | Raised (e : exn) (d : D).

Definition block : Type := D → outcome.

Definition skip : block := Normal.

Definition seq (s1 s2 : block) : block := λ d,
  match s1 d with
  | Normal d' => s2 d'
  | Raised e d' => Raised e d'
  end.

(** [if c: s] *)
Definition when (c : bool) (s : block) : block := if c then s else skip.

(** [x = e], where evaluating [e] may raise, then the rest of the block. *)
Definition eval {A} (e : result A) (k : A → block) : block := λ d,
  match e with
  | Ok a => k a d
  | Err x => Raised x d
  end.

(** The rest of the block reads the dictionary. *)
Definition reading (k : D → block) : block := λ d, k d d.

(** [d[k] = e], where evaluating [e] may raise. *)
Definition setitem `{Insert string pyval D} (k : string) (e : result pyval) : block :=
  eval e (λ v d, Normal (<[k := v]> d)).

(** [try: body  except: pass], then the code after it: the exception is
    swallowed and the dictionary is kept as the block left it. *)
Definition try_except (body : block) (d : D) : D :=
  match body d with
  | Normal d' => d'
  | Raised _ d' => d'
  end.

End Blocks.

Arguments outcome D : clear implicits.
Arguments block D : clear implicits.

Notation "s1 ;; s2" := (seq s1 s2) (at level 100, s2 at level 200, right associativity).

(** ** [calculate_key_metrics] *)

Record price_row : Type := { p_open : spec_float; p_close : spec_float; p_volume : spec_float }.

(** The price history; the calculator receives it and does not read it. *)
Definition history : Type := list price_row.

Definition hundred : pyval := VInt 100.

(** The f-string [f"{e * 100:.2f}%"] for the value [v] of [e]. *)
Definition percent_2f (v : pyval) : result pyval :=
  p ← py_mul v hundred;
  s ← py_format_f 2 false p;
  Ok (VStr (s +:+ "%")).

(** A margin: [f"{(num / revenue) * 100:.2f}%"] under its guard. *)
Definition margin (revenue numerator : pyval) : result pyval :=
  if py_truthy revenue && py_ne_zero revenue && negb (is_none numerator) then
    q ← py_truediv numerator revenue;
    percent_2f q
  else Ok NA.

(** A quote ratio scaled to a percentage, ["N/A"] when [None]. *)
Definition percent_or_na (v : pyval) : result pyval :=
  if negb (is_none v) then percent_2f v else Ok NA.

(** [f"${v:.2f}" if v else "N/A"] *)
Definition dollars_2f_or_na (v : pyval) : result pyval :=
  if py_truthy v then s ← py_format_f 2 false v; Ok (VStr ("$" +:+ s))
  else Ok NA.

(** [round(v, 2) if v else "N/A"] *)
Definition round2_or_na (v : pyval) : result pyval :=
  if py_truthy v then py_round2 v else Ok NA.

Definition distance_from_high (current_price fifty_two_week_high : pyval) : result pyval :=
  if py_truthy current_price && py_truthy fifty_two_week_high then
    d ← py_sub current_price fifty_two_week_high;
    q ← py_truediv d fifty_two_week_high;
    percent_2f q
  else Ok NA.

Definition calculate_key_metrics (info : pymap) (hist : history)
    (statement_metrics : pymap) : pydict :=
  let revenue := get statement_metrics "Revenue (TTM)" in
  let net_income := get statement_metrics "Net Income (TTM)" in
  let op_inc := get statement_metrics "Operating Income (TTM)" in
  let ebitda := get statement_metrics "EBITDA (TTM)" in
  let roe := get_or info "returnOnEquity" VNone in
  let rev_growth := get_or info "revenueGrowth" VNone in
  let earnings_growth := get_or info "earningsGrowth" VNone in
  let fifty_two_week_high := get_or info "fiftyTwoWeekHigh" VNone in
  let fifty_two_week_low := get_or info "fiftyTwoWeekLow" VNone in
  let current_price := get_or info "currentPrice" VNone in
  let trailing_pe := get_or info "trailingPE" VNone in
  let forward_pe := get_or info "forwardPE" VNone in
  let ps_ratio := get_or info "priceToSalesTrailing12Months" VNone in
  let div_yield := get_or info "dividendYield" VNone in
  let payout_ratio := get_or info "payoutRatio" VNone in
  try_except
    ((* INCOME STATEMENT *)
     setitem "Revenue (TTM)" (Ok (VStr (fmt_money (get statement_metrics "Revenue (TTM)")))) ;;
     setitem "Net Income (TTM)" (Ok (VStr (fmt_money (get statement_metrics "Net Income (TTM)")))) ;;
     setitem "Operating Income (TTM)" (Ok (VStr (fmt_money (get statement_metrics "Operating Income (TTM)")))) ;;
     setitem "EBITDA (TTM)" (Ok (VStr (fmt_money (get statement_metrics "EBITDA (TTM)")))) ;;
     (* PROFITABILITY & MARGINS *)
     setitem "Profit Margin" (margin revenue net_income) ;;
     setitem "Operating Margin" (margin revenue op_inc) ;;
     setitem "EBITDA Margin" (margin revenue ebitda) ;;
     setitem "Return on Equity (ROE)" (percent_or_na roe) ;;
     (* GROWTH *)
     setitem "Revenue Growth (YoY)" (percent_or_na rev_growth) ;;
     setitem "Earnings Growth (YoY)" (percent_or_na earnings_growth) ;;
     (* VALUATION *)
     setitem "Current Price" (Ok (get_or info "currentPrice" NA)) ;;
     setitem "Market Cap" (Ok (VStr (fmt_money (get_or info "marketCap" VNone)))) ;;
     setitem "52-Week High" (dollars_2f_or_na fifty_two_week_high) ;;
     setitem "52-Week Low" (dollars_2f_or_na fifty_two_week_low) ;;
     setitem "Distance from 52W High" (distance_from_high current_price fifty_two_week_high) ;;
     setitem "P/E Ratio" (round2_or_na trailing_pe) ;;
     setitem "Forward P/E" (round2_or_na forward_pe) ;;
     setitem "Price to Sales (P/S)" (round2_or_na ps_ratio) ;;
     (* DIVIDENDS *)
     setitem "Dividend Yield" (percent_or_na div_yield) ;;
     setitem "Payout Ratio" (percent_or_na payout_ratio) ;;
     (* RISK *)
     setitem "Beta"
       (if py_truthy (get info "beta") then py_round2 (get_or info "beta" (VInt 0))
        else Ok NA))
    [].

(** The labels of the table, section by section, as the sheets lay them out. *)
Definition sections : list (string * list string) :=
  [ ("INCOME STATEMENT",
      ["Revenue (TTM)"; "Net Income (TTM)"; "Operating Income (TTM)"; "EBITDA (TTM)"]);
    ("PROFITABILITY & MARGINS",
      ["Profit Margin"; "Operating Margin"; "EBITDA Margin"; "Return on Equity (ROE)"]);
    ("GROWTH",
      ["Revenue Growth (YoY)"; "Earnings Growth (YoY)"]);
    ("VALUATION",
      ["Current Price"; "Market Cap"; "52-Week High"; "52-Week Low";
       "Distance from 52W High"; "P/E Ratio"; "Forward P/E"; "Price to Sales (P/S)"]);
    ("DIVIDENDS",
      ["Dividend Yield"; "Payout Ratio"]);
    ("RISK",
      ["Beta"]) ].

Definition metric_labels : list string := concat (map snd sections).

(** ** [get_statement_metrics]

    A statement table is a pandas frame with labelled rows and columns
    (labels are unique, as in the statements the provider returns):
    [index] and [columns] list the labels and [cell] holds the entries. *)

Record DataFrame : Type := {
  columns : list string;
  index : list string;
  cell : string → string → pyval
}.

(** [df.empty]: some axis has length zero. *)
Definition df_empty (df : DataFrame) : bool :=
  (length (columns df) =? 0)%nat || (length (index df) =? 0)%nat.

(** [row in df.index] *)
Definition in_index (row : string) (df : DataFrame) : bool :=
  bool_decide (row ∈ index df).

(** [df.columns[0]] *)
Definition first_column (df : DataFrame) : result string :=
  from_option Ok (Err IndexError) (head (columns df)).

(** [df.loc[row, col]] *)
Definition loc (df : DataFrame) (row col : string) : result pyval :=
  if bool_decide (row ∈ index df) && bool_decide (col ∈ columns df)
  then Ok (cell df row col)
  else Err KeyError.

(** The ticker object: reading a statement property fetches it, which may
    raise, and may give [None]. *)
Record Ticker : Type := {
  financials : result (option DataFrame);
  cashflow : result (option DataFrame)
}.

Definition out_init : pymap :=
  <["Revenue (TTM)" := VNone]> (
  <["Net Income (TTM)" := VNone]> (
  <["Operating Income (TTM)" := VNone]> (
  <["EBITDA (TTM)" := VNone]> (
  <["Cash From Ops (TTM)" := VNone]> (
  <["CapEx (TTM)" := VNone]> (
  <["Free Cash Flow (TTM)" := VNone]> ∅)))))).

(** [if row in df.index: out[field] = df.loc[row, col]] *)
Definition pull (df : DataFrame) (col row field : string) : block pymap :=
  when (in_index row df) (setitem field (loc df row col)).

(** [out[k]] *)
Definition getitem (out : pymap) (k : string) : result pyval :=
  from_option Ok (Err KeyError) (out !! k).

Definition income_statement (stock : Ticker) : block pymap :=
  eval (financials stock) (λ fin,
  match fin with
  | Some fin =>
      when (negb (df_empty fin)) (
        eval (first_column fin) (λ col,
        pull fin col "Total Revenue" "Revenue (TTM)" ;;
        pull fin col "Net Income" "Net Income (TTM)" ;;
        pull fin col "Operating Income" "Operating Income (TTM)" ;;
        pull fin col "EBITDA" "EBITDA (TTM)"))
  | None => skip
  end).

Definition cash_flow (stock : Ticker) : block pymap :=
  eval (cashflow stock) (λ cf,
  match cf with
  | Some cf =>
      when (negb (df_empty cf)) (
        eval (first_column cf) (λ col,
        pull cf col "Total Cash From Operating Activities" "Cash From Ops (TTM)" ;;
        pull cf col "Capital Expenditures" "CapEx (TTM)" ;;
        reading (λ out,
        eval (getitem out "Cash From Ops (TTM)") (λ cfo,
        eval (getitem out "CapEx (TTM)") (λ capex,
        when (negb (is_none cfo) && negb (is_none capex)) (
          setitem "Free Cash Flow (TTM)" (py_add cfo capex)))))))
  | None => skip
  end).

Definition get_statement_metrics (stock : Ticker) : pymap :=
  let out := out_init in
  let out := try_except (income_statement stock) out in
  let out := try_except (cash_flow stock) out in
  out.

(** ** [get_stock_news] *)

(** An entry of the provider's news feed: a dictionary, or anything else. *)
Inductive feed_item : Type :=
  | FeedDict (d : pymap)
  | FeedOther (v : pyval).

(** An [<item>] of the RSS document: the text of the children found. *)
Record rss_item : Type := {
  rss_title : option string;
  rss_link : option string;
  rss_pubDate : option string
}.

(** The HTTP response: its status and the items of the parsed body (parsing
    may raise). *)
Record Response : Type := {
  status_code : Z;
  soup_items : result (list rss_item)
}.

(** A function body that either falls through to the next statement or has
    executed [return]. *)
Inductive flow (D : Type) : Type :=
  | Next (d : D)
  | Return (d : D).

Arguments Next {D} d.
Arguments Return {D} d.

(** [title.rsplit(sep, 1)] when [sep] occurs in [title]: the text before and
    after the last occurrence. *)
Fixpoint is_prefix (p l : list ascii) : bool :=
  match p, l with
  | [], _ => true
  | a :: p', b :: l' => bool_decide (a = b) && is_prefix p' l'
  | _ :: _, [] => false
  end.

Fixpoint rsplit1 (sep l : list ascii) : option (list ascii * list ascii) :=
  match l with
  | [] => None
  | c :: l' =>
      match rsplit1 sep l' with
      | Some (a, b) => Some (c :: a, b)
      | None => if is_prefix sep l then Some ([], drop (length sep) l) else None
      end
  end.

Definition news_item (title publisher link published : pyval) : pydict :=
  [("Title", title); ("Publisher", publisher); ("Link", link); ("Published", published)].

Section News.

(** [yf.Ticker(ticker).news]: raises, or gives [None] or a list. *)
Variable ticker_news : string → result (option (list feed_item)).
(** [datetime.fromtimestamp(t).strftime('%Y-%m-%d %H:%M')] *)
Variable timestamp_text : pyval → result string.
(** [requests.get(url, timeout=10)] *)
Variable requests_get : string → result Response.

(** [item.get(k, d)] *)
Definition item_get (item : feed_item) (k : string) (d : pyval) : result pyval :=
  match item with
  | FeedDict m => Ok (get_or m k d)
  | FeedOther _ => Err AttributeError
  end.

(** The body of the loop of the first method. *)
Definition feed_step (item : feed_item) : block (list pydict) :=
  eval (item_get item "title" NA) (λ title,
  eval (item_get item "publisher" NA) (λ publisher,
  eval (item_get item "link" NA) (λ link,
  eval (item_get item "providerPublishTime" (VInt 0)) (λ pub_time,
  eval (if py_truthy pub_time then py_gt_zero pub_time else Ok false) (λ positive,
  let published :=
    if positive then
      match timestamp_text pub_time with
      | Ok s => VStr s
      | Err _ => VStr "Recent"
      end
    else VStr "Recent" in
  if py_eq_str title "N/A" && py_eq_str publisher "N/A" && py_eq_str link "N/A"
  then skip
  else λ news_data, Normal (news_data ++ [news_item title publisher link published])))))).

Fixpoint for_each {A D} (body : A → block D) (l : list A) : block D :=
  match l with
  | [] => skip
  | a :: l' => body a ;; for_each body l'
  end.

(** Method 1: the provider's feed. *)
Definition yfinance_news (ticker : string) (news_data : list pydict) : flow (list pydict) :=
  match ticker_news ticker with
  | Err _ => Next news_data
  | Ok news =>
      match news with
      | Some ((_ :: _) as news) =>
          match for_each feed_step (take 10 news) news_data with
          | Raised _ news_data => Next news_data
          | Normal news_data =>
              if (0 <? length news_data)%nat then Return news_data
              else Next news_data
          end
      | _ => Next news_data
      end
  end.

(** The body of the loop of the second method. *)
Definition rss_step (item : rss_item) (news_data : list pydict) : list pydict :=
  let title := default "N/A" (rss_title item) in
  let link := default "N/A" (rss_link item) in
  let pub_date := default "Recent" (rss_pubDate item) in
  let '(actual_title, publisher) :=
    match rsplit1 (chars " - ") (chars title) with
    | Some (a, b) => (text a, text b)
    | None => (title, "Google News")
    end in
  news_data ++
    [news_item (VStr actual_title) (VStr publisher) (VStr link)
       (VStr (if (16 <? py_len pub_date)%nat
              then str_take 16 pub_date else pub_date))].

Definition rss_url (ticker : string) : string :=
  "https://news.google.com/rss/search?q=" +:+ ticker +:+ "+stock&hl=en-US&gl=US&ceid=US:en".

(** Method 2: the RSS search. *)
Definition google_rss_news (ticker : string) (news_data : list pydict) : flow (list pydict) :=
  match requests_get (rss_url ticker) with
  | Err _ => Next news_data
  | Ok response =>
      if status_code response =? 200 then
        match soup_items response with
        | Err _ => Next news_data
        | Ok items =>
            let news_data := fold_left (λ d item, rss_step item d) (take 10 items) news_data in
            if (0 <? length news_data)%nat then Return news_data
            else Next news_data
        end
      else Next news_data
  end.

Definition placeholder (ticker : string) : pydict :=
  news_item
    (VStr ("Click to view " +:+ ticker +:+ " news on Yahoo Finance"))
    (VStr "Yahoo Finance")
    (VStr ("https://finance.yahoo.com/quote/" +:+ ticker +:+ "/news"))
    (VStr "N/A").

Definition get_stock_news (ticker : string) : list pydict :=
  let news_data := [] in
  match yfinance_news ticker news_data with
  | Return news_data => news_data
  | Next news_data =>
      match google_rss_news ticker news_data with
      | Return news_data => news_data
      | Next news_data =>
          if (length news_data =? 0)%nat then news_data ++ [placeholder ticker]
          else news_data
      end
  end.

End News.

(** ** [compare_stocks]

    The Compare sheet is a grid of cell values addressed by row and column
    number (column A is 1); an empty cell reads [None]. Only cell values
    are modelled: fonts, colours, widths and the chart picture are not. *)

Definition Sheet : Type := nat → nat → pyval.

(** [sheet.range(row, col).value = v] *)
Definition write (sh : Sheet) (r c : nat) (v : pyval) : Sheet :=
  λ r' c', if ((r' =? r) && (c' =? c))%nat then v else sh r' c'.

(** [sheet.range(row, col).value = [vs]]: a row of values from [(r, c)]. *)
Fixpoint write_row (sh : Sheet) (r c : nat) (vs : list pyval) : Sheet :=
  match vs with
  | [] => sh
  | v :: vs' => write_row (write sh r c v) r (S c) vs'
  end.

(** [sheet.range('A10:Z200').clear_contents()] *)
Definition clear_contents (sh : Sheet) (r1 c1 r2 c2 : nat) : Sheet :=
  λ r c, if ((r1 <=? r) && (r <=? r2) && (c1 <=? c) && (c <=? c2))%nat
         then VNone else sh r c.

(** The status cell B7. *)
Definition set_status (sh : Sheet) (msg : string) : Sheet := write sh 7 2 (VStr msg).

Definition period_map : list (string * string) :=
  [ ("1 Week", "5d"); ("1 Month", "1mo"); ("3 Months", "3mo"); ("6 Months", "6mo");
    ("1 Year", "1y"); ("2 Years", "2y"); ("5 Years", "5y"); ("Max", "max") ].

Fixpoint assoc_get (l : list (string * string)) (k d : string) : string :=
  match l with
  | [] => d
  | (k', v) :: l' => if String.eqb k' k then v else assoc_get l' k d
  end.

(** What [get_stock_data] gave for a ticker that was processed. *)
Record stock_entry : Type := {
  e_stock : Ticker;
  e_hist : history;
  e_info : pymap;
  e_metrics : pydict
}.

Section Compare.

(** [get_stock_data(ticker, period)]: [(stock, hist, info)], or the triple
    of [None]s it returns when fetching raised. *)
Variable get_stock_data : string → string → option (Ticker * history * pymap).
(** [repr] of a float, for [str] of a numeric cell. *)
Variable float_repr : spec_float → string.
(** [str(e)] of a caught exception. *)
Variable exn_message : exn → string.
(** The chart of the comparison, drawn outside the grid; it may raise. *)
Variable draw_chart : list (string * history) → result unit.

(** [str(v)] *)
Definition py_str (v : pyval) : string :=
  match v with
  | VNone => "None"
  | VBool b => if b then "True" else "False"
  | VInt z | VInt64 z => dec_of_Z z
  | VFloat f => float_repr f
  | VStr s => s
  end.

(** The ticker list built from the cells B2, B3 and B4. *)
Definition read_tickers (sh : Sheet) : list string :=
  fold_left
    (λ tickers t,
      if py_truthy t && negb (String.eqb (strip (py_str t)) "")
      then tickers ++ [str_upper (strip (py_str t))]
      else tickers)
    [sh 2 2; sh 3 2; sh 4 2]%nat [].

Definition read_period (sh : Sheet) : string :=
  let period_option := if py_truthy (sh 5 2)%nat then sh 5%nat 2%nat else VStr "1 Year" in
  assoc_get period_map (strip (py_str period_option)) "1y".

(** The loop that fetches every ticker: [inr] is the sheet at an early
    [return], [inl] the sheet and the data when the loop completes. *)
Fixpoint fetch_all (period : string) (n : nat) (todo : list string) (i : nat)
    (sh : Sheet) (stock_data : gmap string stock_entry)
  : Sheet * gmap string stock_entry + Sheet :=
  match todo with
  | [] => inl (sh, stock_data)
  | ticker :: todo' =>
      let sh := set_status sh
        ("Loading " +:+ ticker +:+ " (" +:+ dec_of_nat (i + 1) +:+ "/" +:+ dec_of_nat n +:+ ")...") in
      match get_stock_data ticker period with
      | Some (stock, (_ :: _) as hist, info) =>
          (* neither call can raise: both swallow their exceptions *)
          let statement_metrics := get_statement_metrics stock in
          let metrics := calculate_key_metrics info hist statement_metrics in
          fetch_all period n todo' (S i) sh
            (<[ticker := {| e_stock := stock; e_hist := hist; e_info := info;
                            e_metrics := metrics |}]> stock_data)
      | _ => inr (set_status sh ("Error loading " +:+ ticker +:+ " - no data returned"))
      end
  end.

(** [stock_data[ticker]] *)
Definition entry_of (stock_data : gmap string stock_entry) (ticker : string)
  : result stock_entry :=
  from_option Ok (Err KeyError) (stock_data !! ticker).

(** [for i, ticker in enumerate(tickers): sheet.range(row, i + 2).value = f ticker] *)
Fixpoint fill_columns (f : stock_entry → string → pyval)
    (stock_data : gmap string stock_entry) (row : nat) (i : nat)
    (tickers : list string) : block Sheet :=
  match tickers with
  | [] => skip
  | ticker :: rest =>
      eval (entry_of stock_data ticker) (λ entry sh,
        fill_columns f stock_data row (S i) rest (write sh row (i + 2) (f entry ticker)))
  end.

Fixpoint metric_rows (stock_data : gmap string stock_entry) (tickers : list string)
    (row : nat) (metric_keys : list string) : block Sheet * nat :=
  match metric_keys with
  | [] => (skip, row)
  | metric_name :: rest =>
      let '(more, row') := metric_rows stock_data tickers (S row) rest in
      ((λ sh, Normal (write sh row 1 (VStr metric_name))) ;;
       fill_columns (λ entry _, dict_get (e_metrics entry) metric_name NA)
         stock_data row 0 tickers ;;
       more, row')
  end.

Fixpoint section_rows (stock_data : gmap string stock_entry) (tickers : list string)
    (row : nat) (secs : list (string * list string)) : block Sheet :=
  match secs with
  | [] => skip
  | (section_name, metric_keys) :: rest =>
      let '(body, row') := metric_rows stock_data tickers (S row) metric_keys in
      (λ sh, Normal (write_row sh row 1
               (VStr section_name :: replicate (length tickers) (VStr "")))) ;;
      body ;;
      section_rows stock_data tickers (S row') rest
  end.

(** The comparison table, from the title in A10 down. *)
Definition build_table (stock_data : gmap string stock_entry) (tickers : list string)
  : block Sheet :=
  (λ sh, Normal (write sh 10 1 (VStr "STOCK COMPARISON"))) ;;
  (λ sh, Normal (write sh 12 1 (VStr "Metric"))) ;;
  (λ sh, Normal (write_row sh 12 2 (map VStr tickers))) ;;
  (λ sh, Normal (write sh 13 1 (VStr "Company Name"))) ;;
  fill_columns (λ entry ticker, get_or (e_info entry) "longName" (VStr ticker))
    stock_data 13 0 tickers ;;
  section_rows stock_data tickers 14 sections.

Definition chart_step (stock_data : gmap string stock_entry) (tickers : list string)
  : block Sheet :=
  λ sh,
    match draw_chart (omap (λ t, e ← stock_data !! t; Some (t, e_hist e)) tickers) with
    | Ok _ => Normal sh
    | Err e => Normal (set_status sh ("Chart error: " +:+ exn_message e))
    end.

Definition compare_stocks (compare_sheet : Sheet) : Sheet :=
  let tickers := read_tickers compare_sheet in
  let period := read_period compare_sheet in
  if (length tickers <? 2)%nat then
    set_status compare_sheet "Please enter at least 2 tickers"
  else
    let compare_sheet := clear_contents compare_sheet 10 1 200 26 in
    match fetch_all period (length tickers) tickers 0 compare_sheet ∅ with
    | inr compare_sheet => compare_sheet
    | inl (compare_sheet, stock_data) =>
        let body :=
          (λ sh, Normal (set_status sh "Building comparison table...")) ;;
          build_table stock_data tickers ;;
          (λ sh, Normal (set_status sh "Creating chart...")) ;;
          chart_step stock_data tickers ;;
          (λ sh, Normal (set_status sh "âœ“ Comparison complete!")) in
        match body compare_sheet with
        | Normal sh => sh
        | Raised e sh => set_status sh ("Error: " +:+ exn_message e)
        end
    end.

End Compare.

(** ** [get_stock_data] *)

Section Provider.

(** [yf.Ticker(ticker)] *)
Variable yf_Ticker : string → result Ticker.
(** [stock.history(period=period)] of the ticker object of a symbol *)
Variable ticker_history : string → string → result history.
(** [stock.info] of the ticker object of a symbol *)
Variable ticker_info : string → result pymap.

Definition get_stock_data (ticker period : string) : option (Ticker * history * pymap) :=
  match (stock ← yf_Ticker ticker;
         hist ← ticker_history ticker period;
         info ← ticker_info ticker;
         Ok (stock, hist, info)) with
  | Ok fetched => Some fetched
  | Err _ => None
  end.

End Provider.

(** ** [update_news_sheet]

    The workbook has the sheets Single and News. Of a sheet the cell values
    are modelled, as for the Compare sheet; of the News sheet also the
    hyperlinks the macros add to its column D, as the list of the rows and
    addresses added. Fonts, colours, borders and column widths are not
    modelled, and setting them is taken to succeed. *)

Record Workbook : Type := {
  single : Sheet;
  news : Sheet;
  hyperlinks : list (nat * string)
}.

(** [sheet.clear_contents()] *)
Definition clear_sheet (sh : Sheet) : Sheet := λ _ _, VNone.

Section NewsSheet.

Variable ticker_news : string → result (option (list feed_item)).
Variable timestamp_text : pyval → result string.
Variable requests_get : string → result Response.
(** [cell.api.Hyperlinks.Add(Anchor=cell.api, Address=link,
    TextToDisplay="View Article")] for the cell in column D of a row: it
    raises, or it adds the hyperlink and the cell shows the text to
    display. *)
Variable hyperlinks_add : nat → string → result unit.

(** The body of the loop over the news items. *)
Definition news_row (row : nat) (item : pydict) (st : Sheet * list (nat * string))
  : Sheet * list (nat * string) :=
  let '(news_sheet, links) := st in
  let news_sheet := write news_sheet row 1 (dict_get item "Title" (VStr "")) in
  let news_sheet := write news_sheet row 2 (dict_get item "Publisher" (VStr "")) in
  let news_sheet := write news_sheet row 3 (dict_get item "Published" (VStr "")) in
  let link := dict_get item "Link" (VStr "") in
  let news_sheet := write news_sheet row 4 (VStr "") in
  match link with
  | VStr address =>
      if is_prefix (chars "http") (chars address) then
        match hyperlinks_add row address with
        | Ok _ => (write news_sheet row 4 (VStr "View Article"), links ++ [(row, address)])
        | Err _ => (write news_sheet row 4 link, links)
        end
      else (write news_sheet row 4 (VStr ""), links)
  | _ => (write news_sheet row 4 (VStr ""), links)
  end.

Fixpoint news_rows (row : nat) (news_data : list pydict) (st : Sheet * list (nat * string))
  : Sheet * list (nat * string) :=
  match news_data with
  | [] => st
  | item :: rest => news_rows (S row) rest (news_row row item st)
  end.

Definition update_news_sheet (ticker : string) (wb : Workbook) : Workbook :=
  let news_sheet := clear_sheet (news wb) in
  let news_data := get_stock_news ticker_news timestamp_text requests_get ticker in
  let news_sheet := write news_sheet 1 1 (VStr ("Recent News for " +:+ ticker)) in
  let news_sheet :=
    write_row news_sheet 3 1
      [VStr "Title"; VStr "Publisher"; VStr "Published"; VStr "Link"] in
  let '(news_sheet, links) := news_rows 4 news_data (news_sheet, hyperlinks wb) in
  {| single := single wb; news := news_sheet; hyperlinks := links |}.

End NewsSheet.

(** ** [analyze_stock] *)

(** The rows of a section of the Single sheet: the label in column A, what
    the metrics table holds for it in column B. *)
Fixpoint single_metric_rows (metrics : pydict) (row : nat) (keys : list string)
    (single_sheet : Sheet) : Sheet * nat :=
  match keys with
  | [] => (single_sheet, row)
  | key :: rest =>
      let single_sheet := write single_sheet row 1 (VStr key) in
      let single_sheet := write single_sheet row 2 (dict_get metrics key NA) in
      single_metric_rows metrics (S row) rest single_sheet
  end.

Fixpoint single_section_rows (metrics : pydict) (row : nat)
    (secs : list (string * list string)) (single_sheet : Sheet) : Sheet * nat :=
  match secs with
  | [] => (single_sheet, row)
  | (section_name, keys) :: rest =>
      let single_sheet := write single_sheet row 1 (VStr section_name) in
      let '(single_sheet, row) := single_metric_rows metrics (S row) keys single_sheet in
      single_section_rows metrics (S row) rest single_sheet
  end.

Section Analyze.

Variable get_stock_data : string → string → option (Ticker * history * pymap).
Variable float_repr : spec_float → string.
Variable exn_message : exn → string.
(** [datetime.now().strftime('%Y-%m-%d %H:%M')] *)
Variable now_text : string.
(** The price and volume chart, drawn outside the grid from the ticker, the
    period option, the history and the quote snapshot; it may raise. *)
Variable draw_price_chart : string → pyval → history → pymap → result unit.
Variable ticker_news : string → result (option (list feed_item)).
Variable timestamp_text : pyval → result string.
Variable requests_get : string → result Response.
Variable hyperlinks_add : nat → string → result unit.

(** The workbook with its Single sheet replaced. *)
Definition with_single (wb : Workbook) (single_sheet : Sheet) : Workbook :=
  {| single := single_sheet; news := news wb; hyperlinks := hyperlinks wb |}.

(** [str(ticker).upper().strip()] for the ticker cell B2 *)
Definition read_ticker (single_sheet : Sheet) : string :=
  strip (str_upper (py_str float_repr (single_sheet 2%nat 2%nat))).

(** [period_map.get(str(period_option).strip(), '1y')] for the period cell B3 *)
Definition read_single_period (single_sheet : Sheet) : string :=
  assoc_get period_map (strip (py_str float_repr (single_sheet 3%nat 2%nat))) "1y".

Definition analyze_stock (wb : Workbook) : Workbook :=
  let single_sheet := single wb in
  let period_option := single_sheet 3%nat 2%nat in
  if negb (py_truthy (single_sheet 2%nat 2%nat)) then
    with_single wb (write single_sheet 5 2 (VStr "Please enter a ticker symbol"))
  else
    let ticker := read_ticker single_sheet in
    let period := read_single_period single_sheet in
    let single_sheet :=
      write single_sheet 5 2 (VStr ("Loading data for " +:+ ticker +:+ "...")) in
    match get_stock_data ticker period with
    | Some (stock, (_ :: _) as hist, info) =>
        let single_sheet := clear_contents single_sheet 7 1 200 3 in
        let statement_metrics := get_statement_metrics stock in
        let metrics := calculate_key_metrics info hist statement_metrics in
        let single_sheet := write single_sheet 7 1 (VStr ("STOCK ANALYSIS: " +:+ ticker)) in
        let single_sheet :=
          write single_sheet 8 1
            (VStr ("Company: " +:+ py_str float_repr (get_or info "longName" (VStr ticker)))) in
        let single_sheet :=
          write single_sheet 9 1
            (VStr ("Sector: " +:+ py_str float_repr (get_or info "sector" NA) +:+
                   " | Industry: " +:+ py_str float_repr (get_or info "industry" NA))) in
        let single_sheet := write single_sheet 10 1 (VStr ("Analysis Date: " +:+ now_text)) in
        let single_sheet := write single_sheet 12 1 (VStr "KEY METRICS") in
        let '(single_sheet, _) := single_section_rows metrics 14 sections single_sheet in
        let single_sheet :=
          match draw_price_chart ticker period_option hist info with
          | Ok _ => single_sheet
          | Err e => write single_sheet 7 5 (VStr ("Chart error: " +:+ exn_message e))
          end in
        let wb :=
          update_news_sheet ticker_news timestamp_text requests_get hyperlinks_add
            ticker (with_single wb single_sheet) in
        with_single wb
          (write (single wb) 5 2 (VStr ("Analysis complete for " +:+ ticker +:+ "!")))
    | _ =>
        with_single wb
          (write single_sheet 5 2 (VStr ("Error: Could not fetch data for " +:+ ticker)))
    end.

End Analyze.


(** * Vocabulary of the properties *)

(** ** Blocks of assignments as lists *)

(** The assignments of a block as a list, run until the first exception. *)
Fixpoint run_steps (steps : list (string * result pyval)) (d : pydict) : pydict :=
  match steps with
  | [] => d
  | (k, Ok v) :: rest => run_steps rest (dict_set d k v)
  | (_, Err _) :: _ => d
  end.

(** The block that makes the assignments of a list one after the other. *)
Fixpoint assign_all (steps : list (string * result pyval)) : block pydict :=
  match steps with
  | [] => skip
  | (k, e) :: rest =>
      match rest with
      | [] => setitem k e
      | _ :: _ => setitem k e ;; assign_all rest
      end
  end.

(** The assignments of [calculate_key_metrics], in order. *)
Definition metric_steps (info statement_metrics : pymap) : list (string * result pyval) :=
  let revenue := get statement_metrics "Revenue (TTM)" in
  [ ("Revenue (TTM)", Ok (VStr (fmt_money (get statement_metrics "Revenue (TTM)"))));
    ("Net Income (TTM)", Ok (VStr (fmt_money (get statement_metrics "Net Income (TTM)"))));
    ("Operating Income (TTM)", Ok (VStr (fmt_money (get statement_metrics "Operating Income (TTM)"))));
    ("EBITDA (TTM)", Ok (VStr (fmt_money (get statement_metrics "EBITDA (TTM)"))));
    ("Profit Margin", margin revenue (get statement_metrics "Net Income (TTM)"));
    ("Operating Margin", margin revenue (get statement_metrics "Operating Income (TTM)"));
    ("EBITDA Margin", margin revenue (get statement_metrics "EBITDA (TTM)"));
    ("Return on Equity (ROE)", percent_or_na (get_or info "returnOnEquity" VNone));
    ("Revenue Growth (YoY)", percent_or_na (get_or info "revenueGrowth" VNone));
    ("Earnings Growth (YoY)", percent_or_na (get_or info "earningsGrowth" VNone));
    ("Current Price", Ok (get_or info "currentPrice" NA));
    ("Market Cap", Ok (VStr (fmt_money (get_or info "marketCap" VNone))));
    ("52-Week High", dollars_2f_or_na (get_or info "fiftyTwoWeekHigh" VNone));
    ("52-Week Low", dollars_2f_or_na (get_or info "fiftyTwoWeekLow" VNone));
    ("Distance from 52W High",
       distance_from_high (get_or info "currentPrice" VNone) (get_or info "fiftyTwoWeekHigh" VNone));
    ("P/E Ratio", round2_or_na (get_or info "trailingPE" VNone));
    ("Forward P/E", round2_or_na (get_or info "forwardPE" VNone));
    ("Price to Sales (P/S)", round2_or_na (get_or info "priceToSalesTrailing12Months" VNone));
    ("Dividend Yield", percent_or_na (get_or info "dividendYield" VNone));
    ("Payout Ratio", percent_or_na (get_or info "payoutRatio" VNone));
    ("Beta",
       if py_truthy (get info "beta") then py_round2 (get_or info "beta" (VInt 0)) else Ok NA) ].

(** The value a step assigns when it does not raise. *)
Definition step_value (e : result pyval) : pyval :=
  match e with Ok v => v | Err _ => VNone end.

Definition assigned (steps : list (string * result pyval)) : pydict :=
  map (λ s, (s.1, step_value s.2)) steps.

(** ** Numbers in range

    A figure is [None] or a number; an [int] is far inside the range of a
    float, so that the arithmetic of the calculator converts it freely. *)

Definition int_bound : Z := 2 ^ 1000.

Definition figure (v : pyval) : bool :=
  match v with
  | VNone | VBool _ | VFloat _ => true
  | VInt z => Z.abs z <? int_bound
  | VStr _ | VInt64 _ => false
  end.

(** An operand of the arithmetic: a number whose [int] converts to [float]. *)
Definition operand (v : pyval) : bool :=
  match v with
  | VBool _ | VFloat _ => true
  | VInt z => Z.abs z <? 2 * int_bound
  | VNone | VStr _ | VInt64 _ => false
  end.

Definition is_str (v : pyval) : bool :=
  match v with VStr _ => true | _ => false end.

Definition is_number (v : pyval) : bool :=
  match v with VInt _ | VFloat _ | VInt64 _ => true | _ => false end.

(** The quote fields the calculator reads. *)
Definition quote_fields : list string :=
  [ "returnOnEquity"; "revenueGrowth"; "earningsGrowth"; "currentPrice"; "marketCap";
    "fiftyTwoWeekHigh"; "fiftyTwoWeekLow"; "trailingPE"; "forwardPE";
    "priceToSalesTrailing12Months"; "dividendYield"; "payoutRatio"; "beta" ].

(** The statement figures the calculator reads. *)
Definition statement_fields : list string :=
  [ "Revenue (TTM)"; "Net Income (TTM)"; "Operating Income (TTM)"; "EBITDA (TTM)" ].

(** Every listed field of the mapping is absent, [None] or a number. *)
Definition figures (m : pymap) (fields : list string) : Prop :=
  Forall (λ k, figure (get m k) = true) fields.

#[global] Instance figures_dec (m : pymap) (fields : list string) :
  Decision (figures m fields).
Proof. unfold figures. apply _. Defined.

(** A figure read from a numeric column of a statement table: [None] where
    the row is missing, a float, or a 64-bit integer. *)
Definition np_figure (v : pyval) : bool :=
  match v with
  | VNone | VFloat _ => true
  | VInt64 z => in_int64 z
  | VBool _ | VInt _ | VStr _ => false
  end.

Definition np_figures (m : pymap) (fields : list string) : Prop :=
  Forall (λ k, np_figure (get m k) = true) fields.

#[global] Instance np_figures_dec (m : pymap) (fields : list string) :
  Decision (np_figures m fields).
Proof. unfold np_figures. apply _. Defined.

(** The statement figures the calculator reads are all of Python's kinds or
    all of numpy's. *)
Definition statement_figures (statement_metrics : pymap) : Prop :=
  figures statement_metrics statement_fields ∨ np_figures statement_metrics statement_fields.

#[global] Instance statement_figures_dec (statement_metrics : pymap) :
  Decision (statement_figures statement_metrics).
Proof. unfold statement_figures. apply _. Defined.

(** ** The entries of the metrics table *)


(** The labels that hold a number rounded to two decimals. *)
Definition rounded_labels : list string :=
  ["P/E Ratio"; "Forward P/E"; "Price to Sales (P/S)"; "Beta"].

(** The same labels with the quote field each one reads. *)
Definition rounded_rows : list (string * string) :=
  [ ("P/E Ratio", "trailingPE"); ("Forward P/E", "forwardPE");
    ("Price to Sales (P/S)", "priceToSalesTrailing12Months"); ("Beta", "beta") ].

(** What the entry under a label may hold. *)
Definition entry_shape (info : pymap) (label : string) (v : pyval) : Prop :=
  (label ≠ "Current Price" → label ∉ rounded_labels → is_str v = true) ∧
  (label = "Current Price" → v = get_or info "currentPrice" NA) ∧
  (label ∈ rounded_labels → v = NA ∨ is_number v = true).

(** What the sheets show for a label: [metrics.get(key, "N/A")]. *)
Definition rendered (metrics : pydict) (key : string) : pyval := dict_get metrics key NA.

(** The text of a fraction with two decimals: two digits. *)
Definition two_digit_text (s : string) : bool :=
  match s with
  | String d1 (String d2 EmptyString) => is_digit d1 && is_digit d2
  | _ => false
  end.

(** ** Decimal text *)

(** A text of decimal digits, at least one. *)
Definition all_digits (s : string) : bool :=
  match chars s with
  | [] => false
  | l => forallb is_digit l
  end.

(** A text of digits in groups of three from the right, with a comma
    between the groups: read from the right, three digits and a comma as
    long as digits follow, then one to three digits. *)
Fixpoint grouped_rev (l : list ascii) : bool :=
  match l with
  | [] => false
  | a :: b :: c :: d :: rest =>
      bool_decide (d = ","%char) && is_digit a && is_digit b && is_digit c &&
      grouped_rev rest
  | _ => forallb is_digit l
  end.

Definition comma_grouped (s : string) : bool := grouped_rev (rev (chars s)).

(** The text without its commas. *)
Definition without_commas (s : string) : string :=
  text (filter (λ c, c ≠ ","%char) (chars s)).

(** [n] is an integer nearest to [m * 2^e * 10^k]: no integer is nearer. *)
Definition nearest_scaled (m : positive) (e : Z) (k : nat) (n : Z) : Prop :=
  let num := Zpos m * 10 ^ Z.of_nat k in
  if e <? 0 then 2 * Z.abs (n * 2 ^ (- e) - num) <= 2 ^ (- e)
  else n = num * 2 ^ e.

Definition sign_text (s : bool) : string := if s then "-" else "".

(** The numeral of [n / 10^k] with [k] decimals, for [k] at least one. *)
Definition decimal_text (k : nat) (n : Z) : string :=
  dec_of_Z (n / 10 ^ Z.of_nat k) +:+ "." +:+ zero_pad k (dec_of_Z (n mod 10 ^ Z.of_nat k)).

(** The text [s] shows the float [x] with [k] decimals: the sign, and the
    numeral of an integer number of units of [10^-k] that is nearest to the
    magnitude of [x]; an infinity and a [nan] are spelled out. *)
Definition shows_float (k : nat) (x : spec_float) (s : string) : Prop :=
  match x with
  | S754_nan => s = "nan"
  | S754_infinity sg => s = sign_text sg +:+ "inf"
  | S754_zero sg => s = sign_text sg +:+ decimal_text k 0
  | S754_finite sg m e =>
      ∃ n, 0 <= n ∧ nearest_scaled m e k n ∧ s = sign_text sg +:+ decimal_text k n
  end.

(** The float [r] is the float [f] rounded to two decimals: the float
    nearest to [n / 100] for an integer [n] nearest to a hundred times the
    magnitude of [f], with the sign of [f]. *)
Definition rounded_2 (f r : spec_float) : Prop :=
  match f with
  | S754_finite s m e =>
      ∃ n, 0 <= n ∧ nearest_scaled m e 2 n ∧
           r = match n with
               | Zpos p => B64.of_ratio s p 100
               | _ => S754_zero s
               end
  | _ => r = f
  end.

(** The value [v] is the number [x] rounded to two decimals as [round]
    does it: an integer is kept as it is, a boolean as the integer it is,
    and a float is rounded. *)
Definition round2_of (x v : pyval) : Prop :=
  match x with
  | VBool b => v = VInt (Z.b2z b)
  | VInt z => v = VInt z
  | VInt64 z => v = VInt64 z
  | VFloat f => ∃ r, v = VFloat r ∧ rounded_2 f r
  | VNone | VStr _ => False
  end.

(** A text with two decimals: an optional minus sign, digits, a point and
    two digits. *)
Definition two_decimal_text (s : string) : Prop :=
  ∃ sgn ip frac,
    s = sgn +:+ ip +:+ "." +:+ frac ∧ (sgn = "" ∨ sgn = "-") ∧
    all_digits ip = true ∧ two_digit_text frac = true.

(** [n] is a whole number nearest to the float [x], which is not negative. *)
Definition nearest_whole (x : spec_float) (n : Z) : Prop :=
  match x with
  | S754_zero _ => n = 0
  | S754_finite _ m e => 0 <= n ∧ nearest_scaled m e 0 n
  | S754_infinity _ | S754_nan => False
  end.

(** The text of a float formatted with [.2f]. *)
Definition shown_2f (x : spec_float) (s : string) : Prop :=
  shows_float 2 x s ∧ (B64.is_finite x = true → two_decimal_text s).

(** ** The fields of the statement extractor *)

(** [out[k] = v] if [c], else nothing. *)
Definition put_if (c : bool) (k : string) (v : pyval) (out : pymap) : pymap :=
  if c then <[k := v]> out else out.

(** The entry of the latest column in a row of a table that is there and is
    not empty. *)
Definition usable (t : result (option DataFrame)) : option (DataFrame * string) :=
  match t with
  | Ok (Some df) =>
      if df_empty df then None
      else match columns df with
           | col :: _ => Some (df, col)
           | [] => None
           end
  | _ => None
  end.

(** The free cash flow assigned after the two cash-flow rows were read. *)
Definition put_free_cash_flow (out : pymap) : pymap :=
  match out !! "Cash From Ops (TTM)", out !! "CapEx (TTM)" with
  | Some cfo, Some capex =>
      if negb (is_none cfo) && negb (is_none capex) then
        match py_add cfo capex with
        | Ok v => <["Free Cash Flow (TTM)" := v]> out
        | Err _ => out
        end
      else out
  | _, _ => out
  end.

(** The rows read from each statement and the fields they fill. *)
Definition income_rows : list (string * string) :=
  [ ("Total Revenue", "Revenue (TTM)"); ("Net Income", "Net Income (TTM)");
    ("Operating Income", "Operating Income (TTM)"); ("EBITDA", "EBITDA (TTM)") ].

Definition cash_rows : list (string * string) :=
  [ ("Total Cash From Operating Activities", "Cash From Ops (TTM)");
    ("Capital Expenditures", "CapEx (TTM)") ].

Definition out_fields : list string :=
  [ "Revenue (TTM)"; "Net Income (TTM)"; "Operating Income (TTM)"; "EBITDA (TTM)";
    "Cash From Ops (TTM)"; "CapEx (TTM)"; "Free Cash Flow (TTM)" ].

(** What a field read from a row of a table must hold. *)
Definition pulled (t : result (option DataFrame)) (row : string) : pyval :=
  match usable t with
  | Some (df, col) => if in_index row df then cell df row col else VNone
  | None => VNone
  end.

(** ** The Compare sheet *)

(** [get_stock_data] gave a ticker object and a price history with rows. *)
Definition acquired (r : option (Ticker * history * pymap)) : bool :=
  match r with
  | Some (_, _ :: _, _) => true
  | _ => false
  end.

(** The cells of the range A10:Z200, where the comparison table goes. *)
Definition in_table_range (r c : nat) : bool :=
  ((10 <=? r) && (r <=? 200) && (1 <=? c) && (c <=? 26))%nat.

(** ** News items *)

(** The second method followed by the fallback. *)
Definition rss_then_placeholder (requests_get : string → result Response)
    (ticker : string) (news_data : list pydict) : list pydict :=
  match google_rss_news requests_get ticker news_data with
  | Return news_data => news_data
  | Next news_data =>
      if (length news_data =? 0)%nat then news_data ++ [placeholder ticker]
      else news_data
  end.

Definition is_normal {D} (o : outcome D) : bool :=
  match o with Normal _ => true | Raised _ _ => false end.

Definition item_fields : list string := ["Title"; "Publisher"; "Link"; "Published"].

(** A list of news items: each has the four fields, in order. *)
Definition well_formed (news_data : list pydict) : Prop :=
  Forall (λ item, keys item = item_fields) news_data.

(** ** Sample inputs *)

(** Statement figures of a sample company, as integers. *)
Definition sample_statement : pymap :=
  <["Revenue (TTM)" := VInt 394328000000]> (
  <["Net Income (TTM)" := VInt 99803000000]> out_init).


(** The same figures as the entries of a column of 64-bit integers. *)
Definition sample_statement64 : pymap :=
  <["Revenue (TTM)" := VInt64 394328000000]> (
  <["Net Income (TTM)" := VInt64 99803000000]> out_init).

(** A quote snapshot with a price only. *)
Definition info_priced : pymap :=
  {[ "currentPrice" := VFloat (S754_finite false 5286451906347008 (-45)) ]}.

(** Every field the calculator reads is present and [None]. *)
Definition info_all_null : pymap :=
  list_to_map (map (λ k, (k, VNone)) quote_fields).

(** A snapshot whose trailing P/E is the text the provider sends for an
    infinite ratio. *)
Definition info_text_ratio : pymap := {[ "trailingPE" := VStr "Infinity" ]}.

(** A quote snapshot with a trailing price-earnings ratio of 28.456. *)
Definition info_ratio : pymap :=
  {[ "trailingPE" := VFloat (S754_finite false 8009651937278427 (-48)) ]}.

(** A quote snapshot whose beta and 52-week high are zero. *)
Definition info_zeroes : pymap :=
  <["beta" := VInt 0]> (<["fiftyTwoWeekHigh" := VFloat (S754_zero false)]> (
  <["marketCap" := VInt 0]> info_priced)).

(** A ticker whose cash-flow statement has both rows and whose income
    statement could not be fetched. *)
Definition sample_cashflow : DataFrame := {|
  columns := ["2023-09-30"; "2022-09-30"];
  index := ["Total Cash From Operating Activities"; "Capital Expenditures"];
  cell := λ row col,
    if String.eqb col "2023-09-30" then
      if String.eqb row "Capital Expenditures" then VInt (-1200000000)
      else VInt 5000000000
    else VInt 1
|}.

Definition sample_ticker : Ticker :=
  {| financials := Err ExternalError; cashflow := Ok (Some sample_cashflow) |}.

(** Cash-flow statements with one column, the cash from operations being
    [cfo] and the capital expenditures [capex]. *)
Definition cashflow_of (cfo capex : pyval) : Ticker :=
  {| financials := Err ExternalError;
     cashflow := Ok (Some {|
       columns := ["2023-09-30"];
       index := ["Total Cash From Operating Activities"; "Capital Expenditures"];
       cell := λ row col,
         if String.eqb row "Capital Expenditures" then capex else cfo |}) |}.

(** The floats 5e9, -1.2e9 and 3.8e9. *)
Definition f5e9 : spec_float := S754_finite false 5242880000000000 (-20).
Definition f_minus_1_2e9 : spec_float := S754_finite true 5033164800000000 (-22).
Definition f3_8e9 : spec_float := S754_finite false 7969177600000000 (-21).

(** A Compare sheet with two tickers typed in, and a provider that knows
    only the first of them. *)
Definition sample_sheet : Sheet := λ r c,
  match r, c with
  | 2, 2 => VStr "aapl"
  | 3, 2 => VStr " msft "
  | 5, 2 => VStr "1 Year"
  | 12, 1 => VStr "left over"
  | _, _ => VNone
  end%nat.

Definition sample_bar : price_row :=
  {| p_open := B64.of_Z 150; p_close := B64.of_Z 151; p_volume := B64.of_Z 1000 |}.

Definition only_aapl (ticker period : string) : option (Ticker * history * pymap) :=
  if String.eqb ticker "AAPL" then Some (sample_ticker, [sample_bar], info_priced)
  else None.

Definition every_ticker (ticker period : string) : option (Ticker * history * pymap) :=
  Some (sample_ticker, [sample_bar], <["longName" := VStr (ticker +:+ " Inc.")]> info_priced).

(** A feed whose second entry carries its publication time as text, and an
    RSS answer with ten items. *)
Definition feed_mistyped : list feed_item :=
  [ FeedDict (<["title" := VStr "Earnings beat estimates"]> (
              <["publisher" := VStr "Newswire"]> (
              <["link" := VStr "https://example.com/1"]> (
              {[ "providerPublishTime" := VInt 1700000000 ]}))));
    FeedDict (<["title" := VStr "Outlook raised"]> (
              {[ "providerPublishTime" := VStr "2024-01-01T09:30:00Z" ]})) ].

Definition rss_story : rss_item := {|
  rss_title := Some "Shares climb after results - Daily Ledger";
  rss_link := Some "https://news.example.com/story";
  rss_pubDate := Some "Mon, 01 Jan 2024 09:30:00 GMT"
|}.

Definition rss_ten : Response :=
  {| status_code := 200; soup_items := Ok (replicate 10 rss_story) |}.

(** ** The rows of the metrics table, again *)

(** The number of assignments of a block before the first one that raises. *)
Fixpoint ok_prefix (steps : list (string * result pyval)) : nat :=
  match steps with
  | (_, Ok _) :: rest => S (ok_prefix rest)
  | _ => O
  end.


(** The labels that are filled only from a quote field that is true, with
    the field each one reads. *)
Definition truthy_rows : list (string * string) :=
  [ ("52-Week Low", "fiftyTwoWeekLow");
    ("P/E Ratio", "trailingPE");
    ("Forward P/E", "forwardPE");
    ("Price to Sales (P/S)", "priceToSalesTrailing12Months") ].

(** ** The sources of the news *)

(** [sep in l] *)
Fixpoint contains (sep l : list ascii) : bool :=
  is_prefix sep l || match l with [] => false | _ :: l' => contains sep l' end.

(** The provider's feed gives nothing to read: it raises, is [None] or is
    empty. *)
Definition feed_silent (r : result (option (list feed_item))) : bool :=
  match r with
  | Ok (Some (_ :: _)) => false
  | _ => true
  end.

(** The RSS search gives nothing to read: the request raises, the status is
    not 200, the body does not parse or it has no item. *)
Definition rss_silent (r : result Response) : bool :=
  match r with
  | Ok response =>
      negb (status_code response =? 200) ||
      match soup_items response with
      | Ok (_ :: _) => false
      | _ => true
      end
  | Err _ => true
  end.

(** An entry of the feed the loop of the first method reads without raising:
    a dictionary whose publication time is not a non-empty text. *)
Definition typed_entry (item : feed_item) : bool :=
  match item with
  | FeedDict m =>
      match get_or m "providerPublishTime" (VInt 0) with
      | VStr s => String.eqb s ""
      | _ => true
      end
  | FeedOther _ => false
  end.

(** ** ASCII text *)

Definition is_ascii (c : ascii) : bool := code c <? 128.

(** A text whose code points are all below 128: each is one byte. *)
Definition ascii_text (s : string) : Prop :=
  Forall (λ c, is_ascii c = true) (chars s).

#[global] Instance ascii_text_dec (s : string) : Decision (ascii_text s).
Proof. unfold ascii_text. apply _. Defined.



(** ** Tickers *)



(** ** The layout of the tables *)

(** The rows of the labels of a section, one below the other from [row]. *)
Fixpoint label_rows (row : nat) (labels : list string) : list (nat * string) :=
  match labels with
  | [] => []
  | label :: rest => (row, label) :: label_rows (S row) rest
  end.

(** The rows of the section headers of a table that starts at [row]: a
    header, the labels of the section, a blank row. *)
Fixpoint header_layout (row : nat) (secs : list (string * list string))
  : list (nat * string) :=
  match secs with
  | [] => []
  | (section_name, labels) :: rest =>
      (row, section_name) :: header_layout (S (S row + length labels)) rest
  end.

(** The rows of the labels of such a table. *)
Fixpoint metric_layout (row : nat) (secs : list (string * list string))
  : list (nat * string) :=
  match secs with
  | [] => []
  | (_, labels) :: rest =>
      label_rows (S row) labels ++ metric_layout (S (S row + length labels)) rest
  end.

(** The rows a table that starts at [row] writes to. *)
Definition written_rows (row : nat) (secs : list (string * list string)) : list nat :=
  map fst (header_layout row secs ++ metric_layout row secs).

(** What the fetch loop stores for a ticker. *)
Definition entry_for (get_stock_data : string → string → option (Ticker * history * pymap))
    (period ticker : string) : option stock_entry :=
  match get_stock_data ticker period with
  | Some (stock, (_ :: _) as hist, info) =>
      Some {| e_stock := stock; e_hist := hist; e_info := info;
              e_metrics := calculate_key_metrics info hist (get_statement_metrics stock) |}
  | _ => None
  end.

(** A row of the comparison table shows a label: the label in column A
    and, under each ticker, what its metrics table holds for the label. *)
Definition shows (stock_data : gmap string stock_entry) (tickers : list string)
    (sh : Sheet) (r : nat) (label : string) : Prop :=
  sh r 1%nat = VStr label ∧
  ∀ j t e, tickers !! j = Some t → stock_data !! t = Some e →
           sh r (j + 2)%nat = dict_get (e_metrics e) label NA.

(** The cells of the comparison table for [n] tickers: the title, and the
    first [n + 1] columns of the header rows and of the rows below them. *)
Definition table_cell (n r c : nat) : bool :=
  ((r =? 10) && (c =? 1))%nat ||
  bool_decide (r ∈ [12; 13]%nat ++ written_rows 14 sections) && (1 <=? c)%nat && (c <=? n + 1)%nat.

(** ** The News sheet *)

(** A link the sheet can make a hyperlink of: a text that starts with
    "http". *)
Definition is_http (link : pyval) : bool :=
  match link with
  | VStr address => is_prefix (chars "http") (chars address)
  | _ => false
  end.

(** Adding the hyperlink for a link in a row raised. *)
Definition link_failed (hyperlinks_add : nat → string → result unit)
    (row : nat) (link : pyval) : bool :=
  match link with
  | VStr address =>
      is_prefix (chars "http") (chars address) && negb (is_ok (hyperlinks_add row address))
  | _ => false
  end.

(** What column D shows in the row of a news item: the text of the
    hyperlink when one was added, the link itself when adding it raised, and
    the empty text for a link that is not a text starting with "http". *)
Definition link_cell (hyperlinks_add : nat → string → result unit)
    (row : nat) (link : pyval) : pyval :=
  if link_failed hyperlinks_add row link then link
  else if is_http link then VStr "View Article" else VStr "".

(** The cells of the News sheet that a run with [n] news items writes. *)
Definition news_cell (n r c : nat) : bool :=
  ((r =? 1) && (c =? 1) ||
   ((r =? 3) || (4 <=? r) && (r <? 4 + n)) && (1 <=? c) && (c <=? 4))%nat.

(** The hyperlink added for a news item in a row, if any. *)
Definition link_of (hyperlinks_add : nat → string → result unit)
    (row : nat) (item : pydict) : list (nat * string) :=
  match dict_get item "Link" (VStr "") with
  | VStr address =>
      if is_http (VStr address) && is_ok (hyperlinks_add row address)
      then [(row, address)] else []
  | _ => []
  end.

(** The hyperlinks added for the news items written from [row] down. *)
Fixpoint links_of (hyperlinks_add : nat → string → result unit)
    (row : nat) (news_data : list pydict) : list (nat * string) :=
  match news_data with
  | [] => []
  | item :: rest => link_of hyperlinks_add row item ++ links_of hyperlinks_add (S row) rest
  end.

(** ** The Single sheet *)

(** The cells of the range A7:C200. *)
Definition in_single_range (r c : nat) : bool :=
  ((7 <=? r) && (r <=? 200) && (1 <=? c) && (c <=? 3))%nat.

(** The cells of the Single sheet that a successful run writes in the range
    A7:C200: the five heading lines and the section headers in column A, and
    the rows of the labels in columns A and B. *)
Definition single_cell (r c : nat) : bool :=
  bool_decide (r ∈ [7; 8; 9; 10; 12]%nat ++ (header_layout 14 sections).*1) && (c =? 1)%nat ||
  bool_decide (r ∈ (metric_layout 14 sections).*1) && ((c =? 1) || (c =? 2))%nat.

(** ** Exceptions of the provider *)

(** One of the three calls to the provider raises for a ticker. *)
Definition provider_fails (yf_Ticker : string → result Ticker)
    (ticker_history : string → string → result history)
    (ticker_info : string → result pymap) (period ticker : string) : bool :=
  negb (is_ok (yf_Ticker ticker)) || negb (is_ok (ticker_history ticker period)) ||
  negb (is_ok (ticker_info ticker)).

(** ** More sample inputs *)

(** A feed with two entries the loop reads without raising. *)
Definition feed_sample : list feed_item :=
  [ FeedDict (<["title" := VStr "Earnings beat estimates"]> (
              <["publisher" := VStr "Newswire"]> (
              <["link" := VStr "https://example.com/1"]> (
              {[ "providerPublishTime" := VInt 1700000000 ]}))));
    FeedDict (<["title" := VStr "Outlook raised"]> ∅) ].

(** An RSS answer with the status 404. *)
Definition rss_not_found : Response :=
  {| status_code := 404; soup_items := Ok [] |}.

(** A snapshot whose ratios are zero. *)
Definition info_flat : pymap :=
  <["returnOnEquity" := VInt 0]> (
  <["dividendYield" := VFloat (S754_zero false)]> (
  <["trailingPE" := VInt 0]> info_priced)).

(** A cash-flow statement whose capital expenditure is text. *)
Definition cashflow_text_capex : DataFrame := {|
  columns := ["2023-09-30"];
  index := ["Total Cash From Operating Activities"; "Capital Expenditures"];
  cell := λ row col,
    if String.eqb row "Capital Expenditures" then VStr "n/a" else VInt 5000000000
|}.

(** A ticker whose income statement has revenue and net income and whose
    cash-flow statement could not be fetched. *)
Definition sample_income : DataFrame := {|
  columns := ["2023-09-30"; "2022-09-30"];
  index := ["Total Revenue"; "Net Income"];
  cell := λ row col,
    if String.eqb col "2023-09-30" then
      if String.eqb row "Total Revenue" then VInt 394328000000 else VInt 99803000000
    else VInt 1
|}.

Definition sample_income_ticker : Ticker :=
  {| financials := Ok (Some sample_income); cashflow := Err ExternalError |}.

(** A workbook with a ticker typed in, an old chart error in E7, a line left
    over in C20 and an old News sheet. *)
Definition sample_workbook : Workbook :=
  {| single := λ r c,
       match r, c with
       | 2, 2 => VStr " aapl"
       | 3, 2 => VStr "6 Months"
       | 7, 5 => VStr "Chart error: old"
       | 20, 3 => VStr "left over"
       | _, _ => VNone
       end%nat;
     news := λ _ _, VStr "old news";
     hyperlinks := [] |}.

(** A workbook with no ticker typed in, an old line on the Single sheet and
    an old hyperlink on the News sheet. *)
Definition empty_workbook : Workbook :=
  {| single := λ r c, match r, c with 9, 1 => VStr "kept" | _, _ => VNone end%nat;
     news := λ _ _, VStr "old news";
     hyperlinks := [(4%nat, "https://example.com/old")] |}.

(** A hyperlink call that always raises. *)
Definition hyperlinks_refused (row : nat) (address : string) : result unit :=
  Err ExternalError.

(** A provider that raises for every ticker but AAPL. *)
Definition yf_only_aapl (ticker : string) : result Ticker :=
  if String.eqb ticker "AAPL" then Ok sample_ticker else Err ExternalError.

(** ** Tactics *)

Ltac split_figures :=
  unfold figures, quote_fields, statement_fields in *;
  repeat match goal with
    | H : Forall _ (_ :: _) |- _ =>
        let H1 := fresh "Hfig" in apply Forall_cons in H as [H1 H]
    end.

Ltac decide_closed := apply (bool_decide_unpack _); vm_compute; exact I.

Ltac not_a_label :=
  let H := fresh in
  intros H; repeat (apply elem_of_cons in H as [H|H]; [discriminate H|]);
  apply elem_of_nil in H; exact H.

Ltac only_step H :=
  unfold metric_steps in H;
  repeat (apply elem_of_cons in H as [H|H];
          [first [discriminate H | injection H as ->; reflexivity]|]);
  apply elem_of_nil in H; contradiction.

(** * Properties *)

(** ** Blocks of assignments *)

Lemma try_except_assign_all (steps : list (string * result pyval)) (d : pydict) :
  try_except (assign_all steps) d = run_steps steps d.
Proof.
  revert d. induction steps as [|[k e] rest IH]; intros d; [reflexivity|].
  destruct rest as [|step rest'].
  - destruct e; reflexivity.
  - specialize (IH (dict_set d k (match e with Ok v => v | Err _ => VNone end))).
    destruct e as [v|x]; [|reflexivity].
    exact IH.
Qed.

Lemma calculate_key_metrics_steps (info : pymap) (hist : history) (statement_metrics : pymap) :
  calculate_key_metrics info hist statement_metrics =
  run_steps (metric_steps info statement_metrics) [].
Proof. exact (try_except_assign_all (metric_steps info statement_metrics) []). Qed.

(** ** Text and its characters *)

Lemma text_chars (s : string) : text (chars s) = s.
Proof. apply string_of_list_ascii_of_string. Qed.

Lemma chars_text (l : list ascii) : chars (text l) = l.
Proof. apply list_ascii_of_string_of_list_ascii. Qed.

Lemma length_chars (s : string) : length (chars s) = String.length s.
Proof. induction s as [|c s IH]; simpl; [reflexivity|]. f_equal. exact IH. Qed.

Lemma length_text (l : list ascii) : String.length (text l) = length l.
Proof. rewrite <- length_chars, chars_text. reflexivity. Qed.

(** ** Association lists *)

Lemma dict_lookup_set (d : pydict) (k k' : string) (v : pyval) :
  dict_lookup (dict_set d k v) k' =
  if String.eqb k k' then Some v else dict_lookup d k'.
Proof.
  induction d as [|[k0 v0] d IH]; simpl.
  - reflexivity.
  - destruct (String.eqb_spec k0 k) as [->|Hne]; simpl.
    + destruct (String.eqb k k'); reflexivity.
    + rewrite IH. destruct (String.eqb_spec k0 k') as [->|Hne'];
        [|reflexivity].
      destruct (String.eqb_spec k k') as [->|_]; [congruence|reflexivity].
Qed.

Lemma dict_set_fresh (d : pydict) (k : string) (v : pyval) :
  k ∉ keys d → dict_set d k v = d ++ [(k, v)].
Proof.
  induction d as [|[k0 v0] d IH]; simpl; intros Hk; [reflexivity|].
  apply not_elem_of_cons in Hk as [Hne Hk].
  destruct (String.eqb_spec k0 k) as [->|_]; [congruence|].
  rewrite IH by assumption. reflexivity.
Qed.

Lemma keys_assigned (steps : list (string * result pyval)) :
  keys (assigned steps) = map fst steps.
Proof. unfold keys, assigned. rewrite map_map. reflexivity. Qed.

(** When no step raises and the labels are fresh and distinct, the block
    appends one entry per step, in order. *)
Lemma run_steps_all_ok (steps : list (string * result pyval)) (d : pydict) :
  Forall (λ s, is_ok s.2 = true) steps →
  NoDup (keys d ++ map fst steps) →
  run_steps steps d = d ++ assigned steps.
Proof.
  revert d. induction steps as [|[k e] steps IH]; intros d Hok Hnd; simpl.
  - rewrite app_nil_r. reflexivity.
  - apply Forall_cons in Hok as [Hk Hok]. simpl in Hk.
    destruct e as [v|x]; [|discriminate].
    assert (Hfresh : k ∉ keys d).
    { apply NoDup_app in Hnd as (_ & Hdis & _). intros Hin.
      apply (Hdis k Hin). simpl. left. }
    rewrite dict_set_fresh by assumption.
    rewrite IH; [rewrite <- app_assoc; reflexivity|assumption|].
    unfold keys in *. rewrite map_app, <- app_assoc. exact Hnd.
Qed.

(** Whatever the block left under a label was there before or was assigned
    by a step for that label. *)
Lemma run_steps_lookup (steps : list (string * result pyval)) (d : pydict)
    (k : string) (v : pyval) :
  dict_lookup (run_steps steps d) k = Some v →
  dict_lookup d k = Some v ∨ (k, Ok v) ∈ steps.
Proof.
  revert d. induction steps as [|[k0 e] steps IH]; intros d H; simpl in H.
  - left. exact H.
  - destruct e as [v0|x]; [|left; exact H].
    apply IH in H as [H|H].
    + rewrite dict_lookup_set in H.
      destruct (String.eqb_spec k0 k) as [->|_].
      * right. injection H as ->. left.
      * left. exact H.
    + right. right. exact H.
Qed.

(** ** Conversions in range *)

(** [int] to [float] overflows exactly from the first integer that rounds
    past the largest float; below it, the result is the nearest float. *)
Example overflow_threshold_is_sharp :
  B64.of_Z B64.overflow_threshold = S754_infinity false ∧
  B64.of_Z (B64.overflow_threshold - 1) = S754_finite false 9007199254740991 971 ∧
  int_to_float B64.overflow_threshold = Err OverflowError ∧
  int_to_float (B64.overflow_threshold - 1) =
    Ok (S754_finite false 9007199254740991 971).
Proof. vm_compute. repeat split. Qed.

(** Rounding a ratio agrees with dividing the floats when both integers are
    floats themselves. *)
Example of_ratio_agrees_with_div :
  B64.of_ratio false 1 3 = B64.div (B64.of_Z 1) (B64.of_Z 3) ∧
  B64.of_ratio false 1 10 = B64.div (B64.of_Z 1) (B64.of_Z 10) ∧
  B64.of_ratio true 7 1000000 = B64.div (B64.of_Z (-7)) (B64.of_Z 1000000).
Proof. vm_compute. repeat split. Qed.

Lemma int_bound_room : 200 * int_bound < B64.overflow_threshold.
Proof. vm_compute. reflexivity. Qed.

Lemma int_bound_pos : 1 < int_bound.
Proof. vm_compute. reflexivity. Qed.

Lemma int_to_float_small (z : Z) :
  Z.abs z < B64.overflow_threshold → int_to_float z = Ok (B64.of_Z z).
Proof.
  intros H. unfold int_to_float.
  destruct (Z.ltb_spec (Z.abs z) B64.overflow_threshold); [reflexivity|lia].
Qed.

(** ** Rounding keeps a nonzero number nonzero

    The mantissa of a positive number has [digits2_pos] bits; rounding shifts
    out fewer bits than that as long as the exponent is at least [emin], so
    what is left is positive. *)

Section RoundNonzero.

Variables prec emax : Z.
Hypothesis prec_pos : 0 < prec.

Local Abbreviation emin := (emin prec emax).
Local Abbreviation fexp := (fexp prec emax).

Lemma shr_1_m (mrs : shr_record) :
  0 <= shr_m mrs → shr_m (shr_1 mrs) = shr_m mrs / 2.
Proof.
  destruct mrs as [m r s]; simpl. intros Hm.
  destruct m as [|p|p]; [reflexivity| |lia].
  destruct p as [p|p|]; simpl shr_m.
  - rewrite Pos2Z.inj_xI. apply Z.div_unique with (r := 1); lia.
  - rewrite Pos2Z.inj_xO. apply Z.div_unique with (r := 0); lia.
  - reflexivity.
Qed.

Lemma iter_shr_1_m (n : positive) (mrs : shr_record) :
  0 <= shr_m mrs →
  shr_m (SpecFloat.iter_pos shr_1 n mrs) = shr_m mrs / 2 ^ Zpos n.
Proof.
  revert mrs. induction n as [n IH|n IH|]; intros mrs Hm; simpl SpecFloat.iter_pos.
  - assert (H1 : 0 <= shr_m (shr_1 mrs)).
    { rewrite shr_1_m by assumption. apply Z.div_pos; lia. }
    assert (H2 : 0 <= shr_m (SpecFloat.iter_pos shr_1 n (shr_1 mrs))).
    { rewrite IH by assumption. apply Z.div_pos; [assumption|].
      apply Z.pow_pos_nonneg; lia. }
    rewrite IH, IH, shr_1_m by assumption.
    rewrite !Z.div_div by (try apply Z.pow_pos_nonneg; lia).
    f_equal.
    replace (Zpos n~1) with (1 + Zpos n + Zpos n) by lia.
    rewrite !Z.pow_add_r by lia. lia.
  - assert (H2 : 0 <= shr_m (SpecFloat.iter_pos shr_1 n mrs)).
    { rewrite IH by assumption. apply Z.div_pos; [assumption|].
      apply Z.pow_pos_nonneg; lia. }
    rewrite IH, IH by assumption.
    rewrite !Z.div_div by (try apply Z.pow_pos_nonneg; lia).
    f_equal.
    replace (Zpos n~0) with (Zpos n + Zpos n) by lia.
    rewrite !Z.pow_add_r by lia. lia.
  - rewrite shr_1_m by assumption. reflexivity.
Qed.

Lemma digits2_pos_lower (p : positive) :
  2 ^ (Zpos (digits2_pos p) - 1) <= Zpos p.
Proof.
  induction p as [p IH|p IH|]; simpl digits2_pos.
  - rewrite Pos2Z.inj_succ.
    replace (Z.succ (Zpos (digits2_pos p)) - 1) with (1 + (Zpos (digits2_pos p) - 1)) by lia.
    rewrite Z.pow_add_r by lia. lia.
  - rewrite Pos2Z.inj_succ.
    replace (Z.succ (Zpos (digits2_pos p)) - 1) with (1 + (Zpos (digits2_pos p) - 1)) by lia.
    rewrite Z.pow_add_r by lia. lia.
  - reflexivity.
Qed.

Lemma shr_record_of_loc_m (m : Z) (l : location) :
  shr_m (shr_record_of_loc m l) = m.
Proof. destruct l as [|[]]; reflexivity. Qed.

Lemma shr_fexp_positive (m : positive) (e : Z) (l : location) :
  emin <= e →
  0 < shr_m (shr_fexp prec emax (Zpos m) e l).1 ∧
  emin <= (shr_fexp prec emax (Zpos m) e l).2.
Proof.
  intros He. unfold shr_fexp, shr. simpl Zdigits2.
  set (d := Zpos (digits2_pos m)).
  destruct (fexp (d + e) - e) as [|n|n] eqn:Hn; simpl;
    rewrite ?shr_record_of_loc_m; try (split; lia).
  rewrite iter_shr_1_m by (rewrite shr_record_of_loc_m; lia).
  rewrite shr_record_of_loc_m. split.
  - apply Z.div_str_pos. split; [apply Z.pow_pos_nonneg; lia|].
    pose proof (digits2_pos_lower m) as Hd. fold d in Hd.
    assert (Hle : Zpos n <= d - 1).
    { unfold SpecFloat.fexp in Hn. lia. }
    pose proof (Z.pow_le_mono_r 2 (Zpos n) (d - 1)) as Hp. lia.
  - lia.
Qed.

Lemma round_nearest_even_ge (m : Z) (l : location) :
  m <= round_nearest_even m l.
Proof.
  destruct l as [|[]]; simpl; try lia. destruct (Z.even m); lia.
Qed.

Lemma binary_round_aux_nonzero (s : bool) (m : positive) (e : Z) (l : location) :
  emin <= e →
  match binary_round_aux prec emax s (Zpos m) e l with
  | S754_zero _ | S754_nan => False
  | _ => True
  end.
Proof.
  intros He. unfold binary_round_aux.
  pose proof (shr_fexp_positive m e l He) as [Hm1 He1].
  destruct (shr_fexp prec emax (Zpos m) e l) as [mrs' e']. simpl in Hm1, He1.
  pose proof (round_nearest_even_ge (shr_m mrs') (loc_of_shr_record mrs')) as Hr.
  destruct (round_nearest_even (shr_m mrs') (loc_of_shr_record mrs')) as [|m1|m1];
    try lia.
  pose proof (shr_fexp_positive m1 e' loc_Exact He1) as [Hm2 _].
  destruct (shr_fexp prec emax (Zpos m1) e' loc_Exact) as [mrs'' e''].
  simpl in Hm2.
  destruct (shr_m mrs'') as [|m2|m2]; try lia.
  destruct (e'' <=? emax - prec); exact I.
Qed.

Lemma binary_round_nonzero (s : bool) (m : positive) (e : Z) :
  emin <= e →
  match binary_round prec emax s m e with
  | S754_zero _ | S754_nan => False
  | _ => True
  end.
Proof.
  intros He. unfold binary_round, shl_align.
  set (e' := fexp (Zpos (digits2_pos m) + e)).
  assert (He' : emin <= e') by (unfold e', SpecFloat.fexp; lia).
  destruct (e' - e); apply binary_round_aux_nonzero; assumption.
Qed.

End RoundNonzero.

Lemma of_Z_nonzero (z : Z) : z ≠ 0 → B64.is_zero (B64.of_Z z) = false.
Proof.
  intros Hz. unfold B64.of_Z, binary_normalize.
  destruct z as [|p|p]; [congruence| |].
  - pose proof (binary_round_nonzero B64.prec B64.emax eq_refl false p 0) as H.
    destruct (binary_round B64.prec B64.emax false p 0);
      try reflexivity; exfalso; apply H; vm_compute; discriminate.
  - pose proof (binary_round_nonzero B64.prec B64.emax eq_refl true p 0) as H.
    destruct (binary_round B64.prec B64.emax true p 0);
      try reflexivity; exfalso; apply H; vm_compute; discriminate.
Qed.

(** ** The sign of a float *)

Lemma binary_round_aux_opp (m e : Z) (l : location) :
  binary_round_aux B64.prec B64.emax true m e l =
  SFopp (binary_round_aux B64.prec B64.emax false m e l).
Proof.
  unfold binary_round_aux.
  destruct (shr_fexp B64.prec B64.emax m e l) as [mrs' e'].
  destruct (shr_fexp B64.prec B64.emax _ e' loc_Exact) as [mrs'' e''].
  destruct (shr_m mrs''); try reflexivity.
  destruct (e'' <=? B64.emax - B64.prec); reflexivity.
Qed.

Lemma binary_round_opp (m : positive) (e : Z) :
  binary_round B64.prec B64.emax true m e =
  SFopp (binary_round B64.prec B64.emax false m e).
Proof.
  unfold binary_round.
  destruct (shl_align m e _) as [mz ez]. apply binary_round_aux_opp.
Qed.

Lemma of_Z_opp (n : Z) : n ≠ 0 → B64.of_Z (- n) = SFopp (B64.of_Z n).
Proof.
  intros Hn. destruct n as [|p|p]; [congruence| |].
  - change (binary_round B64.prec B64.emax true p 0 =
            SFopp (binary_round B64.prec B64.emax false p 0)).
    apply binary_round_opp.
  - change (binary_round B64.prec B64.emax false p 0 =
            SFopp (binary_round B64.prec B64.emax true p 0)).
    rewrite binary_round_opp.
    destruct (binary_round B64.prec B64.emax false p 0) as [[]|[]| |[] ? ?]; reflexivity.
Qed.

Lemma binary_round_positive (m : positive) (e : Z) :
  match binary_round B64.prec B64.emax false m e with
  | S754_zero s | S754_infinity s | S754_finite s _ _ => s = false
  | S754_nan => True
  end.
Proof.
  unfold binary_round. destruct (shl_align m e _) as [mz ez]. unfold binary_round_aux.
  destruct (shr_fexp B64.prec B64.emax (Z.pos mz) ez loc_Exact) as [mrs' e'].
  destruct (shr_fexp B64.prec B64.emax _ e' loc_Exact) as [mrs'' e''].
  destruct (shr_m mrs''); try reflexivity.
  destruct (e'' <=? B64.emax - B64.prec); reflexivity.
Qed.

Lemma of_Z_positive (n : Z) : 0 < n → B64.ltb B64.zero (B64.of_Z n) = true.
Proof.
  intros Hn. destruct n as [|p|p]; try lia. unfold B64.of_Z, binary_normalize.
  pose proof (binary_round_nonzero B64.prec B64.emax eq_refl false p 0) as Hnz.
  pose proof (binary_round_positive p 0) as Hs.
  destruct (binary_round B64.prec B64.emax false p 0) as [s|s| |s m e];
    try (exfalso; apply Hnz; vm_compute; discriminate); subst s; reflexivity.
Qed.

(** ** Whole numbers that are floats *)

Lemma digits2_pos_iter_xO (d p : positive) :
  digits2_pos (Pos.iter xO p d) = (digits2_pos p + d)%positive.
Proof.
  revert p. induction d as [d IH|d IH|]; intros p; simpl Pos.iter.
  - simpl digits2_pos. rewrite !IH. lia.
  - rewrite !IH. lia.
  - simpl. lia.
Qed.

Lemma iter_xO_value (d p : positive) :
  Zpos (Pos.iter xO p d) = Zpos p * 2 ^ Zpos d.
Proof.
  revert p. induction d as [d IH|d IH|]; intros p; simpl Pos.iter.
  - rewrite Pos2Z.inj_xO, !IH.
    replace (Zpos d~1) with (1 + Zpos d + Zpos d) by lia.
    rewrite !Z.pow_add_r by lia. lia.
  - rewrite !IH. replace (Zpos d~0) with (Zpos d + Zpos d) by lia.
    rewrite !Z.pow_add_r by lia. lia.
  - lia.
Qed.

Lemma digits2_pos_upper (p : positive) : Zpos p < 2 ^ Zpos (digits2_pos p).
Proof.
  induction p as [p IH|p IH|]; simpl digits2_pos.
  - rewrite Pos2Z.inj_succ, Z.pow_succ_r by lia. lia.
  - rewrite Pos2Z.inj_succ, Z.pow_succ_r by lia. lia.
  - reflexivity.
Qed.

(** A mantissa of 53 bits with an exponent in range is already rounded. *)
Lemma binary_round_aux_exact (m : positive) (e : Z) :
  Zpos (digits2_pos m) = 53 → -1074 <= e <= 971 →
  binary_round_aux B64.prec B64.emax false (Zpos m) e loc_Exact = S754_finite false m e.
Proof.
  intros Hd He. unfold binary_round_aux.
  assert (Hshr : shr_fexp B64.prec B64.emax (Zpos m) e loc_Exact =
                 (shr_record_of_loc (Zpos m) loc_Exact, e)).
  { unfold shr_fexp, shr. simpl Zdigits2. rewrite Hd.
    replace (fexp B64.prec B64.emax (53 + e) - e) with 0; [reflexivity|].
    unfold fexp, emin, B64.prec, B64.emax. lia. }
  rewrite Hshr. cbn [shr_record_of_loc shr_m loc_of_shr_record round_nearest_even].
  rewrite Hshr. cbn [shr_record_of_loc shr_m].
  destruct (Z.leb_spec e (B64.emax - B64.prec)) as [_|Hgt]; [reflexivity|].
  unfold B64.emax, B64.prec in Hgt. lia.
Qed.

Lemma digits2_pos_bound (p : positive) (k : Z) :
  0 <= k → Zpos p < 2 ^ k → Zpos (digits2_pos p) <= k.
Proof.
  intros Hk Hp. pose proof (digits2_pos_lower p) as Hl.
  destruct (Z.le_gt_cases (Zpos (digits2_pos p)) k) as [|Hgt]; [assumption|].
  pose proof (Z.pow_le_mono_r 2 k (Zpos (digits2_pos p) - 1)). lia.
Qed.

(** A positive integer below [2^53] is a float: its mantissa is the integer
    shifted to 53 bits. *)
Lemma of_Z_exact (p : positive) :
  Zpos p < 2 ^ 53 →
  ∃ m e, B64.of_Z (Zpos p) = S754_finite false m e ∧
         e = Zpos (digits2_pos p) - 53 ∧ Zpos m = Zpos p * 2 ^ (- e).
Proof.
  intros Hp.
  assert (Hd : Zpos (digits2_pos p) <= 53) by (apply digits2_pos_bound; lia).
  unfold B64.of_Z, binary_normalize, binary_round, shl_align.
  replace (fexp B64.prec B64.emax (Zpos (digits2_pos p) + 0) - 0)
    with (Zpos (digits2_pos p) - 53)
    by (unfold fexp, emin, B64.prec, B64.emax; lia).
  replace (fexp B64.prec B64.emax (Zpos (digits2_pos p) + 0))
    with (Zpos (digits2_pos p) - 53)
    by (unfold fexp, emin, B64.prec, B64.emax; lia).
  destruct (Zpos (digits2_pos p) - 53) as [|d|d] eqn:E; [|lia|].
  - exists p, 0. rewrite binary_round_aux_exact by lia.
    split; [reflexivity|]. split; [reflexivity|]. simpl. lia.
  - exists (shift_pos d p), (Zneg d).
    unfold shift_pos.
    rewrite binary_round_aux_exact.
    + split; [reflexivity|]. split; [reflexivity|]. apply iter_xO_value.
    + rewrite digits2_pos_iter_xO. lia.
    + lia.
Qed.

(** ** Sums of whole numbers *)

(** Shifting out the zero bits that a shift put in gives the mantissa back,
    exactly. *)
Lemma iter_shr_1_exact (d q : positive) :
  SpecFloat.iter_pos shr_1 d
    {| shr_m := Zpos (Pos.iter xO q d); shr_r := false; shr_s := false |} =
  {| shr_m := Zpos q; shr_r := false; shr_s := false |}.
Proof.
  revert q. induction d as [d IH|d IH|]; intros q; cbn [SpecFloat.iter_pos Pos.iter].
  - cbn [shr_1 orb]. rewrite !IH. reflexivity.
  - rewrite !IH. reflexivity.
  - reflexivity.
Qed.

Lemma iter_xO_inj (d p P : positive) :
  Zpos P = Zpos p * 2 ^ Zpos d → P = Pos.iter xO p d.
Proof. intros H. rewrite <- iter_xO_value in H. congruence. Qed.

(** A whole number below [2^53] rounds to the same float however it is
    written as a mantissa and an exponent. *)
Lemma binary_round_scaled (s : bool) (P p : positive) (k : Z) :
  0 <= k → Zpos P = Zpos p * 2 ^ k → Zpos p < 2 ^ 53 →
  binary_round B64.prec B64.emax s P (- k) = binary_round B64.prec B64.emax s p 0.
Proof.
  intros Hk HP Hp.
  destruct s;
    [rewrite (binary_round_opp P), (binary_round_opp p); f_equal|].
  all: destruct k as [|d|d]; [simpl in HP; assert (P = p) as -> by lia; reflexivity| |lia].
  all: apply iter_xO_inj in HP; subst P.
  all: assert (Hd : Zpos (digits2_pos p) <= 53) by (apply digits2_pos_bound; lia).
  all: unfold binary_round at 1; rewrite digits2_pos_iter_xO.
  all: replace (fexp B64.prec B64.emax (Zpos (digits2_pos p + d) + - Zpos d))
         with (Zpos (digits2_pos p) - 53)
         by (unfold fexp, emin, B64.prec, B64.emax; lia).
  all: destruct (of_Z_exact p Hp) as (m & e & Hof & He & Hm);
       unfold B64.of_Z, binary_normalize in Hof; rewrite Hof.
  all: unfold shl_align.
  all: destruct (Zpos (digits2_pos p) - 53 - - Zpos d) as [|n|n] eqn:En.
  - (* k = j *)
    rewrite binary_round_aux_exact by (rewrite ?digits2_pos_iter_xO; lia).
    f_equal; [|lia]. apply Pos2Z.inj. rewrite iter_xO_value, Hm. f_equal. f_equal. lia.
  - (* k > j *)
    unfold binary_round_aux.
    assert (Hsplit : Pos.iter xO p d = Pos.iter xO m n).
    { apply iter_xO_inj. rewrite iter_xO_value, Hm.
      rewrite <- Z.mul_assoc, <- Z.pow_add_r by lia. f_equal. f_equal. lia. }
    assert (Hdm : Zpos (digits2_pos m) = 53).
    { assert (e = 0 ∨ e < 0) as [E0|Eneg] by lia.
      - rewrite E0 in Hm. simpl in Hm. assert (m = p) as -> by lia. lia.
      - destruct e as [|e'|e']; try lia. simpl Z.opp in Hm.
        apply iter_xO_inj in Hm. subst m. rewrite digits2_pos_iter_xO. lia. }
    assert (Hshr : shr_fexp B64.prec B64.emax (Zpos (Pos.iter xO p d)) (- Zpos d) loc_Exact =
                   ({| shr_m := Zpos m; shr_r := false; shr_s := false |}, e)).
    { unfold shr_fexp, shr. cbn [Zdigits2]. rewrite digits2_pos_iter_xO.
      replace (fexp B64.prec B64.emax (Zpos (digits2_pos p + d) + - Zpos d) - - Zpos d)
        with (Zpos n) by (unfold fexp, emin, B64.prec, B64.emax; lia).
      cbn [shr_record_of_loc]. rewrite Hsplit, iter_shr_1_exact. f_equal. lia. }
    rewrite Hshr. cbn [shr_m loc_of_shr_record round_nearest_even].
    assert (Hshr2 : shr_fexp B64.prec B64.emax (Zpos m) e loc_Exact =
                    ({| shr_m := Zpos m; shr_r := false; shr_s := false |}, e)).
    { unfold shr_fexp, shr. cbn [Zdigits2]. rewrite Hdm.
      replace (fexp B64.prec B64.emax (53 + e) - e) with 0
        by (unfold fexp, emin, B64.prec, B64.emax; lia).
      reflexivity. }
    rewrite Hshr2. cbn [shr_m].
    destruct (Z.leb_spec e (B64.emax - B64.prec)) as [_|Hgt]; [reflexivity|].
    unfold B64.emax, B64.prec in Hgt. lia.
  - (* k < j *)
    rewrite binary_round_aux_exact by (rewrite ?digits2_pos_iter_xO; lia).
    f_equal; [|lia]. apply Pos2Z.inj. rewrite !iter_xO_value, Hm.
    rewrite <- Z.mul_assoc, <- Z.pow_add_r by lia. f_equal. f_equal. lia.
  - rewrite binary_round_aux_exact by (rewrite ?digits2_pos_iter_xO; lia).
    f_equal; [|lia]. apply Pos2Z.inj. rewrite iter_xO_value, Hm. f_equal. f_equal. lia.
  - unfold binary_round_aux.
    assert (Hsplit : Pos.iter xO p d = Pos.iter xO m n).
    { apply iter_xO_inj. rewrite iter_xO_value, Hm.
      rewrite <- Z.mul_assoc, <- Z.pow_add_r by lia. f_equal. f_equal. lia. }
    assert (Hdm : Zpos (digits2_pos m) = 53).
    { assert (e = 0 ∨ e < 0) as [E0|Eneg] by lia.
      - rewrite E0 in Hm. simpl in Hm. assert (m = p) as -> by lia. lia.
      - destruct e as [|e'|e']; try lia. simpl Z.opp in Hm.
        apply iter_xO_inj in Hm. subst m. rewrite digits2_pos_iter_xO. lia. }
    assert (Hshr : shr_fexp B64.prec B64.emax (Zpos (Pos.iter xO p d)) (- Zpos d) loc_Exact =
                   ({| shr_m := Zpos m; shr_r := false; shr_s := false |}, e)).
    { unfold shr_fexp, shr. cbn [Zdigits2]. rewrite digits2_pos_iter_xO.
      replace (fexp B64.prec B64.emax (Zpos (digits2_pos p + d) + - Zpos d) - - Zpos d)
        with (Zpos n) by (unfold fexp, emin, B64.prec, B64.emax; lia).
      cbn [shr_record_of_loc]. rewrite Hsplit, iter_shr_1_exact. f_equal. lia. }
    rewrite Hshr. cbn [shr_m loc_of_shr_record round_nearest_even].
    assert (Hshr2 : shr_fexp B64.prec B64.emax (Zpos m) e loc_Exact =
                    ({| shr_m := Zpos m; shr_r := false; shr_s := false |}, e)).
    { unfold shr_fexp, shr. cbn [Zdigits2]. rewrite Hdm.
      replace (fexp B64.prec B64.emax (53 + e) - e) with 0
        by (unfold fexp, emin, B64.prec, B64.emax; lia).
      reflexivity. }
    rewrite Hshr2. cbn [shr_m].
    destruct (Z.leb_spec e (B64.emax - B64.prec)) as [_|Hgt]; [reflexivity|].
    unfold B64.emax, B64.prec in Hgt. lia.
  - rewrite binary_round_aux_exact by (rewrite ?digits2_pos_iter_xO; lia).
    f_equal; [|lia]. apply Pos2Z.inj. rewrite !iter_xO_value, Hm.
    rewrite <- Z.mul_assoc, <- Z.pow_add_r by lia. f_equal. f_equal. lia.
Qed.

Lemma of_Z_pos_round (p : positive) :
  B64.of_Z (Zpos p) = binary_round B64.prec B64.emax false p 0.
Proof. reflexivity. Qed.

Lemma of_Z_neg_round (p : positive) :
  B64.of_Z (Zneg p) = binary_round B64.prec B64.emax true p 0.
Proof. reflexivity. Qed.

(** The float of a whole number other than zero below [2^53]: its sign, and
    a mantissa and an exponent of zero or less that give its magnitude. *)
Lemma of_Z_whole (a : Z) :
  a ≠ 0 → Z.abs a < 2 ^ 53 →
  ∃ m e, B64.of_Z a = S754_finite (a <? 0) m e ∧ e <= 0 ∧ -53 < e ∧
         Zpos m = Z.abs a * 2 ^ (- e).
Proof.
  intros Ha Hb. destruct a as [|p|p]; [congruence| |].
  - destruct (of_Z_exact p Hb) as (m & e & Hof & He & Hm).
    exists m, e. split; [exact Hof|].
    pose proof (digits2_pos_bound p 53 ltac:(lia) Hb).
    split; [clear Hm; lia|]. split; [clear Hm; lia|exact Hm].
  - destruct (of_Z_exact p Hb) as (m & e & Hof & He & Hm).
    exists m, e. split.
    + change (Zneg p) with (- Zpos p). rewrite of_Z_opp by discriminate.
      rewrite Hof. reflexivity.
    + pose proof (digits2_pos_bound p 53 ltac:(lia) Hb).
      split; [clear Hm; lia|]. split; [clear Hm; lia|exact Hm].
Qed.

Lemma shl_align_value (m : positive) (e e' : Z) :
  e' <= e → Zpos (shl_align m e e').1 = Zpos m * 2 ^ (e - e').
Proof.
  intros H. unfold shl_align. destruct (e' - e) as [|d|d] eqn:E; cbn [fst].
  - replace (e - e') with 0 by lia. lia.
  - lia.
  - rewrite iter_xO_value. f_equal. f_equal. lia.
Qed.

Lemma cond_Zopp_abs (a : Z) (v : Z) : cond_Zopp (a <? 0) (Z.abs a * v) = a * v.
Proof. unfold cond_Zopp. destruct (Z.ltb_spec a 0); lia. Qed.

(** The float sum of two whole numbers is their sum, as long as the three
    are below [2^53] in magnitude. *)
Lemma add_of_Z_exact (a b : Z) :
  Z.abs a < 2 ^ 53 → Z.abs b < 2 ^ 53 → Z.abs (a + b) < 2 ^ 53 →
  B64.add (B64.of_Z a) (B64.of_Z b) = B64.of_Z (a + b).
Proof.
  intros Ha Hb Hab.
  destruct (Z.eq_dec a 0) as [->|Ha0].
  { destruct (Z.eq_dec b 0) as [->|Hb0]; [reflexivity|].
    destruct (of_Z_whole b Hb0 Hb) as (m & e & E & _).
    rewrite Z.add_0_l, E. reflexivity. }
  destruct (Z.eq_dec b 0) as [->|Hb0].
  { rewrite Z.add_0_r.
    destruct (of_Z_whole a Ha0 Ha) as (m & e & -> & _); reflexivity. }
  destruct (of_Z_whole a Ha0 Ha) as (ma & ea & -> & Hea & Hea' & Hma).
  destruct (of_Z_whole b Hb0 Hb) as (mb & eb & -> & Heb & Heb' & Hmb).
  unfold B64.add, SFadd.
  set (ez := Z.min ea eb).
  assert (Hez : ez <= 0 ∧ ez <= ea ∧ ez <= eb) by (subst ez; lia).
  rewrite !shl_align_value by lia.
  rewrite Hma, Hmb.
  rewrite <- !Z.mul_assoc, <- !Z.pow_add_r by lia.
  replace (- ea + (ea - ez)) with (- ez) by lia.
  replace (- eb + (eb - ez)) with (- ez) by lia.
  rewrite !cond_Zopp_abs, <- Z.mul_add_distr_r.
  assert (Hpow : 0 < 2 ^ (- ez)) by (apply Z.pow_pos_nonneg; lia).
  unfold binary_normalize.
  destruct (a + b) as [|s|s] eqn:Es.
  - reflexivity.
  - destruct (Zpos s * 2 ^ (- ez)) as [|S|S] eqn:ES; [lia| |lia].
    rewrite of_Z_pos_round.
    replace ez with (- - ez) at 1 by lia.
    apply binary_round_scaled; [lia|symmetry; exact ES|exact Hab].
  - destruct (Zneg s * 2 ^ (- ez)) as [|S|S] eqn:ES; [lia|lia|].
    rewrite of_Z_neg_round.
    replace ez with (- - ez) at 1 by lia.
    apply binary_round_scaled; [lia| |exact Hab]. lia.
Qed.

(** ** The arithmetic on figures does not raise *)

Lemma figure_operand (v : pyval) :
  figure v = true → v ≠ VNone → operand v = true.
Proof.
  destruct v as [|b|z|f|s|z64]; simpl; intros H Hn; try congruence.
  apply Z.ltb_lt in H. apply Z.ltb_lt. pose proof int_bound_pos. lia.
Qed.

Lemma b2z_range (b : bool) : 0 <= Z.b2z b <= 1.
Proof. destruct b; simpl; lia. Qed.

Lemma operand_to_float (v : pyval) :
  operand v = true →
  ∃ n, as_num v = Some n ∧ is_int64 n = false ∧ ∃ f, num_to_float n = Ok f.
Proof.
  destruct v as [|b|z|f|s|z64]; simpl; intros H; try discriminate.
  - eexists; split; [reflexivity|]. split; [reflexivity|].
    eexists. apply int_to_float_small.
    pose proof int_bound_room. pose proof int_bound_pos.
    pose proof (b2z_range b). lia.
  - apply Z.ltb_lt in H. eexists; split; [reflexivity|]. split; [reflexivity|].
    eexists. apply int_to_float_small.
    pose proof int_bound_room. pose proof int_bound_pos. lia.
  - eexists; split; [reflexivity|]. split; [reflexivity|]. eexists. reflexivity.
Qed.

Lemma truthy_not_zero (v : pyval) : py_truthy v = true → py_eq_zero v = false.
Proof.
  destruct v as [|b|z|f|s|z64]; simpl; intros H; try reflexivity; try discriminate.
  - subst b. reflexivity.
  - unfold py_eq_zero. simpl. destruct (z =? 0); [discriminate|reflexivity].
  - unfold py_eq_zero. simpl. destruct (B64.is_zero f); [discriminate|reflexivity].
  - unfold py_eq_zero. simpl. destruct (z64 =? 0); [discriminate|reflexivity].
Qed.

Lemma int_truediv_ok (a b : Z) :
  Z.abs a < B64.overflow_threshold → b ≠ 0 → ∃ q, int_truediv a b = Ok q.
Proof.
  intros Ha Hb. unfold int_truediv.
  destruct (Z.eqb_spec b 0) as [|_]; [congruence|].
  destruct (Z.eq_dec a 0) as [->|Ha0]; [eexists; reflexivity|].
  assert (Hlt : (Z.abs a <? B64.overflow_threshold * Z.abs b) = true).
  { apply Z.ltb_lt.
    assert (B64.overflow_threshold * 1 ≤ B64.overflow_threshold * Z.abs b)
      by (apply Z.mul_le_mono_nonneg_l; lia).
    lia. }
  destruct a; [congruence| |]; rewrite Hlt; eexists; reflexivity.
Qed.

Lemma num_is_zero_float (n : num) (f : spec_float) (v : pyval) :
  as_num v = Some n → num_to_float n = Ok f → py_eq_zero v = false →
  B64.is_zero f = false.
Proof.
  intros Hn Hf Hz. unfold py_eq_zero in Hz. rewrite Hn in Hz.
  destruct n as [z|g|z]; simpl in Hf.
  - unfold int_to_float in Hf.
    destruct (Z.abs z <? B64.overflow_threshold); [|discriminate].
    injection Hf as <-. apply of_Z_nonzero. now apply Z.eqb_neq.
  - injection Hf as <-. exact Hz.
  - unfold int_to_float in Hf.
    destruct (Z.abs z <? B64.overflow_threshold); [|discriminate].
    injection Hf as <-. apply of_Z_nonzero. now apply Z.eqb_neq.
Qed.

Lemma py_truediv_ok (x y : pyval) :
  operand x = true → operand y = true → py_eq_zero y = false →
  ∃ q, py_truediv x y = Ok (VFloat q).
Proof.
  intros Hx Hy Hz.
  destruct (operand_to_float x Hx) as (nx & Hnx & Hpx & fx & Hfx).
  destruct (operand_to_float y Hy) as (ny & Hny & Hpy & fy & Hfy).
  pose proof (num_is_zero_float ny fy y Hny Hfy Hz) as Hnz.
  unfold py_truediv. rewrite Hnx, Hny.
  destruct nx as [a|a|a], ny as [b|b|b]; try discriminate; cbn [is_int64 orb];
    try (rewrite Hfx, Hfy; simpl; rewrite Hnz; eexists; reflexivity).
  destruct (int_truediv_ok a b) as [q Hq].
  - simpl in Hfx. unfold int_to_float in Hfx.
    destruct (Z.ltb_spec (Z.abs a) B64.overflow_threshold); [assumption|discriminate].
  - unfold py_eq_zero in Hz. rewrite Hny in Hz. now apply Z.eqb_neq.
  - rewrite Hq. eexists; reflexivity.
Qed.

Lemma py_sub_ok (x y : pyval) :
  figure x = true → figure y = true → x ≠ VNone → y ≠ VNone →
  ∃ v, py_sub x y = Ok v ∧ operand v = true.
Proof.
  intros Hx Hy Hnx Hny.
  pose proof int_bound_pos as Hpos.
  assert (Hb : ∀ b, Z.abs (Z.b2z b) < int_bound).
  { intros b. pose proof (b2z_range b). lia. }
  assert (Hbound : ∀ v n, figure v = true → as_num v = Some n →
            match n with NInt z => Z.abs z < int_bound | _ => True end).
  { intros [|b|z|f|s|z64] n Hv Hn; simpl in Hn, Hv; try discriminate;
      injection Hn as <-; [apply Hb|now apply Z.ltb_lt|exact I]. }
  destruct (operand_to_float x (figure_operand x Hx Hnx)) as (nx & Hnx' & Hpx & fx & Hfx).
  destruct (operand_to_float y (figure_operand y Hy Hny)) as (ny & Hny' & Hpy & fy & Hfy).
  pose proof (Hbound x nx Hx Hnx') as Bx. pose proof (Hbound y ny Hy Hny') as By.
  unfold py_sub. rewrite Hnx', Hny'.
  destruct nx as [a|a|a], ny as [b|b|b]; try discriminate; cbn [is_int64 orb];
    try (rewrite Hfx, Hfy; eexists; split; reflexivity).
  eexists; split; [reflexivity|]. simpl. apply Z.ltb_lt. lia.
Qed.

Lemma percent_2f_float (q : spec_float) :
  percent_2f (VFloat q) =
  Ok (VStr (format_f 2 false (B64.mul q (B64.of_Z 100)) +:+ "%")).
Proof. reflexivity. Qed.

Lemma percent_2f_int (z : Z) :
  Z.abs (z * 100) < B64.overflow_threshold →
  percent_2f (VInt z) = Ok (VStr (format_f 2 false (B64.of_Z (z * 100)) +:+ "%")).
Proof.
  intros H. unfold percent_2f.
  change (py_mul (VInt z) hundred) with (Ok (VInt (z * 100))).
  cbn [mbind result_bind py_format_f].
  rewrite int_to_float_small by assumption.
  reflexivity.
Qed.

Lemma percent_2f_bool (b : bool) :
  percent_2f (VBool b) =
  Ok (VStr (format_f 2 false (B64.of_Z (Z.b2z b * 100)) +:+ "%")).
Proof.
  unfold percent_2f.
  change (py_mul (VBool b) hundred) with (Ok (VInt (Z.b2z b * 100))).
  cbn [mbind result_bind py_format_f].
  rewrite int_to_float_small; [reflexivity|].
  pose proof int_bound_room. pose proof int_bound_pos. pose proof (b2z_range b). lia.
Qed.

Lemma percent_2f_ok (v : pyval) :
  figure v = true → v ≠ VNone → ∃ s, percent_2f v = Ok (VStr s).
Proof.
  destruct v as [|b|z|f|s|z64]; intros H Hn; try congruence; try discriminate.
  - rewrite percent_2f_bool. eexists; reflexivity.
  - simpl in H. apply Z.ltb_lt in H.
    rewrite percent_2f_int
      by (pose proof int_bound_room; pose proof int_bound_pos; lia).
    eexists; reflexivity.
  - rewrite percent_2f_float. eexists; reflexivity.
Qed.

Lemma py_format_f_ok (k : nat) (g : bool) (v : pyval) :
  figure v = true → v ≠ VNone → ∃ s, py_format_f k g v = Ok s.
Proof.
  destruct v as [|b|z|f|s|z64]; intros H Hn; try congruence; try discriminate;
    unfold py_format_f.
  - rewrite int_to_float_small
      by (pose proof int_bound_room; pose proof int_bound_pos;
          pose proof (b2z_range b); lia).
    eexists; reflexivity.
  - simpl in H. apply Z.ltb_lt in H.
    rewrite int_to_float_small
      by (pose proof int_bound_room; pose proof int_bound_pos; lia).
    eexists; reflexivity.
  - eexists; reflexivity.
Qed.

Lemma truthy_not_none (v : pyval) : py_truthy v = true → v ≠ VNone.
Proof. destruct v; simpl; congruence. Qed.

Lemma is_none_false (v : pyval) : is_none v = false → v ≠ VNone.
Proof. destruct v; simpl; congruence. Qed.

(** Each kind of entry of the table is a string whenever its computation
    completes, and it completes on figures. *)

Lemma margin_str (revenue numerator v : pyval) :
  margin revenue numerator = Ok v → is_str v = true.
Proof.
  unfold margin, percent_2f.
  destruct (py_truthy revenue && py_ne_zero revenue && negb (is_none numerator));
    [|intros [= <-]; reflexivity].
  destruct (py_truediv numerator revenue) as [q|]; [|discriminate].
  cbn [mbind result_bind].
  destruct (py_mul q hundred) as [p|]; [|discriminate]. cbn [mbind result_bind].
  destruct (py_format_f 2 false p); [|discriminate].
  intros [= <-]. reflexivity.
Qed.

Lemma margin_ok (revenue numerator : pyval) :
  figure revenue = true → figure numerator = true →
  is_ok (margin revenue numerator) = true.
Proof.
  intros Hr Hn. unfold margin.
  destruct (py_truthy revenue) eqn:Ht; [|reflexivity].
  destruct (py_ne_zero revenue) eqn:Hz; [|reflexivity].
  destruct (is_none numerator) eqn:Hnone; [reflexivity|]. simpl.
  destruct (py_truediv_ok numerator revenue) as [q ->].
  - apply figure_operand; [assumption|]. now apply is_none_false.
  - apply figure_operand; [assumption|]. now apply truthy_not_none.
  - now apply truthy_not_zero.
  - cbn [mbind result_bind]. rewrite percent_2f_float. reflexivity.
Qed.

Lemma percent_or_na_str (x v : pyval) : percent_or_na x = Ok v → is_str v = true.
Proof.
  unfold percent_or_na, percent_2f.
  destruct (negb (is_none x)); [|intros [= <-]; reflexivity].
  destruct (py_mul x hundred) as [p|]; [|discriminate]. cbn [mbind result_bind].
  destruct (py_format_f 2 false p); [|discriminate].
  intros [= <-]. reflexivity.
Qed.

Lemma percent_or_na_ok (x : pyval) :
  figure x = true → is_ok (percent_or_na x) = true.
Proof.
  intros Hx. unfold percent_or_na.
  destruct (is_none x) eqn:Hn; [reflexivity|]. simpl.
  destruct (percent_2f_ok x Hx) as [s ->]; [now apply is_none_false|reflexivity].
Qed.

Lemma dollars_2f_or_na_str (x v : pyval) : dollars_2f_or_na x = Ok v → is_str v = true.
Proof.
  unfold dollars_2f_or_na.
  destruct (py_truthy x); [|intros [= <-]; reflexivity].
  destruct (py_format_f 2 false x); [|discriminate].
  intros [= <-]. reflexivity.
Qed.

Lemma dollars_2f_or_na_ok (x : pyval) :
  figure x = true → is_ok (dollars_2f_or_na x) = true.
Proof.
  intros Hx. unfold dollars_2f_or_na.
  destruct (py_truthy x) eqn:Ht; [|reflexivity].
  destruct (py_format_f_ok 2 false x Hx) as [s ->];
    [now apply truthy_not_none|reflexivity].
Qed.

Lemma distance_from_high_str (cp high v : pyval) :
  distance_from_high cp high = Ok v → is_str v = true.
Proof.
  unfold distance_from_high, percent_2f.
  destruct (py_truthy cp && py_truthy high); [|intros [= <-]; reflexivity].
  destruct (py_sub cp high) as [d|]; [|discriminate]. cbn [mbind result_bind].
  destruct (py_truediv d high) as [q|]; [|discriminate]. cbn [mbind result_bind].
  destruct (py_mul q hundred) as [p|]; [|discriminate]. cbn [mbind result_bind].
  destruct (py_format_f 2 false p); [|discriminate].
  intros [= <-]. reflexivity.
Qed.

Lemma distance_from_high_ok (cp high : pyval) :
  figure cp = true → figure high = true →
  is_ok (distance_from_high cp high) = true.
Proof.
  intros Hc Hh. unfold distance_from_high.
  destruct (py_truthy cp) eqn:Htc; [|reflexivity].
  destruct (py_truthy high) eqn:Hth; [|reflexivity]. simpl.
  destruct (py_sub_ok cp high Hc Hh) as (d & -> & Hd);
    try now apply truthy_not_none.
  cbn [mbind result_bind].
  destruct (py_truediv_ok d high) as [q ->].
  - assumption.
  - apply figure_operand; [assumption|]. now apply truthy_not_none.
  - now apply truthy_not_zero.
  - cbn [mbind result_bind]. rewrite percent_2f_float. reflexivity.
Qed.

Lemma py_round2_number (x v : pyval) : py_round2 x = Ok v → is_number v = true.
Proof.
  unfold py_round2. destruct (as_num x) as [[z|f|z]|]; intros [= <-]; reflexivity.
Qed.

Lemma py_round2_ok (x : pyval) :
  figure x = true → x ≠ VNone → is_ok (py_round2 x) = true.
Proof. destruct x; simpl; intros; try congruence; reflexivity. Qed.

Lemma round2_or_na_value (x v : pyval) :
  round2_or_na x = Ok v → v = NA ∨ is_number v = true.
Proof.
  unfold round2_or_na. destruct (py_truthy x).
  - intros H. right. exact (py_round2_number x v H).
  - intros [= <-]. left. reflexivity.
Qed.

Lemma round2_or_na_ok (x : pyval) :
  figure x = true → is_ok (round2_or_na x) = true.
Proof.
  intros Hx. unfold round2_or_na. destruct (py_truthy x) eqn:Ht; [|reflexivity].
  apply py_round2_ok; [assumption|]. now apply truthy_not_none.
Qed.

(** ** The inputs of the calculator *)

Lemma get_or_none (m : pymap) (k : string) : get_or m k VNone = get m k.
Proof. reflexivity. Qed.

Lemma get_or_absent (m : pymap) (k : string) (d : pyval) :
  m !! k = None → get_or m k d = d.
Proof. unfold get_or. intros ->. reflexivity. Qed.

Lemma get_or_truthy (m : pymap) (k : string) (d : pyval) :
  py_truthy (get m k) = true → get_or m k d = get m k.
Proof.
  unfold get, get_or. destruct (m !! k); simpl; [reflexivity|discriminate].
Qed.

Lemma metric_steps_ok (info statement_metrics : pymap) :
  figures info quote_fields → figures statement_metrics statement_fields →
  Forall (λ s, is_ok s.2 = true) (metric_steps info statement_metrics).
Proof.
  intros Hq Hs. split_figures. unfold metric_steps.
  repeat apply Forall_cons_2; try apply Forall_nil_2; cbn [snd];
    try reflexivity;
    auto using margin_ok, percent_or_na_ok, dollars_2f_or_na_ok,
      distance_from_high_ok, round2_or_na_ok.
  destruct (py_truthy (get info "beta")) eqn:Ht; [|reflexivity].
  rewrite get_or_truthy by assumption.
  apply py_round2_ok; [assumption|]. now apply truthy_not_none.
Qed.

Lemma metric_steps_labels (info statement_metrics : pymap) :
  map fst (metric_steps info statement_metrics) = metric_labels.
Proof. reflexivity. Qed.

Lemma metric_labels_NoDup : NoDup metric_labels.
Proof. apply (bool_decide_unpack _). vm_compute. exact I. Qed.

(** On figures no step raises: the table is the list of the assignments. *)
Lemma calculate_key_metrics_assigned (info : pymap) (hist : history) (statement_metrics : pymap) :
  figures info quote_fields → figures statement_metrics statement_fields →
  calculate_key_metrics info hist statement_metrics =
  assigned (metric_steps info statement_metrics).
Proof.
  intros Hq Hs. rewrite calculate_key_metrics_steps.
  rewrite run_steps_all_ok.
  - reflexivity.
  - now apply metric_steps_ok.
  - exact metric_labels_NoDup.
Qed.

(** *** Statement figures of numpy *)


(** The division of two such figures does not raise when the divisor is
    not zero: floats are divided, and a 64-bit integer is converted first. *)
Lemma np_truediv_ok (x y : pyval) :
  np_figure x = true → np_figure y = true → x ≠ VNone → y ≠ VNone →
  py_eq_zero y = false →
  ∃ q, py_truediv x y = Ok (VFloat q).
Proof.
  destruct x as [|b|z|f|s|a]; try discriminate; try congruence;
    destruct y as [|b'|z'|g|s'|c]; try discriminate; try congruence;
    intros _ _ _ _ Hz; unfold py_eq_zero in Hz; simpl in Hz.
  - unfold py_truediv. simpl. rewrite Hz. eexists; reflexivity.
  - eexists; reflexivity.
  - eexists; reflexivity.
  - eexists; reflexivity.
Qed.

Lemma margin_ok_np (revenue numerator : pyval) :
  np_figure revenue = true → np_figure numerator = true →
  is_ok (margin revenue numerator) = true.
Proof.
  intros Hr Hn. unfold margin.
  destruct (py_truthy revenue) eqn:Ht; [|reflexivity].
  destruct (py_ne_zero revenue) eqn:Hz; [|reflexivity].
  destruct (is_none numerator) eqn:Hnone; [reflexivity|]. simpl.
  destruct (np_truediv_ok numerator revenue) as [q ->]; try assumption.
  - now apply is_none_false.
  - now apply truthy_not_none.
  - now apply truthy_not_zero.
  - cbn [mbind result_bind]. rewrite percent_2f_float. reflexivity.
Qed.

Lemma margins_ok (statement_metrics : pymap) (field : string) :
  statement_figures statement_metrics → field ∈ statement_fields →
  is_ok (margin (get statement_metrics "Revenue (TTM)") (get statement_metrics field)) = true.
Proof.
  intros [H|H] Hin; unfold figures, np_figures in H; rewrite Forall_forall in H.
  - apply margin_ok; apply H; [decide_closed|exact Hin].
  - apply margin_ok_np; apply H; [decide_closed|exact Hin].
Qed.

Lemma metric_steps_ok_all (info statement_metrics : pymap) :
  figures info quote_fields → statement_figures statement_metrics →
  Forall (λ s, is_ok s.2 = true) (metric_steps info statement_metrics).
Proof.
  intros Hq Hs. pose proof (margins_ok statement_metrics) as Hm.
  split_figures. unfold metric_steps.
  repeat apply Forall_cons_2; try apply Forall_nil_2; cbn [snd];
    try reflexivity;
    try (apply Hm; [exact Hs|decide_closed]);
    auto using percent_or_na_ok, dollars_2f_or_na_ok,
      distance_from_high_ok, round2_or_na_ok.
  destruct (py_truthy (get info "beta")) eqn:Ht; [|reflexivity].
  rewrite get_or_truthy by assumption.
  apply py_round2_ok; [assumption|]. now apply truthy_not_none.
Qed.

(** On such inputs no step raises: the table is the list of the
    assignments. *)
Lemma calculate_key_metrics_full (info : pymap) (hist : history) (statement_metrics : pymap) :
  figures info quote_fields → statement_figures statement_metrics →
  calculate_key_metrics info hist statement_metrics =
  assigned (metric_steps info statement_metrics).
Proof.
  intros Hq Hs. rewrite calculate_key_metrics_steps.
  rewrite run_steps_all_ok.
  - reflexivity.
  - now apply metric_steps_ok_all.
  - exact metric_labels_NoDup.
Qed.

Lemma dict_lookup_Forall (P : string * pyval → Prop) (d : pydict) (k : string) (v : pyval) :
  Forall P d → dict_lookup d k = Some v → P (k, v).
Proof.
  induction 1 as [|[k0 v0] d HP _ IH]; simpl; [discriminate|].
  destruct (String.eqb_spec k0 k) as [->|_]; [|exact IH].
  intros [= <-]. exact HP.
Qed.

(** The price of the sample snapshot is the float nearest to 150.25. *)
Example info_priced_is_150_25 :
  info_priced !! "currentPrice" = VFloat <$> parse_float "150.25".
Proof. vm_compute. reflexivity. Qed.

(** ** Decimal text *)

Lemma string_of_uint_digits (d : Decimal.uint) :
  forallb is_digit (chars (NilEmpty.string_of_uint d)) = true.
Proof. induction d; simpl; try exact IHd; reflexivity. Qed.

Lemma dec_of_Z_digits (n : Z) : 0 <= n → all_digits (dec_of_Z n) = true.
Proof.
  intros Hn. unfold dec_of_Z, all_digits.
  destruct n as [|p|p]; [reflexivity| |lia].
  cbn [Z.to_int NilZero.string_of_int].
  unfold NilZero.string_of_uint.
  pose proof (string_of_uint_digits (Pos.to_uint p)) as H.
  destruct (Pos.to_uint p); try reflexivity;
    simpl in *; exact H.
Qed.

Lemma grouped_group3_rev (fuel : nat) (l : list ascii) :
  (length l ≤ fuel)%nat → l ≠ [] → forallb is_digit l = true →
  grouped_rev (group3_rev l fuel) = true ∧
  filter (λ c, c ≠ ","%char) (group3_rev l fuel) = l.
Proof.
  revert l. induction fuel as [|fuel IH]; intros l Hlen Hne Hd.
  - destruct l; [congruence|simpl in Hlen; lia].
  - assert (Hno : filter (λ c, c ≠ ","%char) l = l).
    { clear -Hd. induction l as [|c l IH]; [reflexivity|].
      simpl in Hd. apply andb_true_iff in Hd as [Hc Hl].
      rewrite filter_cons_True; [f_equal; exact (IH Hl)|].
      intros ->. discriminate Hc. }
    destruct l as [|a [|b [|c [|d r]]]];
      [congruence|split; [exact Hd|exact Hno]..|].
    change (group3_rev (a :: b :: c :: d :: r) (S fuel))
      with (a :: b :: c :: ","%char :: group3_rev (d :: r) fuel).
    simpl in Hd. apply andb_true_iff in Hd as [Ha Hd].
    apply andb_true_iff in Hd as [Hb Hd]. apply andb_true_iff in Hd as [Hc Hd].
    destruct (IH (d :: r)) as [Hg Hf]; [simpl in *; lia|discriminate|exact Hd|].
    split.
    + cbn [grouped_rev]. rewrite Ha, Hb, Hc, Hg.
      rewrite bool_decide_eq_true_2 by reflexivity. reflexivity.
    + rewrite !filter_cons_True by (intros ->; discriminate).
      rewrite filter_cons_False by (intros H; apply H; reflexivity).
      rewrite Hf. reflexivity.
Qed.

Lemma all_digits_chars (s : string) :
  all_digits s = true → chars s ≠ [] ∧ forallb is_digit (chars s) = true.
Proof.
  unfold all_digits. destruct (chars s) as [|c l] eqn:E; [discriminate|].
  intros H. split; [discriminate|exact H].
Qed.

Lemma filter_rev {A} (P : A → Prop) `{∀ x, Decision (P x)} (l : list A) :
  filter P (rev l) = rev (filter P l).
Proof.
  induction l as [|c l IH]; [reflexivity|].
  cbn [rev]. rewrite filter_app, IH.
  destruct (decide (P c)) as [Hc|Hc].
  - rewrite !filter_cons_True by exact Hc. rewrite filter_nil. reflexivity.
  - rewrite !filter_cons_False by exact Hc. rewrite filter_nil, app_nil_r. reflexivity.
Qed.

(** Grouping a text of digits puts commas between groups of three and
    changes nothing else. *)
Lemma group3_grouped (s : string) :
  all_digits s = true →
  comma_grouped (group3 s) = true ∧ without_commas (group3 s) = s.
Proof.
  intros H. apply all_digits_chars in H as [Hne Hd].
  unfold comma_grouped, without_commas, group3. rewrite chars_text.
  destruct (grouped_group3_rev (length (chars s)) (rev (chars s))) as [Hg Hf].
  - rewrite length_rev. lia.
  - intros E. apply Hne. apply (f_equal (@rev ascii)) in E.
    rewrite rev_involutive in E. exact E.
  - rewrite forallb_forall in *. intros c Hc. apply Hd. apply in_rev. exact Hc.
  - split; [rewrite rev_involutive; exact Hg|].
    rewrite filter_rev, Hf, rev_involutive. apply text_chars.
Qed.

Lemma scaled_round_nearest (m : positive) (e : Z) (k : nat) :
  0 <= B64.scaled_round m e k ∧ nearest_scaled m e k (B64.scaled_round m e k).
Proof.
  unfold nearest_scaled, B64.scaled_round. cbv zeta.
  set (num := Zpos m * 10 ^ Z.of_nat k).
  assert (Hnum : 0 <= num).
  { subst num. apply Z.mul_nonneg_nonneg; [lia|]. apply Z.pow_nonneg. lia. }
  destruct e as [|p|p].
  - simpl. split; lia.
  - change (Zpos p <? 0) with false. cbv iota.
    assert (0 <= 2 ^ Zpos p) by (apply Z.pow_nonneg; lia).
    split; [apply Z.mul_nonneg_nonneg; assumption|reflexivity].
  - change (Zneg p <? 0) with true. cbv iota. change (- Zneg p) with (Zpos p).
    set (den := 2 ^ Zpos p).
    assert (Hden : 0 < den) by (apply Z.pow_pos_nonneg; lia).
    pose proof (Z.div_mod num den ltac:(lia)) as Hdm.
    pose proof (Z.mod_pos_bound num den Hden) as Hr.
    assert (Hq : 0 <= num / den) by (apply Z.div_pos; lia).
    set (q := num / den) in *. set (r := num mod den) in *.
    destruct (Z.compare_spec (2 * r) den) as [Heq|Hlt|Hgt].
    + destruct (Z.even q); split; try lia.
    + split; lia.
    + split; lia.
Qed.

Lemma zero_pad_two_digits (r : Z) :
  0 <= r < 100 → two_digit_text (zero_pad 2 (dec_of_Z r)) = true.
Proof.
  intros Hr.
  assert (Hall : Forall (λ r, two_digit_text (zero_pad 2 (dec_of_Z r)) = true) (seqZ 0 100))
    by decide_closed.
  rewrite Forall_forall in Hall. apply Hall. apply elem_of_seqZ. lia.
Qed.

Lemma decimal_text_two (n : Z) :
  0 <= n →
  all_digits (dec_of_Z (n / 10 ^ Z.of_nat 2)) = true ∧
  two_digit_text (zero_pad 2 (dec_of_Z (n mod 10 ^ Z.of_nat 2))) = true.
Proof.
  intros Hn. split.
  - apply dec_of_Z_digits. apply Z.div_pos; [exact Hn|reflexivity].
  - apply zero_pad_two_digits. apply Z.mod_pos_bound. reflexivity.
Qed.

(** [format] with [.2f] shows the float with two decimals. *)
Lemma format_f_shown (x : spec_float) : shown_2f x (format_f 2 false x).
Proof.
  split.
  - destruct x as [s|s| |s m e]; try reflexivity.
    destruct (scaled_round_nearest m e 2) as [Hpos Hnear].
    exists (B64.scaled_round m e 2). split; [exact Hpos|]. split; [exact Hnear|reflexivity].
  - intros Hfin.
    assert (Hshape : ∀ s n, 0 <= n → two_decimal_text (sign_text s +:+ decimal_text 2 n)).
    { intros s n Hn. destruct (decimal_text_two n Hn) as [Hip Hfrac].
      exists (sign_text s), (dec_of_Z (n / 10 ^ Z.of_nat 2)),
             (zero_pad 2 (dec_of_Z (n mod 10 ^ Z.of_nat 2))).
      split; [reflexivity|]. split; [destruct s; auto|]. split; assumption. }
    destruct x as [s|s| |s m e]; try discriminate.
    + apply (Hshape s 0). lia.
    + apply (Hshape s (B64.scaled_round m e 2)). apply scaled_round_nearest.
Qed.

(** ** C1: the labels of the table *)

(** C1, as stated, fails in two ways. With the text "Infinity" under
    "trailingPE", [round] raises, the handler keeps what was assigned, and
    the table stops after "Distance from 52W High": six labels are missing.
    With every quote field present and [None] and every statement figure
    [None], the entry "Current Price" is [None], not the string "N/A". *)
Lemma table_labels_counterexample :
  keys (calculate_key_metrics info_text_ratio [] out_init) = take 15 metric_labels ∧
  Forall (λ k, info_all_null !! k = Some VNone) quote_fields ∧
  Forall (λ k, out_init !! k = Some VNone) statement_fields ∧
  ¬ Forall (λ kv, kv.2 = NA) (calculate_key_metrics info_all_null [] out_init).
Proof.
  split; [vm_compute; reflexivity|]. split; [|split].
  - apply (bool_decide_unpack _). vm_compute. exact I.
  - apply (bool_decide_unpack _). vm_compute. exact I.
  - intros H.
    assert (E : dict_lookup (calculate_key_metrics info_all_null [] out_init)
                  "Current Price" = Some VNone) by (vm_compute; reflexivity).
    pose proof (dict_lookup_Forall _ _ _ _ H E) as Hna. discriminate Hna.
Qed.

Lemma all_null_figures (m : pymap) (fields : list string) :
  Forall (λ k, get m k = VNone) fields → figures m fields.
Proof. intros H. apply (Forall_impl _ _ _ H). intros k ->. reflexivity. Qed.

(** With an integer too large for a float under "returnOnEquity", a number
    like any other, the percentage cannot be formatted and the table stops
    after "EBITDA Margin". *)
Example table_labels_huge_int :
  keys (calculate_key_metrics {[ "returnOnEquity" := VInt (10 ^ 400) ]} [] out_init) =
  take 7 metric_labels.
Proof. vm_compute. reflexivity. Qed.

(** C1 (amended): whenever each field the calculator reads from the quote
    snapshot is absent, [None], a boolean, a float or an integer of
    magnitude below [2^1000], and the four statement figures are of these
    kinds too or are all [None], floats or 64-bit integers of numpy, the
    table has exactly the fixed labels in the fixed order; and when all of
    these fields are absent or [None], with "currentPrice" absent, every
    value is "N/A". *)
Theorem metrics_table_labels (info : pymap) (hist : history) (statement_metrics : pymap) :
  (figures info quote_fields → statement_figures statement_metrics →
   keys (calculate_key_metrics info hist statement_metrics) = metric_labels) ∧
  (Forall (λ k, get statement_metrics k = VNone) statement_fields →
   Forall (λ k, get info k = VNone) quote_fields →
   info !! "currentPrice" = None →
   calculate_key_metrics info hist statement_metrics =
   map (λ label, (label, NA)) metric_labels).
Proof.
  split.
  - intros Hq Hs. rewrite calculate_key_metrics_full by assumption.
    rewrite keys_assigned. apply metric_steps_labels.
  - intros Hsn Hqn Hcp.
    rewrite calculate_key_metrics_assigned by (apply all_null_figures; assumption).
    unfold metric_steps.
    rewrite !get_or_none, (get_or_absent _ _ _ Hcp).
    unfold quote_fields, statement_fields in *.
    repeat match goal with
      | H : Forall _ (_ :: _) |- _ =>
          let H1 := fresh "Hnull" in apply Forall_cons in H as [H1 H]; try rewrite H1
      end.
    reflexivity.
Qed.

Lemma metrics_table_labels_witness :
  keys (calculate_key_metrics info_priced [] sample_statement) = metric_labels ∧
  keys (calculate_key_metrics info_priced [] sample_statement64) = metric_labels ∧
  calculate_key_metrics ∅ [] out_init = map (λ label, (label, NA)) metric_labels.
Proof.
  split; [|split].
  - destruct (metrics_table_labels info_priced [] sample_statement) as [Hkeys _].
    apply Hkeys; decide_closed.
  - destruct (metrics_table_labels info_priced [] sample_statement64) as [Hkeys _].
    apply Hkeys; decide_closed.
  - destruct (metrics_table_labels ∅ [] out_init) as [_ Hna].
    apply Hna; [decide_closed|decide_closed|reflexivity].
Defined.

(** ** C3: the margins *)

(** Steps that do not assign a label leave it as it was. *)
Lemma run_steps_lookup_other (steps : list (string * result pyval)) (d : pydict) (k : string) :
  k ∉ map fst steps → dict_lookup (run_steps steps d) k = dict_lookup d k.
Proof.
  revert d. induction steps as [|[k0 e] steps IH]; intros d Hk; simpl; [reflexivity|].
  simpl in Hk. apply not_elem_of_cons in Hk as [Hne Hk].
  destruct e as [v|x]; [|reflexivity].
  rewrite IH by assumption. rewrite dict_lookup_set.
  destruct (String.eqb_spec k0 k); [congruence|reflexivity].
Qed.

Lemma run_steps_cons_ok (k : string) (v : pyval)
    (rest : list (string * result pyval)) (d : pydict) :
  run_steps ((k, Ok v) :: rest) d = run_steps rest (dict_set d k v).
Proof. reflexivity. Qed.










Example sample_profit_margin :
  dict_lookup (calculate_key_metrics ∅ [] sample_statement) "Profit Margin" =
  Some (VStr "25.31%").
Proof. vm_compute. reflexivity. Qed.

(** The kind of the figures matters: 64-bit integers are divided as floats,
    integers of Python exactly, and the two quotients can round to different
    percentages. *)
Example margin_of_int64_and_of_int :
  let statement (figure : Z → pyval) : pymap :=
    <["Revenue (TTM)" := figure 2810320510926836358]> (
    <["Net Income (TTM)" := figure 439112579832318178]> out_init) in
  dict_lookup (calculate_key_metrics ∅ [] (statement VInt64)) "Profit Margin" =
    Some (VStr "15.63%") ∧
  dict_lookup (calculate_key_metrics ∅ [] (statement VInt)) "Profit Margin" =
    Some (VStr "15.62%").
Proof. vm_compute. split; reflexivity. Qed.

(** ** C5: the values of the table *)

(** C5, as stated, fails: with the price 150.25 in the quote snapshot the
    entry "Current Price" holds the float itself, not a string. *)
Lemma raw_current_price_counterexample :
  ¬ Forall (λ kv, is_str kv.2 = true) (calculate_key_metrics info_priced [] ∅).
Proof.
  intros H.
  assert (E : dict_lookup (calculate_key_metrics info_priced [] ∅) "Current Price" =
              Some (VFloat (S754_finite false 5286451906347008 (-45))))
    by (vm_compute; reflexivity).
  pose proof (dict_lookup_Forall _ _ _ _ H E) as Hs. discriminate Hs.
Qed.

Lemma dict_lookup_keys (d : pydict) (k : string) :
  k ∈ keys d → is_Some (dict_lookup d k).
Proof.
  induction d as [|[k0 v0] d IH]; simpl; intros H.
  - apply elem_of_nil in H. contradiction.
  - destruct (String.eqb_spec k0 k) as [->|Hne]; [eexists; reflexivity|].
    apply elem_of_cons in H as [->|H]; [congruence|]. exact (IH H).
Qed.

Lemma shape_of_string (info : pymap) (label : string) (v : pyval) :
  label ≠ "Current Price" → label ∉ rounded_labels → is_str v = true →
  entry_shape info label v.
Proof. intros H1 H2 H3. repeat split; intros; [assumption|congruence|contradiction]. Qed.

Lemma shape_of_rounded (info : pymap) (label : string) (v : pyval) :
  label ≠ "Current Price" → label ∈ rounded_labels →
  v = NA ∨ is_number v = true → entry_shape info label v.
Proof. intros H1 H2 H3. repeat split; intros; [contradiction|congruence|assumption]. Qed.

Lemma metric_steps_shape (info statement_metrics : pymap) :
  Forall (λ s, ∀ v, s.2 = Ok v → entry_shape info s.1 v)
    (metric_steps info statement_metrics).
Proof.
  unfold metric_steps.
  repeat apply Forall_cons_2; try apply Forall_nil_2; cbn [fst snd]; intros v Hv.
  all: try (apply shape_of_string; [discriminate|unfold rounded_labels; not_a_label|];
            first [ injection Hv as <-; reflexivity
                  | eauto using margin_str, percent_or_na_str, dollars_2f_or_na_str,
                      distance_from_high_str ]).
  all: try (apply shape_of_rounded; [discriminate|unfold rounded_labels; decide_closed|];
            first [ exact (round2_or_na_value _ _ Hv)
                  | destruct (py_truthy (get info "beta"));
                    [right; exact (py_round2_number _ _ Hv)
                    |injection Hv as <-; left; reflexivity] ]).
  injection Hv as <-. repeat split.
  - intros H. congruence.
  - intros H. exfalso. revert H. unfold rounded_labels. not_a_label.
Qed.

Lemma py_round2_of (x v : pyval) : py_round2 x = Ok v → round2_of x v.
Proof.
  destruct x as [|b|z|f|s|z64]; simpl; try discriminate; intros [= <-]; try reflexivity.
  exists (round2_float f). split; [reflexivity|].
  destruct f as [sg|sg| |sg m e]; try reflexivity.
  destruct (scaled_round_nearest m e 2) as [Hpos Hnear].
  exists (B64.scaled_round m e 2). split; [exact Hpos|]. split; [exact Hnear|].
  reflexivity.
Qed.

Lemma round2_or_na_of (x v : pyval) :
  round2_or_na x = Ok v → v = NA ∨ round2_of x v.
Proof.
  unfold round2_or_na. destruct (py_truthy x).
  - intros H. right. exact (py_round2_of x v H).
  - intros [= <-]. left. reflexivity.
Qed.

(** What a step for one of the rounded labels assigns. *)
Lemma metric_steps_rounded (info statement_metrics : pymap) (label field : string)
    (v : pyval) :
  (label, field) ∈ rounded_rows →
  (label, Ok v) ∈ metric_steps info statement_metrics →
  v = NA ∨ round2_of (get info field) v.
Proof.
  intros Hrow Hstep. unfold rounded_rows in Hrow.
  repeat (apply elem_of_cons in Hrow as [[= -> ->]|Hrow];
    [unfold metric_steps in Hstep;
     repeat (apply elem_of_cons in Hstep as [Hstep|Hstep];
             [first [discriminate Hstep | injection Hstep as Hstep]|]);
     [|apply elem_of_nil in Hstep; contradiction]|]);
    [..|apply elem_of_nil in Hrow; contradiction].
  - rewrite get_or_none in Hstep. symmetry in Hstep. exact (round2_or_na_of _ _ Hstep).
  - rewrite get_or_none in Hstep. symmetry in Hstep. exact (round2_or_na_of _ _ Hstep).
  - rewrite get_or_none in Hstep. symmetry in Hstep. exact (round2_or_na_of _ _ Hstep).
  - destruct (py_truthy (get info "beta")) eqn:Ht.
    + rewrite get_or_truthy in Hstep by assumption. right.
      symmetry in Hstep. exact (py_round2_of _ _ Hstep).
    + injection Hstep as ->. left. reflexivity.
Qed.

(** The ratio 28.456 of the sample snapshot. *)
Example info_ratio_is_28_456 :
  info_ratio !! "trailingPE" = VFloat <$> parse_float "28.456".
Proof. vm_compute. reflexivity. Qed.

(** C5 (amended): every value of the table is a string ("N/A" or a
    formatted figure) except under five labels: "Current Price" holds the
    quote field as it is ("N/A" when the field is absent), and "P/E Ratio",
    "Forward P/E", "Price to Sales (P/S)" and "Beta" hold "N/A" or their
    quote field rounded to two decimals, which is the field itself when it
    is an integer and otherwise the float nearest to the nearest number of
    hundredths; and when each field read from the quote snapshot is absent,
    [None], a boolean, a float or an integer of magnitude below [2^1000],
    and the statement figures are of these kinds too or are [None], floats
    or 64-bit integers of numpy, no label is absent. *)
Theorem metrics_values (info : pymap) (hist : history) (statement_metrics : pymap) :
  let metrics := calculate_key_metrics info hist statement_metrics in
  (∀ label v, dict_lookup metrics label = Some v →
     (label ≠ "Current Price" → label ∉ rounded_labels → is_str v = true) ∧
     (label = "Current Price" → v = get_or info "currentPrice" NA) ∧
     (∀ field, (label, field) ∈ rounded_rows →
        v = NA ∨ round2_of (get info field) v)) ∧
  (figures info quote_fields → statement_figures statement_metrics →
   ∀ label, label ∈ metric_labels → is_Some (dict_lookup metrics label)).
Proof.
  intros metrics. subst metrics. split.
  - intros label v H. rewrite calculate_key_metrics_steps in H.
    apply run_steps_lookup in H as [H|H]; [discriminate|].
    pose proof (metric_steps_shape info statement_metrics) as Hshape.
    rewrite Forall_forall in Hshape.
    destruct (Hshape _ H v eq_refl) as (Hstr & Hprice & _).
    split; [exact Hstr|]. split; [exact Hprice|].
    intros field Hrow. exact (metric_steps_rounded _ _ _ _ _ Hrow H).
  - intros Hq Hs label Hl. apply dict_lookup_keys.
    rewrite calculate_key_metrics_full by assumption.
    rewrite keys_assigned, metric_steps_labels. exact Hl.
Qed.

(** The price of the sample is stored as the float it is, and the ratio
    28.456 as the float nearest to 28.46. *)
Lemma metrics_values_witness :
  dict_lookup (calculate_key_metrics info_priced [] sample_statement) "Current Price" =
    Some (get_or info_priced "currentPrice" NA) ∧
  is_Some (dict_lookup (calculate_key_metrics info_priced [] sample_statement) "Beta") ∧
  VFloat <$> parse_float "28.46" =
    dict_lookup (calculate_key_metrics info_ratio [] out_init) "P/E Ratio".
Proof.
  destruct (metrics_values info_priced [] sample_statement) as [Hshape Hpresent].
  split; [|split].
  - assert (E : dict_lookup (calculate_key_metrics info_priced [] sample_statement)
                  "Current Price" =
                Some (VFloat (S754_finite false 5286451906347008 (-45))))
      by (vm_compute; reflexivity).
    destruct (Hshape _ _ E) as (_ & Hraw & _). rewrite E, <- Hraw; reflexivity.
  - apply Hpresent; decide_closed.
  - destruct (metrics_values info_ratio [] out_init) as [Hratio _].
    destruct (dict_lookup (calculate_key_metrics info_ratio [] out_init) "P/E Ratio")
      as [v|] eqn:E; [|vm_compute in E; discriminate E].
    destruct (Hratio _ _ E) as (_ & _ & Hround).
    destruct (Hround "trailingPE") as [->|Hv];
      [unfold rounded_rows; apply list_elem_of_here|vm_compute in E; discriminate E|].
    assert (Ef : get info_ratio "trailingPE" =
                 VFloat (S754_finite false 8009651937278427 (-48)))
      by (vm_compute; reflexivity).
    rewrite Ef in Hv. destruct Hv as (r & -> & n & Hn & Hnear & ->).
    unfold nearest_scaled in Hnear.
    change (-48 <? 0) with true in Hnear. cbv iota zeta in Hnear.
    change (2 ^ (- -48)) with 281474976710656 in Hnear.
    change (10 ^ Z.of_nat 2) with 100 in Hnear.
    assert (n = 2846) as -> by lia.
    vm_compute. reflexivity.
Defined.

(** ** C7: a zero beta or 52-week high reads as an absent one *)

Lemma eq_zero_not_truthy (v : pyval) : py_eq_zero v = true → py_truthy v = false.
Proof.
  destruct v as [|b|z|f|s|z64]; unfold py_eq_zero; simpl; intros H;
    try discriminate; try (rewrite H; reflexivity).
  destruct b; [discriminate|reflexivity].
Qed.

Lemma get_delete_ne (m : pymap) (k k' : string) :
  k ≠ k' → get (delete k m) k' = get m k'.
Proof. intros H. unfold get. rewrite lookup_delete_ne by assumption. reflexivity. Qed.

Lemma get_or_delete_ne (m : pymap) (k k' : string) (d : pyval) :
  k ≠ k' → get_or (delete k m) k' d = get_or m k' d.
Proof. intros H. unfold get_or. rewrite lookup_delete_ne by assumption. reflexivity. Qed.

Lemma get_delete (m : pymap) (k : string) : get (delete k m) k = VNone.
Proof. unfold get. rewrite lookup_delete_eq. reflexivity. Qed.

Lemma beta_steps_delete (info statement_metrics : pymap) :
  py_eq_zero (get info "beta") = true →
  metric_steps info statement_metrics =
  metric_steps (delete "beta" info) statement_metrics.
Proof.
  intros Hz. unfold metric_steps.
  rewrite !get_or_delete_ne by discriminate.
  rewrite get_delete, (eq_zero_not_truthy _ Hz). reflexivity.
Qed.

Lemma high_steps_delete (info statement_metrics : pymap) :
  py_eq_zero (get info "fiftyTwoWeekHigh") = true →
  metric_steps info statement_metrics =
  metric_steps (delete "fiftyTwoWeekHigh" info) statement_metrics.
Proof.
  intros Hz. unfold metric_steps.
  rewrite !get_or_none, !get_delete.
  rewrite !get_delete_ne by discriminate.
  rewrite !get_or_delete_ne by discriminate.
  unfold dollars_2f_or_na, distance_from_high.
  rewrite (eq_zero_not_truthy _ Hz). change (py_truthy VNone) with false.
  rewrite !andb_false_r. reflexivity.
Qed.

(** A row whose only step can assign nothing but "N/A" holds "N/A" when it
    is there, and the sheets show "N/A" for it in any case. *)
Lemma rendered_step (info statement_metrics : pymap) (hist : history)
    (label : string) (e : result pyval) :
  (∀ e', (label, e') ∈ metric_steps info statement_metrics → e' = e) →
  (∀ v, e = Ok v → v = NA) →
  (∀ v, dict_lookup (calculate_key_metrics info hist statement_metrics) label = Some v →
        v = NA) ∧
  rendered (calculate_key_metrics info hist statement_metrics) label = NA.
Proof.
  intros Honly Hna.
  assert (Hstored : ∀ v,
            dict_lookup (calculate_key_metrics info hist statement_metrics) label = Some v →
            v = NA).
  { intros v E. rewrite calculate_key_metrics_steps in E.
    apply run_steps_lookup in E as [E|E]; [discriminate|].
    apply Hna. symmetry. exact (Honly _ E). }
  split; [exact Hstored|].
  unfold rendered, dict_get.
  destruct (dict_lookup _ label) as [v|] eqn:E; [|reflexivity].
  exact (Hstored v eq_refl).
Qed.

(** When no step raises, a row is what its step assigns. *)
Lemma stored_step (info statement_metrics : pymap) (hist : history)
    (label : string) (v : pyval) :
  figures info quote_fields → statement_figures statement_metrics →
  label ∈ metric_labels →
  (∀ v', dict_lookup (calculate_key_metrics info hist statement_metrics) label = Some v' →
         v' = v) →
  dict_lookup (calculate_key_metrics info hist statement_metrics) label = Some v.
Proof.
  intros Hq Hs Hl Hv.
  destruct (dict_lookup_keys (calculate_key_metrics info hist statement_metrics) label)
    as [v' E].
  - rewrite calculate_key_metrics_full by assumption.
    rewrite keys_assigned, metric_steps_labels. exact Hl.
  - rewrite E. f_equal. exact (Hv v' E).
Qed.

(** C7: when the quote field "beta" equals 0, the table holds "N/A" under
    "Beta": the row can hold nothing else, the sheets show "N/A" for it, and
    the row is there with "N/A" whenever no earlier row raises, which is so
    when the fields read are [None] or numbers in range; and likewise for
    "fiftyTwoWeekHigh" and "52-Week High". In both cases the whole table is
    the one computed from the snapshot without that field. *)
Theorem zero_reads_as_absent (info : pymap) (hist : history) (statement_metrics : pymap) :
  let metrics := calculate_key_metrics info hist statement_metrics in
  (py_eq_zero (get info "beta") = true →
   (∀ v, dict_lookup metrics "Beta" = Some v → v = NA) ∧
   rendered metrics "Beta" = NA ∧
   (figures info quote_fields → statement_figures statement_metrics →
    dict_lookup metrics "Beta" = Some NA) ∧
   metrics = calculate_key_metrics (delete "beta" info) hist statement_metrics) ∧
  (py_eq_zero (get info "fiftyTwoWeekHigh") = true →
   (∀ v, dict_lookup metrics "52-Week High" = Some v → v = NA) ∧
   rendered metrics "52-Week High" = NA ∧
   (figures info quote_fields → statement_figures statement_metrics →
    dict_lookup metrics "52-Week High" = Some NA) ∧
   metrics = calculate_key_metrics (delete "fiftyTwoWeekHigh" info) hist statement_metrics).
Proof.
  intros metrics. subst metrics. split; intros Hz.
  - destruct (rendered_step info statement_metrics hist "Beta"
                (if py_truthy (get info "beta")
                 then py_round2 (get_or info "beta" (VInt 0)) else Ok NA))
      as [Hstored Hshown].
    + intros e' H. only_step H.
    + rewrite (eq_zero_not_truthy _ Hz). intros v [= <-]. reflexivity.
    + split; [exact Hstored|]. split; [exact Hshown|]. split.
      * intros Hq Hs. apply stored_step; [assumption..|decide_closed|exact Hstored].
      * rewrite !calculate_key_metrics_steps, <- beta_steps_delete by assumption.
        reflexivity.
  - destruct (rendered_step info statement_metrics hist "52-Week High"
                (dollars_2f_or_na (get_or info "fiftyTwoWeekHigh" VNone)))
      as [Hstored Hshown].
    + intros e' H. only_step H.
    + unfold dollars_2f_or_na. rewrite get_or_none, (eq_zero_not_truthy _ Hz).
      intros v [= <-]. reflexivity.
    + split; [exact Hstored|]. split; [exact Hshown|]. split.
      * intros Hq Hs. apply stored_step; [assumption..|decide_closed|exact Hstored].
      * rewrite !calculate_key_metrics_steps, <- high_steps_delete by assumption.
        reflexivity.
Qed.

Lemma zero_reads_as_absent_witness :
  let metrics := calculate_key_metrics info_zeroes [] sample_statement in
  (dict_lookup metrics "Beta" = Some NA ∧
   metrics = calculate_key_metrics (delete "beta" info_zeroes) [] sample_statement) ∧
  (dict_lookup metrics "52-Week High" = Some NA ∧
   metrics = calculate_key_metrics (delete "fiftyTwoWeekHigh" info_zeroes) []
               sample_statement).
Proof.
  intros metrics. subst metrics.
  destruct (zero_reads_as_absent info_zeroes [] sample_statement) as [Hb Hh].
  split.
  - destruct Hb as (_ & _ & Hstored & Heq); [vm_compute; reflexivity|].
    split; [apply Hstored; decide_closed|exact Heq].
  - destruct Hh as (_ & _ & Hstored & Heq); [vm_compute; reflexivity|].
    split; [apply Hstored; decide_closed|exact Heq].
Defined.

(** The text "Infinity" under "trailingPE" stops the table before "Beta":
    the row is missing, and the sheets show "N/A" for it all the same. *)
Example zero_beta_missing_row :
  let info := <["beta" := VInt 0]> info_text_ratio in
  dict_lookup (calculate_key_metrics info [] out_init) "Beta" = None ∧
  rendered (calculate_key_metrics info [] out_init) "Beta" = NA.
Proof. vm_compute. split; reflexivity. Qed.

(** ** C2: the units of [fmt_money] *)

(** A value below a positive float is not at or above a larger one. *)
Lemma below_threshold (x : spec_float) (m1 m2 : positive) (e1 e2 : Z) :
  e1 < e2 ∨ (e1 = e2 ∧ (m1 <= m2)%positive) →
  B64.ltb x (S754_finite false m1 e1) = true →
  B64.leb (S754_finite false m2 e2) x = false.
Proof.
  intros Hle. unfold B64.ltb, B64.leb, SFltb, SFleb.
  destruct x as [s|s| |s m e]; simpl; try discriminate; try reflexivity.
  - destruct s; [reflexivity|discriminate].
  - destruct s; [reflexivity|].
    destruct (Z.compare_spec e e1) as [->|Hlt|Hgt]; try discriminate.
    + intros Hm.
      destruct (PosDef.Pos.compare_cont Eq m m1) eqn:E; try discriminate Hm.
      assert (Hpos : (m < m1)%positive) by exact E.
      destruct (Z.compare_spec e2 e1) as [->|Hlt|Hgt]; [|lia|reflexivity].
      replace (PosDef.Pos.compare_cont Eq m2 m) with Gt; [reflexivity|].
      symmetry. change ((m2 ?= m)%positive = Gt). apply Pos.compare_gt_iff. lia.
    + intros _. destruct (Z.compare_spec e2 e) as [->|Hlt'|Hgt]; [lia|lia|reflexivity].
Qed.

Lemma py_float_not_none (x : pyval) (f : spec_float) :
  py_float x = Ok f → is_none x = false.
Proof. destruct x; simpl; congruence. Qed.

Lemma fmt_money_numeric (x : pyval) (f : spec_float) :
  py_float x = Ok f → fmt_money x = fmt_money_float f.
Proof.
  intros H. unfold fmt_money. rewrite (py_float_not_none x f H), H. reflexivity.
Qed.

(** A float that is not negative and below a million, formatted with [,.0f],
    is a nearest whole number in digits grouped by three. *)
Lemma format_f_whole (x : spec_float) :
  B64.ltb (SFabs x) f1e6 = true →
  ∃ n, nearest_whole (SFabs x) n ∧
       format_f 0 true (SFabs x) = group3 (dec_of_Z n) ∧
       comma_grouped (group3 (dec_of_Z n)) = true ∧
       without_commas (group3 (dec_of_Z n)) = dec_of_Z n.
Proof.
  destruct x as [s|s| |s m e]; try discriminate; intros _; cbn [SFabs].
  - exists 0. split; [reflexivity|]. split; [reflexivity|].
    apply group3_grouped. reflexivity.
  - destruct (scaled_round_nearest m e 0) as [Hpos Hnear].
    exists (B64.scaled_round m e 0). split; [split; assumption|]. split.
    + unfold format_f. change (Z.of_nat 0) with 0. rewrite Z.pow_0_r, Z.div_1_r.
      reflexivity.
    + apply group3_grouped, dec_of_Z_digits. exact Hpos.
Qed.

(** C2, as stated, fails on a number: the integer [10^400] is at least
    [1e12], yet it is too large for a float, [float()] raises
    [OverflowError] and [fmt_money] answers "N/A" and not an amount in "T". *)
Lemma fmt_money_counterexample :
  10 ^ 12 <= 10 ^ 400 ∧
  py_float (VInt (10 ^ 400)) = Err OverflowError ∧
  fmt_money (VInt (10 ^ 400)) = "N/A".
Proof. vm_compute. repeat split. discriminate. Qed.

(** C2 (amended): [fmt_money] gives "N/A" for [None], for "abc" and for
    every value that [float()] rejects, an integer too large for a float
    among them. For a value that [float()] accepts, with [sign] the text "-"
    when the float is negative and [m] its magnitude, the result is [sign],
    "$" and: the float [m / 1e12] with two decimals and "T" when
    [m >= 1e12]; [m / 1e9] with two decimals and "B" when
    [1e9 <= m < 1e12]; [m / 1e6] with two decimals and "M" when
    [1e6 <= m < 1e9]; and when [m < 1e6] the digits of a whole number
    nearest to [m], with a comma between groups of three. A float with two
    decimals is shown as a sign, digits, a point and two digits, the
    hundredths being nearest to it; an infinity is spelled "inf". *)
Theorem fmt_money_units (x : pyval) :
  fmt_money VNone = "N/A" ∧ fmt_money (VStr "abc") = "N/A" ∧
  (∀ e, py_float x = Err e → fmt_money x = "N/A") ∧
  (∀ f, py_float x = Ok f →
     let sign := if B64.ltb f B64.zero then "-" else "" in
     let m := SFabs f in
     ∃ body, fmt_money x = sign +:+ "$" +:+ body ∧
     (B64.leb f1e12 m = true →
      ∃ s, body = s +:+ "T" ∧ shown_2f (B64.div m f1e12) s) ∧
     (B64.leb f1e9 m = true → B64.ltb m f1e12 = true →
      ∃ s, body = s +:+ "B" ∧ shown_2f (B64.div m f1e9) s) ∧
     (B64.leb f1e6 m = true → B64.ltb m f1e9 = true →
      ∃ s, body = s +:+ "M" ∧ shown_2f (B64.div m f1e6) s) ∧
     (B64.ltb m f1e6 = true →
      ∃ n, nearest_whole m n ∧ body = group3 (dec_of_Z n) ∧
           comma_grouped body = true ∧ without_commas body = dec_of_Z n)).
Proof.
  split; [reflexivity|]. split; [vm_compute; reflexivity|]. split.
  - intros e H. unfold fmt_money. rewrite H.
    destruct (is_none x); reflexivity.
  - intros f H sign m. rewrite (fmt_money_numeric x f H).
    unfold fmt_money_float. fold sign. fold m.
    assert (H12 : B64.ltb m f1e12 = true → B64.leb f1e12 m = false).
    { apply below_threshold. right. split; [reflexivity|apply Pos.le_refl]. }
    assert (H9 : B64.ltb m f1e9 = true →
                 B64.leb f1e9 m = false ∧ B64.leb f1e12 m = false).
    { intros Hlt. split; revert Hlt; apply below_threshold.
      - right. split; [reflexivity|apply Pos.le_refl].
      - left. reflexivity. }
    assert (H6 : B64.ltb m f1e6 = true →
                 B64.leb f1e6 m = false ∧ B64.leb f1e9 m = false ∧
                 B64.leb f1e12 m = false).
    { intros Hlt. repeat split; revert Hlt; apply below_threshold.
      - right. split; [reflexivity|apply Pos.le_refl].
      - left. reflexivity.
      - left. reflexivity. }
    destruct (B64.leb f1e12 m) eqn:E12; [|destruct (B64.leb f1e9 m) eqn:E9;
      [|destruct (B64.leb f1e6 m) eqn:E6]].
    + exists (format_f 2 false (B64.div m f1e12) +:+ "T"). split; [reflexivity|].
      split; [intros _; eexists; split; [reflexivity|apply format_f_shown]|].
      split; [intros _ Hlt; specialize (H12 Hlt); discriminate|].
      split; [intros _ Hlt; destruct (H9 Hlt); discriminate|].
      intros Hlt. destruct (H6 Hlt) as (_ & _ & ?). discriminate.
    + exists (format_f 2 false (B64.div m f1e9) +:+ "B"). split; [reflexivity|].
      split; [discriminate|].
      split; [intros _ _; eexists; split; [reflexivity|apply format_f_shown]|].
      split; [intros _ Hlt; destruct (H9 Hlt); discriminate|].
      intros Hlt. destruct (H6 Hlt) as (_ & ? & _). discriminate.
    + exists (format_f 2 false (B64.div m f1e6) +:+ "M"). split; [reflexivity|].
      split; [discriminate|]. split; [discriminate|].
      split; [intros _ _; eexists; split; [reflexivity|apply format_f_shown]|].
      intros Hlt. destruct (H6 Hlt) as (? & _ & _). discriminate.
    + exists (format_f 0 true m). split; [reflexivity|].
      split; [discriminate|]. split; [discriminate|]. split; [discriminate|].
      intros Hlt. subst m. destruct (format_f_whole f Hlt) as (n & Hn & -> & Hg & Hw).
      exists n. repeat split; assumption.
Qed.

(** The hundredths and the whole number shown are determined by the float
    unless it lies halfway: 3.8 billions, and 999,999 dollars. *)
Lemma fmt_money_units_witness :
  fmt_money (VInt 3800000000) = "$3.80B" ∧ fmt_money (VInt64 999999) = "$999,999".
Proof.
  split.
  - destruct (fmt_money_units (VInt 3800000000)) as (_ & _ & _ & H).
    destruct (H (B64.of_Z 3800000000)) as (body & -> & _ & HB & _);
      [vm_compute; reflexivity|].
    destruct HB as (s & -> & Hshown & _); [vm_compute; reflexivity..|].
    assert (E : B64.div (SFabs (B64.of_Z 3800000000)) f1e9 =
                S754_finite false 8556839292003942 (-51)) by (vm_compute; reflexivity).
    rewrite E in Hshown. destruct Hshown as (n & Hn & Hnear & ->).
    unfold nearest_scaled in Hnear.
    change (-51 <? 0) with true in Hnear. cbv iota zeta in Hnear.
    change (2 ^ (- -51)) with 2251799813685248 in Hnear.
    change (10 ^ Z.of_nat 2) with 100 in Hnear.
    assert (n = 380) as -> by lia.
    vm_compute. reflexivity.
  - destruct (fmt_money_units (VInt64 999999)) as (_ & _ & _ & H).
    destruct (H (B64.of_Z 999999)) as (body & -> & _ & _ & _ & Hplain);
      [vm_compute; reflexivity|].
    destruct Hplain as (n & Hn & -> & _); [vm_compute; reflexivity|].
    assert (E : SFabs (B64.of_Z 999999) = S754_finite false 8589926002065408 (-33))
      by (vm_compute; reflexivity).
    rewrite E in Hn. destruct Hn as [Hn Hnear].
    unfold nearest_scaled in Hnear.
    change (-33 <? 0) with true in Hnear. cbv iota zeta in Hnear.
    change (2 ^ (- -33)) with 8589934592 in Hnear.
    change (10 ^ Z.of_nat 0) with 1 in Hnear.
    assert (n = 999999) as -> by lia.
    vm_compute. reflexivity.
Defined.

Example fmt_money_examples :
  fmt_money (VInt 3800000000) = "$3.80B" ∧
  fmt_money (VInt (-1200000000)) = "-$1.20B" ∧
  fmt_money (VInt 2500000000000) = "$2.50T" ∧
  fmt_money (VInt 1234567) = "$1.23M" ∧
  fmt_money (VInt 999999) = "$999,999" ∧
  fmt_money (VStr "123456.5") = "$123,456".
Proof. vm_compute. repeat split. Qed.

(** ** C10: zero is money *)

Lemma fmt_money_zero (x : pyval) : py_eq_zero x = true → fmt_money x = "$0".
Proof.
  destruct x as [|b|z|f|s|z64]; unfold py_eq_zero; simpl; intros H; try discriminate.
  - destruct b; [discriminate|]. vm_compute. reflexivity.
  - apply Z.eqb_eq in H as ->. vm_compute. reflexivity.
  - destruct f as [[]| | |]; try discriminate; vm_compute; reflexivity.
  - apply Z.eqb_eq in H as ->. vm_compute. reflexivity.
Qed.

(** The four money figures of the income statement are the first
    assignments; they do not raise and nothing later touches them. *)
Lemma income_assigned (info : pymap) (hist : history) (statement_metrics : pymap)
    (label : string) :
  label ∈ statement_fields →
  dict_lookup (calculate_key_metrics info hist statement_metrics) label =
  Some (VStr (fmt_money (get statement_metrics label))).
Proof.
  intros Hl. rewrite calculate_key_metrics_steps. unfold metric_steps.
  rewrite !run_steps_cons_ok. unfold statement_fields in Hl.
  repeat (apply elem_of_cons in Hl as [->|Hl];
    [rewrite run_steps_lookup_other; [reflexivity|not_a_label]|]).
  apply elem_of_nil in Hl. contradiction.
Qed.

(** C10: [fmt_money(0)] is "$0"; a statement figure equal to 0 is shown as
    "$0" under its label whatever the other inputs are; and on inputs whose
    fields are absent, [None] or numbers a market capitalisation of 0 is
    shown as "$0", whereas a beta of 0 and a 52-week high of 0 are shown as
    "N/A". *)
Theorem zero_is_money (info : pymap) (hist : history) (statement_metrics : pymap) :
  let metrics := calculate_key_metrics info hist statement_metrics in
  fmt_money (VInt 0) = "$0" ∧
  (∀ label, label ∈ statement_fields →
     py_eq_zero (get statement_metrics label) = true →
     dict_lookup metrics label = Some (VStr "$0")) ∧
  (figures info quote_fields → figures statement_metrics statement_fields →
   (py_eq_zero (get info "marketCap") = true →
    dict_lookup metrics "Market Cap" = Some (VStr "$0")) ∧
   (py_eq_zero (get info "beta") = true →
    dict_lookup metrics "Beta" = Some NA) ∧
   (py_eq_zero (get info "fiftyTwoWeekHigh") = true →
    dict_lookup metrics "52-Week High" = Some NA)).
Proof.
  intros metrics. split; [vm_compute; reflexivity|]. split.
  - intros label Hl Hz. subst metrics. rewrite income_assigned by assumption.
    rewrite (fmt_money_zero _ Hz). reflexivity.
  - intros Hq Hs. subst metrics.
    rewrite calculate_key_metrics_assigned by assumption.
    unfold metric_steps, assigned. cbn [map fst snd dict_lookup String.eqb Ascii.eqb Bool.eqb step_value].
    repeat split; intros Hz.
    + rewrite get_or_none, (fmt_money_zero _ Hz). reflexivity.
    + rewrite (eq_zero_not_truthy _ Hz). reflexivity.
    + unfold dollars_2f_or_na. rewrite get_or_none, (eq_zero_not_truthy _ Hz).
      reflexivity.
Qed.

Lemma zero_is_money_witness :
  let metrics := calculate_key_metrics info_zeroes []
                   (<["EBITDA (TTM)" := VFloat (S754_zero false)]> sample_statement) in
  dict_lookup metrics "EBITDA (TTM)" = Some (VStr "$0") ∧
  dict_lookup metrics "Market Cap" = Some (VStr "$0") ∧
  dict_lookup metrics "Beta" = Some NA ∧
  dict_lookup metrics "52-Week High" = Some NA.
Proof.
  intros metrics.
  destruct (zero_is_money info_zeroes []
              (<["EBITDA (TTM)" := VFloat (S754_zero false)]> sample_statement))
    as (_ & Hincome & Hquote).
  destruct Hquote as (Hcap & Hbeta & Hhigh); [decide_closed|decide_closed|].
  split; [apply Hincome; [decide_closed|vm_compute; reflexivity]|].
  split; [apply Hcap; vm_compute; reflexivity|].
  split; [apply Hbeta; vm_compute; reflexivity|apply Hhigh; vm_compute; reflexivity].
Defined.

(** ** The statement extractor *)

Lemma lookup_put_if_ne (c : bool) (k k' : string) (v : pyval) (out : pymap) :
  k ≠ k' → put_if c k v out !! k' = out !! k'.
Proof. intros H. unfold put_if. destruct c; [apply lookup_insert_ne; assumption|reflexivity]. Qed.

Lemma lookup_put_if (c : bool) (k : string) (v : pyval) (out : pymap) :
  put_if c k v out !! k = if c then Some v else out !! k.
Proof. unfold put_if. destruct c; [apply lookup_insert_eq|reflexivity]. Qed.

Lemma pull_run (df : DataFrame) (col row field : string) (rest : list string) (out : pymap) :
  columns df = col :: rest →
  pull df col row field out =
  Normal (put_if (in_index row df) field (cell df row col) out).
Proof.
  intros Hc. unfold pull, when, put_if, setitem, eval, loc, in_index.
  destruct (bool_decide (row ∈ index df)); [|reflexivity].
  rewrite Hc. rewrite bool_decide_eq_true_2 by apply list_elem_of_here.
  reflexivity.
Qed.

Lemma income_statement_run (stock : Ticker) (out : pymap) :
  try_except (income_statement stock) out =
  match usable (financials stock) with
  | Some (fin, col) =>
      put_if (in_index "EBITDA" fin) "EBITDA (TTM)" (cell fin "EBITDA" col) (
      put_if (in_index "Operating Income" fin) "Operating Income (TTM)"
        (cell fin "Operating Income" col) (
      put_if (in_index "Net Income" fin) "Net Income (TTM)" (cell fin "Net Income" col) (
      put_if (in_index "Total Revenue" fin) "Revenue (TTM)" (cell fin "Total Revenue" col)
        out)))
  | None => out
  end.
Proof.
  unfold income_statement, usable, try_except, eval.
  destruct (financials stock) as [[fin|]|]; try reflexivity.
  unfold when. destruct (df_empty fin) eqn:He; [reflexivity|]. simpl negb. cbv iota.
  unfold first_column.
  destruct (columns fin) as [|col rest] eqn:Hc; [reflexivity|]. simpl.
  unfold seq. rewrite !(pull_run fin col _ _ rest) by assumption. reflexivity.
Qed.

Lemma cash_flow_run (stock : Ticker) (out : pymap) :
  try_except (cash_flow stock) out =
  match usable (cashflow stock) with
  | Some (cf, col) =>
      put_free_cash_flow (
      put_if (in_index "Capital Expenditures" cf) "CapEx (TTM)"
        (cell cf "Capital Expenditures" col) (
      put_if (in_index "Total Cash From Operating Activities" cf) "Cash From Ops (TTM)"
        (cell cf "Total Cash From Operating Activities" col) out))
  | None => out
  end.
Proof.
  unfold cash_flow, usable, try_except, eval.
  destruct (cashflow stock) as [[cf|]|]; try reflexivity.
  unfold when. destruct (df_empty cf) eqn:He; [reflexivity|]. simpl negb. cbv iota.
  unfold first_column.
  destruct (columns cf) as [|col rest] eqn:Hc; [reflexivity|]. simpl.
  unfold seq. rewrite !(pull_run cf col _ _ rest) by assumption.
  unfold reading, eval, getitem, put_free_cash_flow, setitem, eval, skip.
  match goal with |- context [?m !! "Cash From Ops (TTM)"] =>
    destruct (m !! "Cash From Ops (TTM)") as [cfo|]; [|reflexivity];
    destruct (m !! "CapEx (TTM)") as [capex|]; [|reflexivity]
  end.
  simpl. destruct (negb (is_none cfo) && negb (is_none capex)); [|reflexivity].
  destruct (py_add cfo capex); reflexivity.
Qed.

Lemma get_statement_metrics_run (stock : Ticker) :
  get_statement_metrics stock =
  try_except (cash_flow stock) (try_except (income_statement stock) out_init).
Proof. reflexivity. Qed.

Lemma lookup_put_free_cash_flow_ne (out : pymap) (k : string) :
  k ≠ "Free Cash Flow (TTM)" → put_free_cash_flow out !! k = out !! k.
Proof.
  intros H. unfold put_free_cash_flow.
  destruct (out !! "Cash From Ops (TTM)") as [cfo|]; [|reflexivity].
  destruct (out !! "CapEx (TTM)") as [capex|]; [|reflexivity].
  destruct (negb (is_none cfo) && negb (is_none capex)); [|reflexivity].
  destruct (py_add cfo capex); [|reflexivity].
  apply lookup_insert_ne. congruence.
Qed.

Lemma income_field (stock : Ticker) (row field : string) :
  (row, field) ∈ income_rows →
  get_statement_metrics stock !! field = Some (pulled (financials stock) row).
Proof.
  intros H. rewrite get_statement_metrics_run, cash_flow_run, income_statement_run.
  unfold pulled, income_rows in *.
  assert (Hcash : ∀ out : pymap,
    match usable (cashflow stock) with
    | Some (cf, col) =>
        put_free_cash_flow (
        put_if (in_index "Capital Expenditures" cf) "CapEx (TTM)"
          (cell cf "Capital Expenditures" col) (
        put_if (in_index "Total Cash From Operating Activities" cf) "Cash From Ops (TTM)"
          (cell cf "Total Cash From Operating Activities" col) out))
    | None => out
    end !! field = out !! field).
  { intros out. destruct (usable (cashflow stock)) as [[cf col]|]; [|reflexivity].
    repeat (apply elem_of_cons in H as [[= -> ->]|H];
      [rewrite lookup_put_free_cash_flow_ne, !lookup_put_if_ne by discriminate;
       reflexivity|]).
    apply elem_of_nil in H. contradiction. }
  rewrite Hcash.
  destruct (usable (financials stock)) as [[fin col]|].
  - repeat (apply elem_of_cons in H as [[= -> ->]|H];
      [rewrite ?lookup_put_if_ne by discriminate; rewrite lookup_put_if;
       rewrite ?lookup_put_if_ne by discriminate;
       destruct (in_index _ fin); reflexivity|]).
    apply elem_of_nil in H. contradiction.
  - repeat (apply elem_of_cons in H as [[= -> ->]|H]; [reflexivity|]).
    apply elem_of_nil in H. contradiction.
Qed.

Lemma income_untouched (stock : Ticker) (out : pymap) (k : string) :
  k ∉ map snd income_rows →
  try_except (income_statement stock) out !! k = out !! k.
Proof.
  intros H. rewrite income_statement_run.
  destruct (usable (financials stock)) as [[fin col]|]; [|reflexivity].
  simpl in H. repeat (apply not_elem_of_cons in H as [? H]).
  rewrite !lookup_put_if_ne by congruence. reflexivity.
Qed.

Lemma cash_field (stock : Ticker) (row field : string) :
  (row, field) ∈ cash_rows →
  get_statement_metrics stock !! field = Some (pulled (cashflow stock) row).
Proof.
  intros H. rewrite get_statement_metrics_run, cash_flow_run.
  unfold pulled, cash_rows in *.
  assert (Hinit : try_except (income_statement stock) out_init !! field = Some VNone).
  { repeat (apply elem_of_cons in H as [[= -> ->]|H];
      [rewrite income_untouched by (simpl; not_a_label); reflexivity|]).
    apply elem_of_nil in H. contradiction. }
  destruct (usable (cashflow stock)) as [[cf col]|]; [|exact Hinit].
  repeat (apply elem_of_cons in H as [[= -> ->]|H];
    [rewrite lookup_put_free_cash_flow_ne by discriminate;
     rewrite ?lookup_put_if_ne by discriminate; rewrite lookup_put_if;
     rewrite ?lookup_put_if_ne by discriminate;
     destruct (in_index _ cf); [reflexivity|exact Hinit]|]).
  apply elem_of_nil in H. contradiction.
Qed.

Lemma free_cash_flow_field (stock : Ticker) :
  let cfo := pulled (cashflow stock) "Total Cash From Operating Activities" in
  let capex := pulled (cashflow stock) "Capital Expenditures" in
  get_statement_metrics stock !! "Free Cash Flow (TTM)" =
  Some (if negb (is_none cfo) && negb (is_none capex)
        then step_value (py_add cfo capex) else VNone).
Proof.
  intros cfo capex.
  pose proof (cash_field stock "Total Cash From Operating Activities" "Cash From Ops (TTM)")
    as Hcfo.
  pose proof (cash_field stock "Capital Expenditures" "CapEx (TTM)") as Hcapex.
  fold cfo in Hcfo. fold capex in Hcapex. unfold cash_rows in Hcfo, Hcapex.
  specialize (Hcfo (list_elem_of_here _ _)).
  specialize (Hcapex (list_elem_of_further _ _ _ (list_elem_of_here _ _))).
  rewrite get_statement_metrics_run, cash_flow_run in *.
  assert (Hinit : try_except (income_statement stock) out_init !! "Free Cash Flow (TTM)"
                  = Some VNone).
  { rewrite income_untouched by (simpl; not_a_label). reflexivity. }
  unfold pulled in cfo, capex.
  destruct (usable (cashflow stock)) as [[cf col]|].
  - rewrite lookup_put_free_cash_flow_ne in Hcfo, Hcapex by discriminate.
    unfold put_free_cash_flow. rewrite Hcfo, Hcapex.
    destruct (negb (is_none cfo) && negb (is_none capex)).
    + destruct (py_add cfo capex) as [v|]; simpl.
      * apply lookup_insert_eq.
      * rewrite !lookup_put_if_ne by discriminate. exact Hinit.
    + rewrite !lookup_put_if_ne by discriminate. exact Hinit.
  - subst cfo capex. simpl. exact Hinit.
Qed.

(** ** C4: free cash flow *)

Lemma wrap64_in_range (z : Z) : in_int64 z = true → wrap64 z = z.
Proof.
  unfold in_int64, wrap64, int64_bound. intros H.
  apply andb_true_iff in H as [H1 H2].
  apply Z.leb_le in H1. apply Z.ltb_lt in H2.
  rewrite Z.mod_small by lia. lia.
Qed.

(** C4, as stated, fails on 64-bit integers whose sum does not fit: the
    entries of a column of integers are [numpy.int64], and the sum of
    [2^62] and [2^62] wraps around to [-2^63]. *)
Lemma free_cash_flow_counterexample :
  let out := get_statement_metrics (cashflow_of (VInt64 (2 ^ 62)) (VInt64 (2 ^ 62))) in
  out !! "Cash From Ops (TTM)" = Some (VInt64 (2 ^ 62)) ∧
  out !! "CapEx (TTM)" = Some (VInt64 (2 ^ 62)) ∧
  out !! "Free Cash Flow (TTM)" = Some (VInt64 (- 2 ^ 63)) ∧
  - 2 ^ 63 ≠ 2 ^ 62 + 2 ^ 62.
Proof. vm_compute. repeat split; discriminate. Qed.

(** C4 (amended): the extractor's output has "Cash From Ops (TTM)", "CapEx
    (TTM)" and "Free Cash Flow (TTM)"; the free cash flow is [None] when
    either operand is [None]; when both are 64-bit integers it is their sum
    as long as that fits in 64 bits (and the sum wrapped around otherwise);
    when both are floats it is their float sum, which is the exact sum when
    the operands are whole numbers and they and their sum are below [2^53] in
    magnitude; when both are integers of Python it is their sum; and in
    general it is [cfo + capex] whenever that addition is defined. *)
Theorem free_cash_flow (stock : Ticker) :
  let out := get_statement_metrics stock in
  ∃ cfo capex fcf,
    out !! "Cash From Ops (TTM)" = Some cfo ∧
    out !! "CapEx (TTM)" = Some capex ∧
    out !! "Free Cash Flow (TTM)" = Some fcf ∧
    (cfo = VNone ∨ capex = VNone → fcf = VNone) ∧
    (∀ a b, cfo = VInt64 a → capex = VInt64 b →
       fcf = VInt64 (wrap64 (a + b)) ∧ (in_int64 (a + b) = true → fcf = VInt64 (a + b))) ∧
    (∀ a b, cfo = VFloat a → capex = VFloat b → fcf = VFloat (B64.add a b)) ∧
    (∀ a b, Z.abs a < 2 ^ 53 → Z.abs b < 2 ^ 53 → Z.abs (a + b) < 2 ^ 53 →
       cfo = VFloat (B64.of_Z a) → capex = VFloat (B64.of_Z b) →
       fcf = VFloat (B64.of_Z (a + b))) ∧
    (∀ a b, cfo = VInt a → capex = VInt b → fcf = VInt (a + b)) ∧
    (cfo ≠ VNone → capex ≠ VNone → ∀ v, py_add cfo capex = Ok v → fcf = v).
Proof.
  intros out. subst out.
  exists (pulled (cashflow stock) "Total Cash From Operating Activities"),
         (pulled (cashflow stock) "Capital Expenditures").
  eexists. split; [|split; [|split; [apply free_cash_flow_field|]]].
  - apply cash_field. apply list_elem_of_here.
  - apply cash_field. apply list_elem_of_further, list_elem_of_here.
  - generalize (pulled (cashflow stock) "Total Cash From Operating Activities"),
               (pulled (cashflow stock) "Capital Expenditures").
    intros cfo capex. repeat split.
    + intros [-> | ->]; simpl; rewrite ?andb_false_r; reflexivity.
    + subst. reflexivity.
    + intros Hfit. subst. simpl. rewrite (wrap64_in_range _ Hfit). reflexivity.
    + intros a b -> ->. reflexivity.
    + intros a b Ha Hb Hab -> ->. simpl. unfold py_add. simpl.
      rewrite (add_of_Z_exact a b Ha Hb Hab). reflexivity.
    + intros a b -> ->. reflexivity.
    + intros Hc Hx v Hv. rewrite Hv.
      destruct cfo, capex; try congruence; reflexivity.
Qed.

(** The sample of the specification as 64-bit integers and as floats:
    5,000,000,000 and -1,200,000,000 give 3,800,000,000. *)
Lemma free_cash_flow_witness :
  get_statement_metrics (cashflow_of (VInt64 5000000000) (VInt64 (-1200000000)))
    !! "Free Cash Flow (TTM)" = Some (VInt64 3800000000) ∧
  get_statement_metrics (cashflow_of (VFloat f5e9) (VFloat f_minus_1_2e9))
    !! "Free Cash Flow (TTM)" = Some (VFloat f3_8e9) ∧
  get_statement_metrics (cashflow_of (VFloat f5e9) (VFloat f_minus_1_2e9))
    !! "Free Cash Flow (TTM)" = Some (VFloat (B64.of_Z 3800000000)) ∧
  get_statement_metrics (cashflow_of (VFloat f5e9) VNone)
    !! "Free Cash Flow (TTM)" = Some VNone.
Proof.
  split; [|split; [|split]].
  - destruct (free_cash_flow (cashflow_of (VInt64 5000000000) (VInt64 (-1200000000))))
      as (cfo & capex & fcf & Hcfo & Hcapex & -> & _ & Hint & _).
    vm_compute in Hcfo, Hcapex. injection Hcfo as <-. injection Hcapex as <-.
    destruct (Hint _ _ eq_refl eq_refl) as [_ Hfit].
    f_equal. apply Hfit. reflexivity.
  - destruct (free_cash_flow (cashflow_of (VFloat f5e9) (VFloat f_minus_1_2e9)))
      as (cfo & capex & fcf & Hcfo & Hcapex & -> & _ & _ & Hfloat & _).
    vm_compute in Hcfo, Hcapex. injection Hcfo as <-. injection Hcapex as <-.
    rewrite (Hfloat _ _ eq_refl eq_refl). vm_compute. reflexivity.
  - destruct (free_cash_flow (cashflow_of (VFloat f5e9) (VFloat f_minus_1_2e9)))
      as (cfo & capex & fcf & Hcfo & Hcapex & -> & _ & _ & _ & Hwhole & _).
    vm_compute in Hcfo, Hcapex. injection Hcfo as <-. injection Hcapex as <-.
    f_equal.
    apply (Hwhole 5000000000 (-1200000000));
      solve [reflexivity | vm_compute; reflexivity].
  - destruct (free_cash_flow (cashflow_of (VFloat f5e9) VNone))
      as (cfo & capex & fcf & Hcfo & Hcapex & -> & Hnone & _).
    vm_compute in Hcapex. injection Hcapex as <-.
    f_equal. apply Hnone. right. reflexivity.
Defined.

(** The three floats are 5e9, -1.2e9 and 3.8e9. *)
Example sample_floats :
  Some f5e9 = parse_float "5e9" ∧ Some f_minus_1_2e9 = parse_float "-1.2e9" ∧
  Some f3_8e9 = parse_float "3.8e9".
Proof. vm_compute. repeat split. Qed.

Example sample_free_cash_flow_rendered :
  get_statement_metrics sample_ticker !! "Free Cash Flow (TTM)" = Some (VInt 3800000000) ∧
  fmt_money (VInt 3800000000) = "$3.80B".
Proof. vm_compute. split; reflexivity. Qed.

(** ** C6: a failed lookup leaves only its own field empty *)

Lemma dom_out_init : dom out_init = list_to_set out_fields.
Proof.
  unfold out_init, out_fields. rewrite !dom_insert_L, dom_empty_L. simpl.
  rewrite !(assoc_L (∪)). reflexivity.
Qed.

Lemma put_if_fields (c : bool) (k : string) (v : pyval) (out : pymap) :
  k ∈ out_fields →
  dom out = list_to_set out_fields →
  dom (put_if c k v out) = list_to_set out_fields.
Proof.
  intros Hk Hd. unfold put_if. destruct c; [|exact Hd].
  rewrite dom_insert_lookup_L; [exact Hd|].
  apply elem_of_dom. rewrite Hd. apply elem_of_list_to_set. exact Hk.
Qed.

Lemma put_free_cash_flow_fields (out : pymap) :
  dom out = list_to_set out_fields →
  dom (put_free_cash_flow out) = list_to_set out_fields.
Proof.
  intros Hd. unfold put_free_cash_flow.
  destruct (out !! "Cash From Ops (TTM)") as [cfo|]; [|exact Hd].
  destruct (out !! "CapEx (TTM)") as [capex|]; [|exact Hd].
  destruct (negb (is_none cfo) && negb (is_none capex)); [|exact Hd].
  destruct (py_add cfo capex); [|exact Hd].
  rewrite dom_insert_lookup_L; [exact Hd|].
  apply elem_of_dom. rewrite Hd. apply elem_of_list_to_set. decide_closed.
Qed.

Lemma dom_get_statement_metrics (stock : Ticker) :
  dom (get_statement_metrics stock) = list_to_set out_fields.
Proof.
  rewrite get_statement_metrics_run, cash_flow_run, income_statement_run.
  assert (H1 : dom match usable (financials stock) with
    | Some (fin, col) =>
        put_if (in_index "EBITDA" fin) "EBITDA (TTM)" (cell fin "EBITDA" col) (
        put_if (in_index "Operating Income" fin) "Operating Income (TTM)"
          (cell fin "Operating Income" col) (
        put_if (in_index "Net Income" fin) "Net Income (TTM)" (cell fin "Net Income" col) (
        put_if (in_index "Total Revenue" fin) "Revenue (TTM)" (cell fin "Total Revenue" col)
          out_init)))
    | None => out_init
    end = list_to_set out_fields).
  { destruct (usable (financials stock)) as [[fin col]|]; [|exact dom_out_init].
    repeat (apply put_if_fields; [decide_closed|]). exact dom_out_init. }
  destruct (usable (cashflow stock)) as [[cf col]|]; [|exact H1].
  apply put_free_cash_flow_fields.
  repeat (apply put_if_fields; [decide_closed|]). exact H1.
Qed.

(** C6: the extractor always returns its seven fields (no exception leaves
    it); each field read from the income statement holds the entry of its
    own row in the latest column when the statement is there, is not empty
    and has the row, and [None] otherwise, whatever happens to the other
    rows and to the cash-flow statement; and likewise for the two fields read
    from the cash-flow statement. *)
Theorem extractor_isolates_failures (stock : Ticker) :
  let out := get_statement_metrics stock in
  dom out = list_to_set out_fields ∧
  (∀ row field, (row, field) ∈ income_rows →
     match usable (financials stock) with
     | Some (fin, col) =>
         if in_index row fin then out !! field = Some (cell fin row col)
         else out !! field = Some VNone
     | None => out !! field = Some VNone
     end) ∧
  (∀ row field, (row, field) ∈ cash_rows →
     match usable (cashflow stock) with
     | Some (cf, col) =>
         if in_index row cf then out !! field = Some (cell cf row col)
         else out !! field = Some VNone
     | None => out !! field = Some VNone
     end).
Proof.
  intros out. subst out. split; [apply dom_get_statement_metrics|]. split.
  - intros row field H. rewrite (income_field stock row field H). unfold pulled.
    destruct (usable (financials stock)) as [[fin col]|]; [|reflexivity].
    destruct (in_index row fin); reflexivity.
  - intros row field H. rewrite (cash_field stock row field H). unfold pulled.
    destruct (usable (cashflow stock)) as [[cf col]|]; [|reflexivity].
    destruct (in_index row cf); reflexivity.
Qed.

Lemma extractor_isolates_failures_witness :
  get_statement_metrics sample_ticker !! "Cash From Ops (TTM)" =
    Some (cell sample_cashflow "Total Cash From Operating Activities" "2023-09-30") ∧
  get_statement_metrics sample_ticker !! "Revenue (TTM)" = Some VNone.
Proof.
  destruct (extractor_isolates_failures sample_ticker) as (_ & Hincome & Hcash).
  split.
  - exact (Hcash "Total Cash From Operating Activities" "Cash From Ops (TTM)"
             (list_elem_of_here _ _)).
  - exact (Hincome "Total Revenue" "Revenue (TTM)" (list_elem_of_here _ _)).
Defined.

(** ** C8: the comparison stops on too few tickers or a failed ticker *)

Lemma set_status_overwrites (sh : Sheet) (msg1 msg2 : string) (r c : nat) :
  set_status (set_status sh msg1) msg2 r c = set_status sh msg2 r c.
Proof.
  unfold set_status, write. destruct ((r =? 7)%nat && (c =? 2)%nat); reflexivity.
Qed.

Section CompareFacts.

Variable get_stock_data : string → string → option (Ticker * history * pymap).

(** When a ticker still to fetch fails, the loop returns early: apart from
    the status cell the sheet is as the loop found it, and the status cell
    names the first ticker that failed. *)
Lemma fetch_all_failure (period : string) (n : nat) (todo : list string) :
  ∀ (i : nat) (sh : Sheet) (stock_data : gmap string stock_entry),
  Exists (λ t, acquired (get_stock_data t period) = false) todo →
  ∃ t sh',
    t ∈ todo ∧ acquired (get_stock_data t period) = false ∧
    fetch_all get_stock_data period n todo i sh stock_data = inr sh' ∧
    ∀ r c, sh' r c =
           set_status sh ("Error loading " +:+ t +:+ " - no data returned") r c.
Proof.
  induction todo as [|t todo IH]; intros i sh stock_data Hex.
  - apply Exists_nil in Hex. contradiction.
  - cbn [fetch_all].
    destruct (acquired (get_stock_data t period)) eqn:Hacq.
    + apply Exists_cons in Hex as [Hbad|Hex]; [congruence|].
      destruct (get_stock_data t period) as [[[stock hist] info]|]; [|discriminate].
      destruct hist as [|bar hist]; [discriminate|].
      edestruct IH as (t' & sh' & Hin & Hbad & -> & Hsh); [exact Hex|].
      exists t', sh'. split; [apply list_elem_of_further; exact Hin|].
      split; [exact Hbad|]. split; [reflexivity|].
      intros r c. rewrite Hsh. apply set_status_overwrites.
    + exists t. eexists. split; [apply list_elem_of_here|].
      split; [exact Hacq|].
      destruct (get_stock_data t period) as [[[stock hist] info]|];
        [destruct hist as [|bar hist]; [|discriminate]|];
        (split; [reflexivity|]); intros r c; apply set_status_overwrites.
Qed.

End CompareFacts.

Lemma set_status_cells (sh : Sheet) (msg : string) :
  set_status sh msg 7%nat 2%nat = VStr msg ∧
  ∀ r c, (r, c) ≠ (7, 2)%nat → set_status sh msg r c = sh r c.
Proof.
  split; [reflexivity|]. intros r c Hne. unfold set_status, write.
  destruct (Nat.eqb_spec r 7) as [->|_]; [|reflexivity].
  destruct (Nat.eqb_spec c 2) as [->|_]; [congruence|reflexivity].
Qed.

(** C8: with fewer than two tickers the macro only writes "Please enter at
    least 2 tickers" to the status cell B7 and leaves every other cell as it
    was; with two or three tickers of which one cannot be acquired, it ends
    with the status cell B7 holding an error message that names a ticker
    that failed, every cell of the range A10:Z200 empty, and every other
    cell as it was: no cell of a comparison table is written. *)
Theorem comparison_stops_on_failure
    (get_stock_data : string → string → option (Ticker * history * pymap))
    (float_repr : spec_float → string) (exn_message : exn → string)
    (draw_chart : list (string * history) → result unit) (sheet : Sheet) :
  let tickers := read_tickers float_repr sheet in
  let period := read_period float_repr sheet in
  let final := compare_stocks get_stock_data float_repr exn_message draw_chart sheet in
  ((length tickers < 2)%nat →
   final 7%nat 2%nat = VStr "Please enter at least 2 tickers" ∧
   ∀ r c, (r, c) ≠ (7, 2)%nat → final r c = sheet r c) ∧
  ((2 ≤ length tickers)%nat →
   Exists (λ t, acquired (get_stock_data t period) = false) tickers →
   ∃ t, t ∈ tickers ∧ acquired (get_stock_data t period) = false ∧
        final 7%nat 2%nat = VStr ("Error loading " +:+ t +:+ " - no data returned") ∧
        (∀ r c, in_table_range r c = true → final r c = VNone) ∧
        (∀ r c, in_table_range r c = false → (r, c) ≠ (7, 2)%nat →
                final r c = sheet r c)).
Proof.
  intros tickers period final. subst final. unfold compare_stocks.
  fold tickers. fold period. split.
  - intros Hlt. apply Nat.ltb_lt in Hlt. rewrite Hlt. apply set_status_cells.
  - intros Hge Hex.
    destruct (Nat.ltb_spec (length tickers) 2) as [Hlt|_]; [lia|].
    destruct (fetch_all_failure get_stock_data period (length tickers) tickers 0
                (clear_contents sheet 10 1 200 26) ∅ Hex)
      as (t & sh' & Hin & Hbad & -> & Hsh).
    exists t. split; [exact Hin|]. split; [exact Hbad|].
    split; [rewrite Hsh; reflexivity|]. split.
    + intros r c Hr. rewrite Hsh.
      destruct (set_status_cells (clear_contents sheet 10 1 200 26)
                  ("Error loading " +:+ t +:+ " - no data returned")) as [_ Hother].
      rewrite Hother.
      * unfold clear_contents. unfold in_table_range in Hr. rewrite Hr. reflexivity.
      * intros [= -> ->]. discriminate Hr.
    + intros r c Hr Hne. rewrite Hsh.
      destruct (set_status_cells (clear_contents sheet 10 1 200 26)
                  ("Error loading " +:+ t +:+ " - no data returned")) as [_ Hother].
      rewrite Hother by assumption.
      unfold clear_contents. unfold in_table_range in Hr. rewrite Hr. reflexivity.
Qed.

Lemma comparison_stops_on_failure_witness :
  let final := compare_stocks only_aapl (λ _, "") (λ _, "") (λ _, Ok ()) sample_sheet in
  ∃ t, t ∈ ["AAPL"; "MSFT"] ∧ acquired (only_aapl t "1y") = false ∧
       final 7%nat 2%nat = VStr ("Error loading " +:+ t +:+ " - no data returned") ∧
       (∀ r c, in_table_range r c = true → final r c = VNone) ∧
       (∀ r c, in_table_range r c = false → (r, c) ≠ (7, 2)%nat →
               final r c = sample_sheet r c).
Proof.
  destruct (comparison_stops_on_failure only_aapl (λ _, "") (λ _, "") (λ _, Ok ())
              sample_sheet) as [_ H].
  apply H.
  - vm_compute. lia.
  - apply Exists_cons_tl, Exists_cons_hd. vm_compute. reflexivity.
Defined.

(** When every ticker is acquired the table is written. *)
Example comparison_table_written :
  let final := compare_stocks every_ticker (λ _, "") (λ _, "") (λ _, Ok ()) sample_sheet in
  final 7%nat 2%nat = VStr "âœ“ Comparison complete!" ∧
  final 10%nat 1%nat = VStr "STOCK COMPARISON" ∧
  final 12%nat 1%nat = VStr "Metric" ∧
  final 12%nat 2%nat = VStr "AAPL" ∧
  final 12%nat 3%nat = VStr "MSFT" ∧
  final 13%nat 3%nat = VStr "MSFT Inc." ∧
  final 14%nat 1%nat = VStr "INCOME STATEMENT" ∧
  final 15%nat 1%nat = VStr "Revenue (TTM)" ∧
  final 15%nat 2%nat = VStr "N/A" ∧
  final 20%nat 1%nat = VStr "PROFITABILITY & MARGINS" ∧
  final 31%nat 1%nat = VStr "Current Price" ∧
  final 31%nat 2%nat = VFloat (S754_finite false 5286451906347008 (-45)) ∧
  final 45%nat 1%nat = VStr "Beta" ∧
  final 46%nat 1%nat = VNone.
Proof. vm_compute. repeat split. Qed.

(** ** C9: the news list *)

Section NewsFacts.

Variable ticker_news : string → result (option (list feed_item)).
Variable timestamp_text : pyval → result string.
Variable requests_get : string → result Response.

Lemma get_stock_news_stages (ticker : string) :
  get_stock_news ticker_news timestamp_text requests_get ticker =
  match yfinance_news ticker_news timestamp_text ticker [] with
  | Return news_data => news_data
  | Next news_data => rss_then_placeholder requests_get ticker news_data
  end.
Proof. reflexivity. Qed.

Lemma feed_step_grows (item : feed_item) (news_data : list pydict) :
  match feed_step timestamp_text item news_data with
  | Normal d | Raised _ d =>
      d = news_data ∨ ∃ t p l pub, d = news_data ++ [news_item t p l pub]
  end.
Proof.
  unfold feed_step, eval, skip.
  destruct (item_get item "title" NA) as [title|]; [|left; reflexivity].
  destruct (item_get item "publisher" NA) as [publisher|]; [|left; reflexivity].
  destruct (item_get item "link" NA) as [link|]; [|left; reflexivity].
  destruct (item_get item "providerPublishTime" (VInt 0)) as [pub_time|];
    [|left; reflexivity].
  destruct (if py_truthy pub_time then py_gt_zero pub_time else Ok false)
    as [positive|]; [|left; reflexivity].
  destruct (py_eq_str title "N/A" && py_eq_str publisher "N/A" && py_eq_str link "N/A");
    [left; reflexivity|].
  right. eauto.
Qed.

Lemma well_formed_snoc (news_data : list pydict) (t p l pub : pyval) :
  well_formed news_data → well_formed (news_data ++ [news_item t p l pub]).
Proof.
  intros H. apply Forall_app. split; [exact H|].
  apply Forall_cons_2; [reflexivity|apply Forall_nil_2].
Qed.

(** The loop of the first method keeps the items well formed and adds at
    most one item per feed entry, whether it completes or raises. *)
Lemma for_each_feed_step (items : list feed_item) (news_data : list pydict) :
  well_formed news_data →
  match for_each (feed_step timestamp_text) items news_data with
  | Normal d | Raised _ d =>
      well_formed d ∧ (length news_data ≤ length d ≤ length news_data + length items)%nat
  end.
Proof.
  revert news_data. induction items as [|item items IH]; intros news_data Hwf.
  - simpl. split; [assumption|lia].
  - cbn [for_each]. unfold seq.
    pose proof (feed_step_grows item news_data) as Hstep.
    destruct (feed_step timestamp_text item news_data) as [d|e d].
    + assert (Hd : well_formed d ∧ (length news_data ≤ length d ≤ length news_data + 1)%nat).
      { destruct Hstep as [->|(t & p & l & pub & ->)].
        - split; [assumption|lia].
        - split; [now apply well_formed_snoc|]. rewrite length_app. simpl. lia. }
      destruct Hd as [Hwfd Hlen]. specialize (IH d Hwfd).
      destruct (for_each (feed_step timestamp_text) items d);
        (split; [tauto|simpl; lia]).
    + destruct Hstep as [->|(t & p & l & pub & ->)].
      * split; [assumption|simpl; lia].
      * split; [now apply well_formed_snoc|]. rewrite length_app. simpl. lia.
Qed.

Lemma rss_steps (items : list rss_item) (news_data : list pydict) :
  well_formed news_data →
  well_formed (fold_left (λ d item, rss_step item d) items news_data) ∧
  length (fold_left (λ d item, rss_step item d) items news_data) =
  (length news_data + length items)%nat.
Proof.
  revert news_data. induction items as [|item items IH]; intros news_data Hwf; simpl.
  - split; [assumption|lia].
  - assert (Hstep : well_formed (rss_step item news_data) ∧
                    length (rss_step item news_data) = S (length news_data)).
    { unfold rss_step.
      destruct (rsplit1 (chars " - ") (chars (default "N/A" (rss_title item))))
        as [[a b]|];
        (split; [now apply well_formed_snoc|rewrite length_app; simpl; lia]). }
    destruct Hstep as [Hwf' Hlen]. destruct (IH _ Hwf') as [Hw Hl].
    split; [exact Hw|]. rewrite Hl, Hlen. lia.
Qed.

(** The second method and the fallback: the list they are given grows by at
    most ten items and comes out non-empty. *)
Lemma rss_then_placeholder_shape (ticker : string) (news_data : list pydict) :
  well_formed news_data →
  let news := rss_then_placeholder requests_get ticker news_data in
  well_formed news ∧ (1 ≤ length news)%nat ∧
  (length news ≤ length news_data + 10)%nat.
Proof.
  intros Hwf.
  assert (Hfallback :
    well_formed (if (length news_data =? 0)%nat
                 then news_data ++ [placeholder ticker] else news_data) ∧
    (1 ≤ length (if (length news_data =? 0)%nat
                 then news_data ++ [placeholder ticker] else news_data))%nat ∧
    (length (if (length news_data =? 0)%nat
             then news_data ++ [placeholder ticker] else news_data)
     ≤ length news_data + 10)%nat).
  { destruct (Nat.eqb_spec (length news_data) 0) as [H0|Hn].
    - split; [now apply well_formed_snoc|]. rewrite length_app. simpl. lia.
    - split; [assumption|lia]. }
  unfold rss_then_placeholder, google_rss_news.
  destruct (requests_get (rss_url ticker)) as [response|]; [|exact Hfallback].
  destruct (status_code response =? 200); [|exact Hfallback].
  destruct (soup_items response) as [items|]; [|exact Hfallback].
  destruct (rss_steps (take 10 items) news_data Hwf) as [Hw Hl].
  assert (Htake : (length (take 10 items) ≤ 10)%nat) by (rewrite length_take; lia).
  cbv zeta.
  destruct (Nat.ltb_spec 0
              (length (fold_left (λ d item, rss_step item d) (take 10 items) news_data)))
    as [Hpos|Hzero].
  - split; [exact Hw|lia].
  - destruct (Nat.eqb_spec
                (length (fold_left (λ d item, rss_step item d) (take 10 items) news_data)) 0)
      as [_|Hne]; [|lia].
    split; [now apply well_formed_snoc|]. rewrite length_app. simpl. lia.
Qed.

(** X1: What holds of every result: it is never empty, its items have the four
    fields, and it has at most twenty items. *)
Lemma get_stock_news_shape (ticker : string) :
  let news := get_stock_news ticker_news timestamp_text requests_get ticker in
  well_formed news ∧ (1 ≤ length news ≤ 20)%nat.
Proof.
  cbv zeta. rewrite get_stock_news_stages. unfold yfinance_news.
  assert (Hnil : well_formed []) by apply Forall_nil_2.
  pose proof (rss_then_placeholder_shape ticker [] Hnil) as Hempty. cbv zeta in Hempty.
  change (length (@nil pydict)) with 0%nat in Hempty.
  destruct (ticker_news ticker) as [[[|item items]|]|];
    try (split; [tauto|lia]).
  pose proof (for_each_feed_step (take 10 (item :: items)) [] Hnil) as Hfeed.
  assert (Htake : (length (take 10 (item :: items)) ≤ 10)%nat)
    by (rewrite length_take; lia).
  destruct (for_each (feed_step timestamp_text) (take 10 (item :: items)) [])
    as [d|e d]; destruct Hfeed as [Hwf Hlen];
    change (length (@nil pydict)) with 0%nat in Hlen;
    pose proof (rss_then_placeholder_shape ticker d Hwf) as Hrss; cbv zeta in Hrss.
  - destruct (Nat.ltb_spec 0 (length d)); split; try tauto; lia.
  - split; [tauto|lia].
Qed.

(** When the loop of the first method does not raise, the result has at most
    ten items. *)
Lemma get_stock_news_capped (ticker : string) :
  (∀ news, ticker_news ticker = Ok (Some news) →
           is_normal (for_each (feed_step timestamp_text) (take 10 news) []) = true) →
  (length (get_stock_news ticker_news timestamp_text requests_get ticker) ≤ 10)%nat.
Proof.
  intros Hclean. rewrite get_stock_news_stages. unfold yfinance_news.
  assert (Hnil : well_formed []) by apply Forall_nil_2.
  pose proof (rss_then_placeholder_shape ticker [] Hnil) as Hempty. cbv zeta in Hempty.
  change (length (@nil pydict)) with 0%nat in Hempty.
  destruct (ticker_news ticker) as [[[|item items]|]|]; try lia.
  specialize (Hclean (item :: items) eq_refl).
  pose proof (for_each_feed_step (take 10 (item :: items)) [] Hnil) as Hfeed.
  assert (Htake : (length (take 10 (item :: items)) ≤ 10)%nat)
    by (rewrite length_take; lia).
  destruct (for_each (feed_step timestamp_text) (take 10 (item :: items)) [])
    as [d|e d]; [|discriminate].
  destruct Hfeed as [_ Hlen]. change (length (@nil pydict)) with 0%nat in Hlen.
  destruct (Nat.ltb_spec 0 (length d)) as [Hpos|Hzero]; [lia|].
  destruct d; [lia|simpl in Hzero; lia].
Qed.

(** When neither source adds an item, the result is the placeholder. *)
Lemma get_stock_news_placeholder (ticker : string) :
  yfinance_news ticker_news timestamp_text ticker [] = Next [] →
  google_rss_news requests_get ticker [] = Next [] →
  get_stock_news ticker_news timestamp_text requests_get ticker = [placeholder ticker].
Proof.
  intros H1 H2. rewrite get_stock_news_stages, H1.
  unfold rss_then_placeholder. rewrite H2. reflexivity.
Qed.

End NewsFacts.

(** C9 does not hold of the code at this input: the first feed entry is
    appended, the comparison [pub_time > 0] on the second raises, the
    exception handler keeps the list, and the ten RSS items are appended to
    it: eleven items are returned, more than the ten the claim allows. *)
Theorem news_list_exceeds_ten (timestamp_text : pyval → result string) :
  length (get_stock_news (λ _, Ok (Some feed_mistyped)) timestamp_text
            (λ _, Ok rss_ten) "AAPL") = 11%nat.
Proof.
  unfold get_stock_news, yfinance_news, feed_mistyped.
  cbn [take for_each seq]. unfold feed_step at 1. unfold item_get, eval.
  destruct (timestamp_text _); vm_compute; reflexivity.
Qed.

(** * Further properties of the code *)

(** ** The items of the RSS search *)

Lemma is_prefix_app (p l : list ascii) :
  is_prefix p l = true → l = p ++ drop (length p) l.
Proof.
  revert l. induction p as [|a p IH]; intros l H; [reflexivity|].
  destruct l as [|b l]; [discriminate|]. simpl in H.
  apply andb_true_iff in H as [Hab Hp]. apply bool_decide_eq_true in Hab as ->.
  simpl. f_equal. apply IH. exact Hp.
Qed.

Lemma rsplit1_tail (sep : list ascii) (c : ascii) (l : list ascii) :
  rsplit1 sep (c :: l) = None → rsplit1 sep l = None.
Proof.
  cbn [rsplit1]. destruct (rsplit1 sep l) as [[a b]|]; [discriminate|reflexivity].
Qed.

Lemma rsplit1_drop (sep : list ascii) (n : nat) (l : list ascii) :
  rsplit1 sep l = None → rsplit1 sep (drop n l) = None.
Proof.
  revert l. induction n as [|n IH]; intros l H; [exact H|].
  destruct l as [|c l]; [reflexivity|]. simpl. apply IH.
  exact (rsplit1_tail sep c l H).
Qed.

Lemma rsplit1_none (sep l : list ascii) :
  sep ≠ [] → (rsplit1 sep l = None ↔ contains sep l = false).
Proof.
  intros Hsep. induction l as [|c l IH].
  - destruct sep; [congruence|]. simpl. tauto.
  - cbn [rsplit1 contains].
    destruct (rsplit1 sep l) as [[a b]|].
    + split; [discriminate|]. intros H. apply orb_false_iff in H as [_ H].
      apply IH in H. discriminate.
    + destruct IH as [IH _]. rewrite (IH eq_refl), orb_false_r.
      destruct (is_prefix sep (c :: l)); split; congruence.
Qed.

Lemma rsplit1_some (sep l a b : list ascii) :
  sep ≠ [] → rsplit1 sep l = Some (a, b) →
  l = a ++ sep ++ b ∧ rsplit1 sep b = None.
Proof.
  intros Hsep. revert a. induction l as [|c l IH]; intros a H; [discriminate|].
  cbn [rsplit1] in H.
  destruct (rsplit1 sep l) as [[a' b']|] eqn:E.
  - injection H as <- <-. destruct (IH a' eq_refl) as [-> Hb].
    split; [reflexivity|exact Hb].
  - destruct (is_prefix sep (c :: l)) eqn:Hp; [|discriminate].
    injection H as <- <-. split; [exact (is_prefix_app _ _ Hp)|].
    destruct sep as [|s sep]; [congruence|]. simpl. apply rsplit1_drop. exact E.
Qed.

(** ** Text and its code points *)

Lemma byte_of_code (c : ascii) : byte_of (code c) = c.
Proof. unfold byte_of, code. rewrite N2Z.id. apply ascii_N_embedding. Qed.

Lemma code_range (c : ascii) : 0 <= code c < 256.
Proof.
  unfold code. pose proof (N_ascii_bounded c) as H. lia.
Qed.

Lemma is_cont_range (c : ascii) : is_cont c = true → 128 <= code c < 192.
Proof. unfold is_cont. intros H. apply andb_true_iff in H as [H1 H2]. lia. Qed.

Lemma encode_stray (c : ascii) :
  128 <= code c → utf8_encode_point (56320 + code c) = [c].
Proof.
  intros H. pose proof (code_range c). unfold utf8_encode_point.
  destruct (Z.ltb_spec (56320 + code c) 128); [lia|].
  destruct (Z.ltb_spec (56320 + code c) 2048); [lia|].
  destruct (Z.leb_spec 56448 (56320 + code c)); [|lia].
  destruct (Z.ltb_spec (56320 + code c) 56576); [|lia].
  simpl. replace (56320 + code c - 56320) with (code c) by lia.
  rewrite byte_of_code. reflexivity.
Qed.

Lemma encode_two (c0 c1 : ascii) :
  194 <= code c0 < 224 → 128 <= code c1 < 192 →
  utf8_encode_point ((code c0 - 192) * 64 + (code c1 - 128)) = [c0; c1].
Proof.
  intros H0 H1. unfold utf8_encode_point.
  set (cp := (code c0 - 192) * 64 + (code c1 - 128)).
  destruct (Z.ltb_spec cp 128); [lia|].
  destruct (Z.ltb_spec cp 2048); [|lia].
  replace (192 + cp / 64) with (code c0) by (subst cp; Z.div_mod_to_equations; lia).
  replace (128 + cp mod 64) with (code c1) by (subst cp; Z.div_mod_to_equations; lia).
  rewrite !byte_of_code. reflexivity.
Qed.

Lemma encode_three (c0 c1 c2 : ascii) :
  let cp := (code c0 - 224) * 4096 + (code c1 - 128) * 64 + (code c2 - 128) in
  224 <= code c0 < 240 → 128 <= code c1 < 192 → 128 <= code c2 < 192 →
  2048 <= cp → ¬ (55296 <= cp < 57344) →
  utf8_encode_point cp = [c0; c1; c2].
Proof.
  intros cp H0 H1 H2 Hlow Hsur. unfold utf8_encode_point.
  destruct (Z.ltb_spec cp 128); [lia|].
  destruct (Z.ltb_spec cp 2048); [lia|].
  assert (Hesc : (56448 <=? cp) && (cp <? 56576) = false).
  { apply andb_false_iff.
    destruct (Z.leb_spec 56448 cp); [|left; reflexivity].
    destruct (Z.ltb_spec cp 56576); [lia|right; reflexivity]. }
  rewrite Hesc.
  destruct (Z.ltb_spec cp 65536); [|subst cp; lia].
  replace (224 + cp / 4096) with (code c0) by (subst cp; Z.div_mod_to_equations; lia).
  replace (128 + cp / 64 mod 64) with (code c1) by (subst cp; Z.div_mod_to_equations; lia).
  replace (128 + cp mod 64) with (code c2) by (subst cp; Z.div_mod_to_equations; lia).
  rewrite !byte_of_code. reflexivity.
Qed.

Lemma encode_four (c0 c1 c2 c3 : ascii) :
  let cp := (code c0 - 240) * 262144 + (code c1 - 128) * 4096 +
            (code c2 - 128) * 64 + (code c3 - 128) in
  240 <= code c0 < 245 → 128 <= code c1 < 192 → 128 <= code c2 < 192 →
  128 <= code c3 < 192 → 65536 <= cp →
  utf8_encode_point cp = [c0; c1; c2; c3].
Proof.
  intros cp H0 H1 H2 H3 Hlow. unfold utf8_encode_point.
  destruct (Z.ltb_spec cp 128); [lia|].
  destruct (Z.ltb_spec cp 2048); [lia|].
  assert (Hesc : (56448 <=? cp) && (cp <? 56576) = false).
  { apply andb_false_iff. right. apply Z.ltb_ge. lia. }
  rewrite Hesc.
  destruct (Z.ltb_spec cp 65536); [lia|].
  replace (240 + cp / 262144) with (code c0) by (subst cp; Z.div_mod_to_equations; lia).
  replace (128 + cp / 4096 mod 64) with (code c1) by (subst cp; Z.div_mod_to_equations; lia).
  replace (128 + cp / 64 mod 64) with (code c2) by (subst cp; Z.div_mod_to_equations; lia).
  replace (128 + cp mod 64) with (code c3) by (subst cp; Z.div_mod_to_equations; lia).
  rewrite !byte_of_code. reflexivity.
Qed.

Lemma utf8_encode_cons (cp : Z) (cps : list Z) :
  utf8_encode (cp :: cps) = utf8_encode_point cp ++ utf8_encode cps.
Proof. reflexivity. Qed.

(** Encoding gives back the bytes that were decoded. *)
Lemma utf8_encode_decode (l : list ascii) : utf8_encode (utf8_decode l) = l.
Proof.
  remember (length l) as n eqn:Hn. revert l Hn.
  induction n as [n IH] using lt_wf_ind. intros l Hn.
  assert (Hrec : ∀ l', (length l' < length l)%nat → utf8_encode (utf8_decode l') = l').
  { intros l' Hl. apply (IH (length l')); [lia|reflexivity]. }
  clear IH Hn.
  destruct l as [|c0 l1]; [reflexivity|].
  assert (Hstray : 128 <= code c0 →
            utf8_encode (stray (code c0) (utf8_decode l1)) = c0 :: l1).
  { intros H. unfold stray. rewrite utf8_encode_cons, encode_stray by assumption.
    rewrite Hrec by (simpl; lia). reflexivity. }
  cbn [utf8_decode].
  destruct (Z.ltb_spec (code c0) 128) as [Hlt|Hge].
  { rewrite utf8_encode_cons. unfold utf8_encode_point.
    destruct (Z.ltb_spec (code c0) 128); [|lia].
    rewrite byte_of_code, Hrec by (simpl; lia). reflexivity. }
  specialize (Hstray Hge).
  destruct l1 as [|c1 l2]; [exact Hstray|].
  destruct (is_cont c1) eqn:K1; cbn [negb]; [|exact Hstray].
  apply is_cont_range in K1.
  destruct (Z.leb_spec 194 (code c0)) as [H194|H194]; cbn [andb].
  - destruct (Z.ltb_spec (code c0) 224) as [H224|H224].
    { rewrite utf8_encode_cons, encode_two, Hrec by (simpl; lia). reflexivity. }
    destruct l2 as [|c2 l3]; [exact Hstray|].
    destruct (is_cont c2) eqn:K2; cbn [negb]; [|exact Hstray].
    apply is_cont_range in K2.
    destruct (Z.leb_spec 224 (code c0)) as [_|?]; [|lia]. cbn [andb].
    destruct (Z.ltb_spec (code c0) 240) as [H240|H240].
    { cbv zeta.
      set (cp := (code c0 - 224) * 4096 + (code c1 - 128) * 64 + (code c2 - 128)).
      destruct (Z.leb_spec 2048 cp) as [Hlow|Hlow]; cbn [andb]; [|exact Hstray].
      destruct (Z.leb_spec 55296 cp) as [Hs1|Hs1]; cbn [andb negb].
      - destruct (Z.ltb_spec cp 57344) as [Hs2|Hs2]; cbn [negb]; [exact Hstray|].
        rewrite utf8_encode_cons. subst cp.
        rewrite encode_three, Hrec by (simpl; lia). reflexivity.
      - rewrite utf8_encode_cons. subst cp.
        rewrite encode_three, Hrec by (simpl; lia). reflexivity. }
    destruct l3 as [|c3 l4]; [exact Hstray|].
    cbv zeta.
    set (cp := (code c0 - 240) * 262144 + (code c1 - 128) * 4096 +
               (code c2 - 128) * 64 + (code c3 - 128)).
    destruct (is_cont c3) eqn:K3; cbn [andb]; [|exact Hstray].
    apply is_cont_range in K3.
    destruct (Z.leb_spec 240 (code c0)) as [_|?]; [|lia]. cbn [andb].
    destruct (Z.ltb_spec (code c0) 245) as [H245|H245]; cbn [andb]; [|exact Hstray].
    destruct (Z.leb_spec 65536 cp) as [Hlow|Hlow]; cbn [andb]; [|exact Hstray].
    destruct (Z.ltb_spec cp 1114112) as [Hhigh|Hhigh]; [|exact Hstray].
    rewrite utf8_encode_cons. subst cp.
    rewrite encode_four, Hrec by (simpl; lia). reflexivity.
  - destruct l2 as [|c2 l3]; [exact Hstray|].
    destruct (is_cont c2) eqn:K2; cbn [negb]; [|exact Hstray].
    destruct (Z.leb_spec 224 (code c0)) as [?|_]; [lia|]. cbn [andb].
    destruct l3 as [|c3 l4]; [exact Hstray|].
    cbv zeta.
    destruct (is_cont c3); cbn [andb]; [|exact Hstray].
    destruct (Z.leb_spec 240 (code c0)) as [?|_]; [lia|]. exact Hstray.
Qed.

Lemma of_points_points (s : string) : of_points (points s) = s.
Proof. unfold of_points, points. rewrite utf8_encode_decode. apply text_chars. Qed.

Lemma text_app (l1 l2 : list ascii) : text (l1 ++ l2) = text l1 +:+ text l2.
Proof.
  induction l1 as [|c l1 IH]; [reflexivity|].
  change (String c (text (l1 ++ l2)) = String c (text l1 +:+ text l2)).
  rewrite IH. reflexivity.
Qed.

Lemma utf8_encode_app (cps1 cps2 : list Z) :
  utf8_encode (cps1 ++ cps2) = utf8_encode cps1 ++ utf8_encode cps2.
Proof. unfold utf8_encode. apply flat_map_app. Qed.

(** A text that is no longer than [n] is its own slice [s[:n]]. *)
Lemma str_take_all (n : nat) (s : string) :
  (py_len s ≤ n)%nat → str_take n s = s.
Proof.
  intros H. unfold str_take. rewrite take_ge by exact H. apply of_points_points.
Qed.

(** The slice [s[:n]] is the beginning of the text. *)
Lemma str_take_prefix (n : nat) (s : string) :
  s = str_take n s +:+ of_points (drop n (points s)).
Proof.
  unfold str_take, of_points. rewrite <- text_app, <- utf8_encode_app, take_drop.
  symmetry. apply of_points_points.
Qed.

(** ** The items of the RSS search, continued *)

(** X4: An RSS item becomes one news item. Its headline is split at the last
    " - ": what stands before is the title and what stands after, which holds
    no further " - ", is the publisher; a headline without " - " is kept
    whole and the publisher is "Google News". The publication text is cut to
    its first sixteen code points: it is the beginning of the text of the
    item, and the whole of it when that has no more than sixteen. *)
Theorem rss_step_item (item : rss_item) (news_data : list pydict) :
  let title := chars (default "N/A" (rss_title item)) in
  let pub_date := default "Recent" (rss_pubDate item) in
  ∃ actual_title publisher,
    rss_step item news_data =
      news_data ++
        [news_item (VStr (text actual_title)) (VStr (text publisher))
           (VStr (default "N/A" (rss_link item)))
           (VStr (of_points (take 16 (points pub_date))))] ∧
    (if contains (chars " - ") title
     then title = actual_title ++ chars " - " ++ publisher ∧
          contains (chars " - ") publisher = false
     else actual_title = title ∧ publisher = chars "Google News") ∧
    pub_date = of_points (take 16 (points pub_date)) +:+ of_points (drop 16 (points pub_date)) ∧
    ((py_len pub_date ≤ 16)%nat → of_points (take 16 (points pub_date)) = pub_date).
Proof.
  intros title pub_date. unfold rss_step. fold pub_date. fold title.
  assert (Hsep : chars " - " ≠ []) by discriminate.
  assert (Hpub : (if (16 <? py_len pub_date)%nat
                  then str_take 16 pub_date else pub_date)
                 = of_points (take 16 (points pub_date))).
  { destruct (Nat.ltb_spec 16 (py_len pub_date)) as [|Hle]; [reflexivity|].
    symmetry. apply (str_take_all 16 pub_date Hle). }
  rewrite Hpub.
  assert (Hcut : pub_date = of_points (take 16 (points pub_date)) +:+
                            of_points (drop 16 (points pub_date)) ∧
                 ((py_len pub_date ≤ 16)%nat →
                  of_points (take 16 (points pub_date)) = pub_date)).
  { split; [apply (str_take_prefix 16 pub_date)|apply (str_take_all 16 pub_date)]. }
  destruct (rsplit1 (chars " - ") title) as [[a b]|] eqn:E.
  - exists a, b. split; [reflexivity|]. split; [|exact Hcut].
    destruct (rsplit1_some _ _ _ _ Hsep E) as [Hl Hb].
    apply (rsplit1_none _ _ Hsep) in Hb.
    destruct (contains (chars " - ") title) eqn:Hc; [split; assumption|].
    apply (rsplit1_none _ _ Hsep) in Hc. congruence.
  - exists title, (chars "Google News"). subst title. rewrite text_chars.
    split; [reflexivity|]. split; [|exact Hcut].
    apply (rsplit1_none _ _ Hsep) in E. rewrite E. split; reflexivity.
Qed.

Example rss_step_sample :
  rss_step rss_story [] =
  [news_item (VStr "Shares climb after results") (VStr "Daily Ledger")
     (VStr "https://news.example.com/story") (VStr "Mon, 01 Jan 2024")].
Proof. vm_compute. reflexivity. Qed.

(** A date of nine accented letters, eighteen bytes, is kept whole; one of
    seventeen is cut to sixteen letters. *)
Example rss_step_accented :
  let e_acute := String (byte_of 195) (String (byte_of 169) "") in
  let item n := {| rss_title := None; rss_link := None;
                   rss_pubDate := Some (str_repeat e_acute n) |} in
  rss_step (item 9%nat) [] =
    [news_item (VStr "N/A") (VStr "Google News") (VStr "N/A") (VStr (str_repeat e_acute 9))] ∧
  rss_step (item 17%nat) [] =
    [news_item (VStr "N/A") (VStr "Google News") (VStr "N/A") (VStr (str_repeat e_acute 16))].
Proof. vm_compute. split; reflexivity. Qed.

(** ** The news list *)

Section MoreNews.

Variable ticker_news : string → result (option (list feed_item)).
Variable timestamp_text : pyval → result string.
Variable requests_get : string → result Response.

Lemma feed_step_typed (item : feed_item) (news_data : list pydict) :
  typed_entry item = true →
  is_normal (feed_step timestamp_text item news_data) = true.
Proof.
  destruct item as [m|v]; [|discriminate]. unfold typed_entry, feed_step, eval, item_get.
  destruct (get_or m "providerPublishTime" (VInt 0)) as [|b|z|f|s|z64]; intros Ht;
    try (apply String.eqb_eq in Ht as ->); cbn [py_truthy py_gt_zero as_num negb String.eqb];
    repeat match goal with
      | |- context [if ?c then _ else _] => destruct c
      end; reflexivity.
Qed.

Lemma for_each_typed (items : list feed_item) (news_data : list pydict) :
  Forall (λ item, typed_entry item = true) items →
  is_normal (for_each (feed_step timestamp_text) items news_data) = true.
Proof.
  revert news_data. induction items as [|item items IH]; intros news_data H; [reflexivity|].
  apply Forall_cons in H as [Hitem H]. cbn [for_each]. unfold seq.
  pose proof (feed_step_typed item news_data Hitem) as Hn.
  destruct (feed_step timestamp_text item news_data) as [d|e d]; [|discriminate].
  apply IH. exact H.
Qed.

(** X2: When each of the first ten entries of the provider's feed is a
    dictionary whose publication time is not text, the result has at most
    ten items. *)
Theorem news_capped_on_typed_feed (ticker : string) :
  (∀ news, ticker_news ticker = Ok (Some news) →
           Forall (λ item, typed_entry item = true) (take 10 news)) →
  (length (get_stock_news ticker_news timestamp_text requests_get ticker) ≤ 10)%nat.
Proof.
  intros Htyped. apply get_stock_news_capped.
  intros news Hnews. apply for_each_typed. exact (Htyped news Hnews).
Qed.

(** X3: When the provider's feed gives nothing to read and neither does the RSS
    search, the result is the single placeholder item, which names the
    ticker and links to its Yahoo Finance news page. *)
Theorem news_placeholder (ticker : string) :
  feed_silent (ticker_news ticker) = true →
  rss_silent (requests_get (rss_url ticker)) = true →
  get_stock_news ticker_news timestamp_text requests_get ticker =
  [news_item (VStr ("Click to view " +:+ ticker +:+ " news on Yahoo Finance"))
     (VStr "Yahoo Finance")
     (VStr ("https://finance.yahoo.com/quote/" +:+ ticker +:+ "/news"))
     (VStr "N/A")].
Proof.
  intros Hfeed Hrss. apply get_stock_news_placeholder.
  - unfold yfinance_news.
    destruct (ticker_news ticker) as [[[|item items]|]|]; try reflexivity. discriminate.
  - unfold google_rss_news.
    destruct (requests_get (rss_url ticker)) as [response|]; [|reflexivity].
    simpl in Hrss. destruct (status_code response =? 200); [|reflexivity].
    destruct (soup_items response) as [[|item items]|]; try reflexivity. discriminate.
Qed.

End MoreNews.

Lemma news_capped_on_typed_feed_witness :
  (length (get_stock_news (λ _, Ok (Some feed_sample)) (λ _, Ok "2023-11-14 22:13")
             (λ _, Ok rss_ten) "AAPL") ≤ 10)%nat.
Proof.
  apply news_capped_on_typed_feed.
  intros news [= <-]. decide_closed.
Defined.

Lemma news_placeholder_witness :
  get_stock_news (λ _, Err ExternalError) (λ _, Err ValueError) (λ _, Ok rss_not_found) "AAPL" =
  [news_item (VStr "Click to view AAPL news on Yahoo Finance") (VStr "Yahoo Finance")
     (VStr "https://finance.yahoo.com/quote/AAPL/news") (VStr "N/A")].
Proof.
  apply (news_placeholder (λ _, Err ExternalError) (λ _, Err ValueError)
           (λ _, Ok rss_not_found) "AAPL"); reflexivity.
Defined.

(** ** [fmt_money] and the sign *)

Lemma fmt_money_float_opp (f : spec_float) :
  B64.ltb B64.zero f = true →
  fmt_money_float (SFopp f) = "-" +:+ fmt_money_float f.
Proof.
  intros Hpos.
  destruct f as [s|s| |s m e]; try discriminate; destruct s; try discriminate.
  - vm_compute. reflexivity.
  - unfold fmt_money_float. cbn [SFopp SFabs negb].
    change (B64.ltb (S754_finite true m e) B64.zero) with true.
    change (B64.ltb (S754_finite false m e) B64.zero) with false.
    destruct (B64.leb f1e12 (S754_finite false m e)); [reflexivity|].
    destruct (B64.leb f1e9 (S754_finite false m e)); [reflexivity|].
    destruct (B64.leb f1e6 (S754_finite false m e)); reflexivity.
Qed.

(** X5: A negative amount is shown as the minus sign followed by what is shown
    for the amount without its sign, whatever kind of value carries the two
    amounts. *)
Theorem fmt_money_negation (x y : pyval) (f : spec_float) :
  py_float x = Ok f → B64.ltb B64.zero f = true → py_float y = Ok (SFopp f) →
  fmt_money y = "-" +:+ fmt_money x.
Proof.
  intros Hx Hpos Hy.
  rewrite (fmt_money_numeric y _ Hy), (fmt_money_numeric x _ Hx).
  apply fmt_money_float_opp. exact Hpos.
Qed.

Lemma fmt_money_negation_witness :
  fmt_money (VStr "-1.2e9") = "-" +:+ fmt_money (VInt 1200000000).
Proof.
  apply (fmt_money_negation (VInt 1200000000) (VStr "-1.2e9") (B64.of_Z 1200000000));
    vm_compute; reflexivity.
Defined.

(** In particular for an integer that converts to a float. *)
Example fmt_money_negation_int (n : Z) :
  0 < n < B64.overflow_threshold → fmt_money (VInt (- n)) = "-" +:+ fmt_money (VInt n).
Proof.
  intros Hn.
  rewrite (fmt_money_numeric (VInt (- n)) (SFopp (B64.of_Z n))),
    (fmt_money_numeric (VInt n) (B64.of_Z n)).
  - apply fmt_money_float_opp, of_Z_positive. lia.
  - apply int_to_float_small. lia.
  - simpl. rewrite int_to_float_small, of_Z_opp by lia. reflexivity.
Qed.

(** ** The table is a prefix of the full table *)

Lemma run_steps_prefix (steps : list (string * result pyval)) (d : pydict) :
  NoDup (keys d ++ map fst steps) →
  run_steps steps d = d ++ assigned (take (ok_prefix steps) steps).
Proof.
  revert d. induction steps as [|[k e] steps IH]; intros d Hnd; simpl.
  - rewrite app_nil_r. reflexivity.
  - destruct e as [v|x]; [|simpl; rewrite app_nil_r; reflexivity].
    assert (Hfresh : k ∉ keys d).
    { apply NoDup_app in Hnd as (_ & Hdis & _). intros Hin.
      apply (Hdis k Hin). simpl. left. }
    rewrite dict_set_fresh by assumption.
    rewrite IH; [rewrite <- app_assoc; reflexivity|].
    unfold keys in *. rewrite map_app, <- app_assoc. exact Hnd.
Qed.

Lemma ok_prefix_le (steps : list (string * result pyval)) :
  (ok_prefix steps ≤ length steps)%nat.
Proof.
  induction steps as [|[k [v|x]] steps IH]; simpl; lia.
Qed.

(** X7: Whatever the inputs hold, the table has the first [n] labels of the
    full table, in order, for some [n] between 4 and 21: the four figures of
    the income statement are always there, and a row is missing only
    together with every row after it. *)
Theorem metrics_table_prefix (info : pymap) (hist : history) (statement_metrics : pymap) :
  ∃ n, (4 ≤ n ≤ 21)%nat ∧
       keys (calculate_key_metrics info hist statement_metrics) = take n metric_labels.
Proof.
  exists (ok_prefix (metric_steps info statement_metrics)). split.
  - split.
    + unfold metric_steps. cbn [ok_prefix]. lia.
    + apply (ok_prefix_le (metric_steps info statement_metrics)).
  - rewrite calculate_key_metrics_steps, run_steps_prefix by exact metric_labels_NoDup.
    rewrite app_nil_l, keys_assigned, <- metric_steps_labels with (info := info)
      (statement_metrics := statement_metrics).
    apply (fmap_take fst).
Qed.

(** ** Quote fields that are zero or missing *)



(** X9: The sheets show "N/A" for the 52-week low, the two price-earnings
    ratios and the price-to-sales ratio whenever the quote field is missing,
    [None], zero or empty, and for the distance from the 52-week high
    whenever that holds of the current price or of the 52-week high; this is
    so whatever the other inputs hold. *)
Theorem untrue_quote_reads_na (info : pymap) (hist : history) (statement_metrics : pymap) :
  let metrics := calculate_key_metrics info hist statement_metrics in
  (∀ label field, (label, field) ∈ truthy_rows →
     py_truthy (get info field) = false → rendered metrics label = NA) ∧
  (py_truthy (get info "currentPrice") = false ∨
   py_truthy (get info "fiftyTwoWeekHigh") = false →
   rendered metrics "Distance from 52W High" = NA).
Proof.
  intros metrics. subst metrics. split.
  - intros label field Hrow Hf. unfold truthy_rows in Hrow.
    repeat (apply elem_of_cons in Hrow as [[= -> ->]|Hrow];
      [eapply rendered_step;
        [intros e' H; only_step H
        |unfold dollars_2f_or_na, round2_or_na; rewrite get_or_none, Hf;
         intros v [= <-]; reflexivity]|]).
    apply elem_of_nil in Hrow. contradiction.
  - intros Hf. eapply rendered_step.
    + intros e' H. only_step H.
    + unfold distance_from_high. rewrite !get_or_none.
      destruct Hf as [-> | ->]; rewrite ?andb_false_r;
        intros v [= <-]; reflexivity.
Qed.

Lemma untrue_quote_reads_na_witness :
  rendered (calculate_key_metrics info_flat [] sample_statement) "P/E Ratio" = NA ∧
  rendered (calculate_key_metrics info_flat [] sample_statement)
    "Distance from 52W High" = NA.
Proof.
  destruct (untrue_quote_reads_na info_flat [] sample_statement) as [Hrows Hdist].
  split.
  - apply (Hrows "P/E Ratio" "trailingPE"); [decide_closed|reflexivity].
  - apply Hdist. right. reflexivity.
Defined.

(** ** A sum of the cash flows that raises *)

(** X12: When the sum of the two cash-flow entries raises, the exception is
    swallowed: the free cash flow stays [None] and the two entries stay as
    they were read. *)
Theorem free_cash_flow_sum_raises (stock : Ticker) (e : exn) :
  let out := get_statement_metrics stock in
  let cfo := pulled (cashflow stock) "Total Cash From Operating Activities" in
  let capex := pulled (cashflow stock) "Capital Expenditures" in
  py_add cfo capex = Err e →
  out !! "Free Cash Flow (TTM)" = Some VNone ∧
  out !! "Cash From Ops (TTM)" = Some cfo ∧
  out !! "CapEx (TTM)" = Some capex.
Proof.
  intros out cfo capex Hadd. subst out. split; [|split].
  - rewrite free_cash_flow_field. fold cfo capex. rewrite Hadd.
    destruct (negb (is_none cfo) && negb (is_none capex)); reflexivity.
  - apply cash_field. apply list_elem_of_here.
  - apply cash_field. apply list_elem_of_further, list_elem_of_here.
Qed.

Lemma free_cash_flow_sum_raises_witness :
  let stock := {| financials := Ok None; cashflow := Ok (Some cashflow_text_capex) |} in
  get_statement_metrics stock !! "Free Cash Flow (TTM)" = Some VNone ∧
  get_statement_metrics stock !! "Cash From Ops (TTM)" = Some (VInt 5000000000) ∧
  get_statement_metrics stock !! "CapEx (TTM)" = Some (VStr "n/a").
Proof.
  intros stock.
  apply (free_cash_flow_sum_raises stock TypeError). reflexivity.
Defined.

(** ** The inputs of the comparison *)

(** *** Stripping a sequence *)

Section Strip.

Context {A : Type} (space : A → bool).








End Strip.



(** *** ASCII text

    On text whose code points are below 128 every code point is one byte,
    and [strip] and [upper] work byte by byte. *)


















Section Inputs.

Variable float_repr : spec_float → string.





Lemma assoc_get_in (l : list (string * string)) (k d : string) :
  assoc_get l k d = d ∨ assoc_get l k d ∈ map snd l.
Proof.
  induction l as [|[k' v] l IH]; simpl; [left; reflexivity|].
  destruct (String.eqb k' k).
  - right. apply list_elem_of_here.
  - destruct IH as [IH|IH]; [left; exact IH|right; apply list_elem_of_further; exact IH].
Qed.

(** X14: The period handed to the provider is always one of the eight period
    codes; it is "1y" when the period cell is empty. *)
Theorem read_period_is_code (sh : Sheet) :
  read_period float_repr sh ∈ ["5d"; "1mo"; "3mo"; "6mo"; "1y"; "2y"; "5y"; "max"] ∧
  (py_truthy (sh 5 2)%nat = false → read_period float_repr sh = "1y").
Proof.
  unfold read_period. split.
  - destruct (assoc_get_in period_map
                (strip (py_str float_repr
                   (if py_truthy (sh 5 2)%nat then sh 5%nat 2%nat else VStr "1 Year"))) "1y")
      as [-> | H]; [decide_closed|exact H].
  - intros ->. reflexivity.
Qed.

End Inputs.


(** A no-break space before the ticker is stripped as a blank is, and a
    cell that holds nothing else gives no ticker. *)
Example read_tickers_no_break_space :
  let nbsp := String (byte_of 194) (String (byte_of 160) "") in
  let sh : Sheet := λ r c,
    match r, c with
    | 2, 2 => VStr (nbsp +:+ "aapl")
    | 3, 2 => VStr nbsp
    | 4, 2 => VStr " msft "
    | _, _ => VNone
    end%nat in
  read_tickers (λ _, "") sh = ["AAPL"; "MSFT"].
Proof. vm_compute. reflexivity. Qed.


(** ** Integers that are floats *)

Lemma scaled_round_exact (m : positive) (e n : Z) :
  e <= 0 → Zpos m = n * 2 ^ (- e) → B64.scaled_round m e 0 = n.
Proof.
  intros He Hm. unfold B64.scaled_round. simpl Z.of_nat. rewrite Z.pow_0_r, Z.mul_1_r.
  destruct e as [|q|q]; [|lia|].
  - simpl in *. lia.
  - simpl Z.opp in Hm. rewrite Hm.
    assert (Hpos : 0 < 2 ^ Zpos q) by (apply Z.pow_pos_nonneg; lia).
    rewrite Z.div_mul, Z.mod_mul by lia.
    replace (2 * 0) with 0 by lia.
    destruct (Z.compare_spec 0 (2 ^ Zpos q)); [lia|reflexivity|lia].
Qed.

Lemma finite_ltb (m1 m2 : positive) (e1 e2 : Z) :
  e1 < e2 ∨ (e1 = e2 ∧ Zpos m1 < Zpos m2) →
  B64.ltb (S754_finite false m1 e1) (S754_finite false m2 e2) = true.
Proof.
  intros H. unfold B64.ltb, SFltb, SFcompare.
  destruct (Z.compare_spec e1 e2) as [Heq|Hlt|Hgt]; [|reflexivity|lia].
  destruct H as [H|[_ H]]; [lia|].
  change (PosDef.Pos.compare_cont Eq m1 m2) with (m1 ?= m2)%positive.
  change ((m1 ?= m2)%positive = Lt) in H. rewrite H. reflexivity.
Qed.

Lemma of_Z_below_million (p : positive) :
  Zpos p < 10 ^ 6 → B64.ltb (B64.of_Z (Zpos p)) f1e6 = true.
Proof.
  intros Hp.
  assert (Hd : Zpos (digits2_pos p) <= 20) by (apply digits2_pos_bound; lia).
  assert (H53 : Zpos p < 2 ^ 53) by lia.
  destruct (of_Z_exact p H53) as (m & e & Hof & He & Hm). rewrite Hof.
  change f1e6 with (S754_finite false 8589934592000000 (-33)).
  apply finite_ltb.
  destruct (Z.eq_dec e (-33)) as [Heq|Hne]; [right|left; clear Hm; lia].
  split; [exact Heq|].
  rewrite Heq in Hm. change (2 ^ (- -33)) with 8589934592 in Hm.
  change (10 ^ 6) with 1000000 in Hp. clear -Hm Hp. lia.
Qed.

(** X6: A whole amount of dollars below a million is shown exactly: the dollar
    sign and the digits of the amount with a comma before every group of
    three. *)
Theorem fmt_money_whole_dollars (n : Z) :
  0 <= n < 10 ^ 6 → fmt_money (VInt n) = "$" +:+ group3 (dec_of_Z n).
Proof.
  intros Hn. destruct n as [|p|p]; [vm_compute; reflexivity| |lia].
  assert (Hsmall : Z.abs (Zpos p) < B64.overflow_threshold).
  { assert (Hroom : 10 ^ 6 < B64.overflow_threshold) by (vm_compute; reflexivity). lia. }
  rewrite (fmt_money_numeric _ (B64.of_Z (Zpos p))) by (apply int_to_float_small; exact Hsmall).
  assert (Hp : Zpos p < 10 ^ 6) by lia.
  pose proof (of_Z_below_million p Hp) as Hlt.
  assert (H53 : Zpos p < 2 ^ 53) by lia.
  destruct (of_Z_exact p H53) as (m & e & Hof & He & Hm).
  rewrite Hof in *. unfold fmt_money_float. cbn [SFabs].
  change (B64.ltb (S754_finite false m e) B64.zero) with false.
  assert (H6 : B64.leb f1e6 (S754_finite false m e) = false ∧
               B64.leb f1e9 (S754_finite false m e) = false ∧
               B64.leb f1e12 (S754_finite false m e) = false).
  { repeat split; revert Hlt; apply below_threshold.
    - right. split; [reflexivity|apply Pos.le_refl].
    - left. reflexivity.
    - left. reflexivity. }
  destruct H6 as (-> & -> & ->).
  assert (Hneg : e <= 0).
  { pose proof (digits2_pos_bound p 53 ltac:(lia) H53). clear Hm. lia. }
  unfold format_f.
  rewrite (scaled_round_exact m e (Zpos p) Hneg Hm).
  change (Z.of_nat 0) with 0. rewrite Z.pow_0_r, Z.div_1_r. reflexivity.
Qed.

Lemma fmt_money_whole_dollars_witness : fmt_money (VInt 999999) = "$999,999".
Proof. apply (fmt_money_whole_dollars 999999). lia. Defined.


(** ** From the statements to the table *)

Lemma get_income_field (stock : Ticker) (row field : string) :
  (row, field) ∈ income_rows →
  get (get_statement_metrics stock) field = pulled (financials stock) row.
Proof. intros H. unfold get. rewrite (income_field stock row field H). reflexivity. Qed.

(** X10: The four money figures of the table are the entries of the income
    statement as [fmt_money] shows them: for each of the four rows read
    from the statement, the table holds under the label of the row the entry
    of the latest column when the statement is there, is not empty and has
    the row, and "N/A" otherwise. This is so whatever the quote snapshot and
    the cash-flow statement hold. *)
Theorem income_figures_shown (stock : Ticker) (info : pymap) (hist : history)
    (row field : string) :
  (row, field) ∈ income_rows →
  let metrics := calculate_key_metrics info hist (get_statement_metrics stock) in
  dict_lookup metrics field = Some (VStr (fmt_money (pulled (financials stock) row))) ∧
  (usable (financials stock) = None → dict_lookup metrics field = Some NA).
Proof.
  intros Hrow metrics. subst metrics.
  assert (Hfield : field ∈ statement_fields).
  { unfold income_rows in Hrow.
    repeat (apply elem_of_cons in Hrow as [[= -> ->]|Hrow]; [decide_closed|]).
    apply elem_of_nil in Hrow. contradiction. }
  rewrite (income_assigned info hist _ field Hfield), (get_income_field stock row field Hrow).
  split; [reflexivity|].
  intros Hnone. unfold pulled. rewrite Hnone. reflexivity.
Qed.

Lemma income_figures_shown_witness :
  dict_lookup (calculate_key_metrics ∅ [] (get_statement_metrics sample_income_ticker))
    "Revenue (TTM)" = Some (VStr "$394.33B") ∧
  dict_lookup (calculate_key_metrics ∅ [] (get_statement_metrics sample_ticker))
    "Revenue (TTM)" = Some NA.
Proof.
  split.
  - apply (income_figures_shown sample_income_ticker ∅ [] "Total Revenue" "Revenue (TTM)").
    apply list_elem_of_here.
  - apply (income_figures_shown sample_ticker ∅ [] "Total Revenue" "Revenue (TTM)");
      [apply list_elem_of_here|reflexivity].
Defined.

Lemma metric_steps_statement (info sm sm' : pymap) :
  Forall (λ k, get sm k = get sm' k) statement_fields →
  metric_steps info sm = metric_steps info sm'.
Proof.
  intros H. unfold statement_fields in H.
  repeat match goal with
    | H : Forall _ (_ :: _) |- _ =>
        let H1 := fresh "Hget" in apply Forall_cons in H as [H1 H]
    end.
  unfold metric_steps. rewrite Hget, Hget0, Hget1, Hget2. reflexivity.
Qed.

(** X11: The cash-flow statement never reaches the sheets: the extractor reads
    the cash from operations and the capital expenditure and computes the
    free cash flow, but the table is the same for two ticker objects with
    the same income statement, whatever their cash-flow statements are. *)
Theorem cash_flow_is_not_shown (stock stock' : Ticker) (info : pymap) (hist : history) :
  financials stock = financials stock' →
  calculate_key_metrics info hist (get_statement_metrics stock) =
  calculate_key_metrics info hist (get_statement_metrics stock').
Proof.
  intros Hfin. rewrite !calculate_key_metrics_steps. f_equal.
  apply metric_steps_statement. unfold statement_fields.
  repeat apply Forall_cons_2; try apply Forall_nil_2.
  - rewrite (get_income_field stock "Total Revenue"), (get_income_field stock' "Total Revenue")
      by decide_closed. rewrite Hfin. reflexivity.
  - rewrite (get_income_field stock "Net Income"), (get_income_field stock' "Net Income")
      by decide_closed. rewrite Hfin. reflexivity.
  - rewrite (get_income_field stock "Operating Income"),
      (get_income_field stock' "Operating Income") by decide_closed.
    rewrite Hfin. reflexivity.
  - rewrite (get_income_field stock "EBITDA"), (get_income_field stock' "EBITDA")
      by decide_closed. rewrite Hfin. reflexivity.
Qed.

Lemma cash_flow_is_not_shown_witness :
  calculate_key_metrics info_priced []
    (get_statement_metrics {| financials := Err ExternalError; cashflow := Ok None |}) =
  calculate_key_metrics info_priced [] (get_statement_metrics sample_ticker).
Proof.
  apply (cash_flow_is_not_shown {| financials := Err ExternalError; cashflow := Ok None |}
           sample_ticker info_priced []).
  reflexivity.
Defined.


(** ** Cells and layouts *)

Lemma write_eq (sh : Sheet) (r c : nat) (v : pyval) : write sh r c v r c = v.
Proof. unfold write. rewrite !Nat.eqb_refl. reflexivity. Qed.

Lemma write_ne (sh : Sheet) (r c r' c' : nat) (v : pyval) :
  r' ≠ r ∨ c' ≠ c → write sh r c v r' c' = sh r' c'.
Proof.
  intros H. unfold write.
  destruct (Nat.eqb_spec r' r) as [->|_]; [|reflexivity].
  destruct (Nat.eqb_spec c' c) as [->|_]; [|reflexivity].
  destruct H; congruence.
Qed.

Lemma write_row_spec (vs : list pyval) (sh : Sheet) (r c : nat) :
  (∀ i v, vs !! i = Some v → write_row sh r c vs r (c + i)%nat = v) ∧
  (∀ r' c', r' ≠ r ∨ (c' < c)%nat ∨ (c + length vs ≤ c')%nat →
            write_row sh r c vs r' c' = sh r' c').
Proof.
  revert sh c. induction vs as [|v vs IH]; intros sh c; simpl.
  - split; [intros i v H; discriminate|reflexivity].
  - destruct (IH (write sh r c v) (S c)) as [Hin Hout]. split.
    + intros [|i] v' H.
      * injection H as <-. rewrite Nat.add_0_r, Hout by lia. apply write_eq.
      * replace (c + S i)%nat with (S c + i)%nat by lia. apply Hin. exact H.
    + intros r' c' H. rewrite Hout by lia. apply write_ne. lia.
Qed.

Lemma label_rows_lookup (labels : list string) (row r : nat) (label : string) :
  (r, label) ∈ label_rows row labels ↔
  ∃ k, labels !! k = Some label ∧ r = (row + k)%nat.
Proof.
  revert row. induction labels as [|l labels IH]; intros row; simpl.
  - split; [intros H; apply elem_of_nil in H; contradiction|].
    intros (k & H & _). discriminate.
  - rewrite elem_of_cons, IH. split.
    + intros [[= -> ->]|(k & H & ->)].
      * exists 0%nat. split; [reflexivity|lia].
      * exists (S k). split; [exact H|lia].
    + intros ([|k] & H & ->).
      * left. injection H as ->. f_equal. lia.
      * right. exists k. split; [exact H|lia].
Qed.

Lemma label_rows_range (labels : list string) (row r : nat) (label : string) :
  (r, label) ∈ label_rows row labels → (row ≤ r < row + length labels)%nat.
Proof.
  intros H. apply label_rows_lookup in H as (k & H & ->).
  apply lookup_lt_Some in H. lia.
Qed.

Lemma header_layout_range (secs : list (string * list string)) (row r : nat) (name : string) :
  (r, name) ∈ header_layout row secs → (row ≤ r)%nat.
Proof.
  revert row. induction secs as [|[n labels] secs IH]; intros row; simpl; intros H.
  - apply elem_of_nil in H. contradiction.
  - apply elem_of_cons in H as [[= -> ->]|H]; [lia|]. apply IH in H. lia.
Qed.

Lemma metric_layout_range (secs : list (string * list string)) (row r : nat) (label : string) :
  (r, label) ∈ metric_layout row secs → (row < r)%nat.
Proof.
  revert row. induction secs as [|[n labels] secs IH]; intros row; simpl; intros H.
  - apply elem_of_nil in H. contradiction.
  - apply elem_of_app in H as [H|H].
    + apply label_rows_range in H. lia.
    + apply IH in H. lia.
Qed.

Lemma written_rows_range (secs : list (string * list string)) (row r : nat) :
  r ∈ written_rows row secs → (row ≤ r)%nat.
Proof.
  unfold written_rows. intros H. apply list_elem_of_fmap in H as ([r' x] & -> & H).
  apply elem_of_app in H as [H|H]; simpl.
  - apply header_layout_range in H. exact H.
  - apply metric_layout_range in H. lia.
Qed.

Lemma written_rows_cons (name : string) (labels : list string)
    (secs : list (string * list string)) (row r : nat) :
  r ∈ written_rows row ((name, labels) :: secs) ↔
  r = row ∨ (S row ≤ r < S row + length labels)%nat ∨
  r ∈ written_rows (S (S row + length labels)) secs.
Proof.
  unfold written_rows. simpl. rewrite !fmap_app, elem_of_cons, !elem_of_app.
  assert (Hl : r ∈ (label_rows (S row) labels).*1 ↔ (S row ≤ r < S row + length labels)%nat).
  { split.
    - intros H. apply list_elem_of_fmap in H as ([r' x] & -> & H).
      apply label_rows_range in H. exact H.
    - intros H. destruct (lookup_lt_is_Some_2 labels (r - S row)) as [label Hk]; [lia|].
      apply list_elem_of_fmap. exists (r, label). split; [reflexivity|].
      apply label_rows_lookup. exists (r - S row)%nat. split; [exact Hk|lia]. }
  rewrite Hl. tauto.
Qed.

(** ** The comparison table *)

Section TableFacts.

Variable stock_data : gmap string stock_entry.
Variable tickers : list string.
Hypothesis fetched : ∀ t, t ∈ tickers → is_Some (stock_data !! t).

Lemma fill_columns_spec (f : stock_entry → string → pyval) (row : nat) :
  ∀ (todo : list string) (i : nat) (sh : Sheet),
  (∀ t, t ∈ todo → is_Some (stock_data !! t)) →
  ∃ sh', fill_columns f stock_data row i todo sh = Normal sh' ∧
    (∀ r c, r ≠ row ∨ (c < i + 2)%nat ∨ (i + 2 + length todo ≤ c)%nat →
            sh' r c = sh r c) ∧
    (∀ j t e, todo !! j = Some t → stock_data !! t = Some e →
              sh' row (i + j + 2)%nat = f e t).
Proof.
  induction todo as [|t todo IH]; intros i sh Hin.
  - exists sh. split; [reflexivity|]. split; [reflexivity|]. intros j t e H. discriminate.
  - destruct (Hin t (list_elem_of_here _ _)) as [e He].
    destruct (IH (S i) (write sh row (i + 2) (f e t))) as (sh' & Hrun & Hframe & Hcells).
    { intros t' Ht'. apply Hin. apply list_elem_of_further. exact Ht'. }
    exists sh'. split; [|split].
    + cbn [fill_columns]. unfold eval, entry_of. rewrite He. exact Hrun.
    + intros r c H. rewrite Hframe by (simpl in H; lia). apply write_ne. simpl in H. lia.
    + intros [|j] t' e' Hj He'.
      * injection Hj as <-. rewrite He in He'. injection He' as <-.
        rewrite Nat.add_0_r, Hframe by lia. apply write_eq.
      * replace (i + S j + 2)%nat with (S i + j + 2)%nat by lia.
        apply (Hcells j t' e' Hj He').
Qed.

Lemma metric_rows_spec (metric_keys : list string) :
  ∀ (row : nat) (sh : Sheet),
  (metric_rows stock_data tickers row metric_keys).2 = (row + length metric_keys)%nat ∧
  ∃ sh', (metric_rows stock_data tickers row metric_keys).1 sh = Normal sh' ∧
    (∀ r c, (r < row)%nat ∨ (row + length metric_keys ≤ r)%nat ∨ c = 0%nat ∨
            (length tickers + 1 < c)%nat → sh' r c = sh r c) ∧
    (∀ r label, (r, label) ∈ label_rows row metric_keys →
       shows stock_data tickers sh' r label).
Proof.
  induction metric_keys as [|key rest IH]; intros row sh.
  - split; [simpl; lia|]. exists sh. split; [reflexivity|]. split; [reflexivity|].
    intros r label H. apply elem_of_nil in H. contradiction.
  - cbn [metric_rows].
    destruct (fill_columns_spec (λ entry _, dict_get (e_metrics entry) key NA) row
                tickers 0 (write sh row 1 (VStr key)) fetched)
      as (sh1 & Hrun1 & Hframe1 & Hcells1).
    destruct (IH (S row) sh1) as (Hrow & sh2 & Hrun2 & Hframe2 & Hcells2).
    destruct (metric_rows stock_data tickers (S row) rest) as [more row'].
    simpl in Hrow, Hrun2. split; [simpl; lia|].
    exists sh2. split; [|split].
    + cbn [fst]. unfold seq. rewrite Hrun1. exact Hrun2.
    + intros r c H. simpl in H. rewrite Hframe2 by lia.
      destruct (Nat.eq_dec r row) as [->|Hr].
      * rewrite Hframe1 by lia. apply write_ne. lia.
      * rewrite Hframe1 by lia. apply write_ne. lia.
    + intros r label H. simpl in H. apply elem_of_cons in H as [[= -> ->]|H].
      * split.
        -- rewrite Hframe2, Hframe1 by lia. apply write_eq.
        -- intros j t e Hj He. rewrite Hframe2 by lia.
           apply (Hcells1 j t e Hj He).
      * apply Hcells2. exact H.
Qed.

Lemma section_rows_spec (secs : list (string * list string)) :
  ∀ (row : nat) (sh : Sheet),
  ∃ sh', section_rows stock_data tickers row secs sh = Normal sh' ∧
    (∀ r c, r ∉ written_rows row secs ∨ c = 0%nat ∨ (length tickers + 1 < c)%nat →
            sh' r c = sh r c) ∧
    (∀ r name, (r, name) ∈ header_layout row secs →
       sh' r 1%nat = VStr name ∧
       ∀ j, (j < length tickers)%nat → sh' r (j + 2)%nat = VStr "") ∧
    (∀ r label, (r, label) ∈ metric_layout row secs →
       shows stock_data tickers sh' r label).
Proof.
  induction secs as [|[name labels] secs IH]; intros row sh.
  - exists sh. split; [reflexivity|]. split; [reflexivity|].
    split; intros r x H; apply elem_of_nil in H; contradiction.
  - cbn [section_rows].
    set (sh1 := write_row sh row 1 (VStr name :: replicate (length tickers) (VStr ""))).
    destruct (write_row_spec (VStr name :: replicate (length tickers) (VStr "")) sh row 1)
      as [Hhead Hframe0].
    fold sh1 in Hhead, Hframe0. simpl length in Hframe0. rewrite length_replicate in Hframe0.
    destruct (metric_rows_spec labels (S row) sh1) as (Hrow & sh2 & Hrun2 & Hframe2 & Hcells2).
    destruct (metric_rows stock_data tickers (S row) labels) as [body row'].
    simpl in Hrow, Hrun2. subst row'.
    destruct (IH (S (S row + length labels)) sh2) as (sh3 & Hrun3 & Hframe3 & Hheads3 & Hcells3).
    assert (Hlater : ∀ r c, (r < S (S row + length labels))%nat → sh3 r c = sh2 r c).
    { intros r c Hr. apply Hframe3. left. intros Hin.
      apply written_rows_range in Hin. lia. }
    exists sh3. split; [|split; [|split]].
    + unfold seq. cbv beta iota. fold sh1. rewrite Hrun2. exact Hrun3.
    + intros r c H.
      assert (Hc : r ∉ written_rows (S (S row + length labels)) secs ∨ c = 0%nat ∨
                   (length tickers + 1 < c)%nat).
      { destruct H as [H|H]; [left|right; exact H].
        intros Hin. apply H. apply written_rows_cons. tauto. }
      rewrite Hframe3 by exact Hc.
      assert (Hb : (r < S row)%nat ∨ (S row + length labels ≤ r)%nat ∨ c = 0%nat ∨
                   (length tickers + 1 < c)%nat).
      { destruct H as [H|H]; [|tauto].
        destruct (Nat.lt_ge_cases r (S row)); [tauto|].
        destruct (Nat.lt_ge_cases r (S row + length labels)); [|tauto].
        exfalso. apply H. apply written_rows_cons. right. left. lia. }
      rewrite Hframe2 by exact Hb. apply Hframe0.
      destruct H as [H|H]; [|lia].
      left. intros ->. apply H. apply written_rows_cons. tauto.
    + intros r n H. simpl in H. apply elem_of_cons in H as [[= -> ->]|H].
      * split.
        -- rewrite Hlater, Hframe2 by lia. apply (Hhead 0%nat). reflexivity.
        -- intros j Hj. rewrite Hlater, Hframe2 by lia.
           replace (j + 2)%nat with (1 + S j)%nat by lia. apply Hhead.
           simpl. apply lookup_replicate_2. exact Hj.
      * apply Hheads3. exact H.
    + intros r label H. simpl in H. apply elem_of_app in H as [H|H].
      * pose proof (label_rows_range _ _ _ _ H) as Hr.
        destruct (Hcells2 r label H) as [Hl Hv]. split.
        -- rewrite Hlater by lia. exact Hl.
        -- intros j t e Hj He. rewrite Hlater by lia. apply (Hv j t e Hj He).
      * apply Hcells3. exact H.
Qed.

End TableFacts.

Lemma table_cell_false (n r c : nat) :
  table_cell n r c = false →
  ((r ≠ 10 ∨ c ≠ 1) ∧ (r ≠ 12 ∨ c = 0 ∨ n + 1 < c) ∧ (r ≠ 13 ∨ c = 0 ∨ n + 1 < c) ∧
   (r ∉ written_rows 14 sections ∨ c = 0 ∨ n + 1 < c))%nat.
Proof.
  unfold table_cell. intros H. apply orb_false_iff in H as [H10 H].
  split.
  { destruct (Nat.eqb_spec r 10); [|tauto]. destruct (Nat.eqb_spec c 1); [discriminate|tauto]. }
  destruct (Nat.leb_spec 1 c); [|lia].
  destruct (Nat.leb_spec c (n + 1)); [|lia].
  rewrite !andb_true_r in H. apply bool_decide_eq_false in H.
  rewrite elem_of_app, !elem_of_cons in H. repeat split; tauto.
Qed.

Lemma written_rows_sections (r : nat) :
  r ∈ written_rows 14 sections → (14 ≤ r ≤ 45)%nat.
Proof.
  intros H.
  assert (Hall : Forall (λ r, 14 ≤ r ≤ 45)%nat (written_rows 14 sections)) by decide_closed.
  rewrite Forall_forall in Hall. apply Hall. exact H.
Qed.

Section BuildTable.

Variable stock_data : gmap string stock_entry.
Variable tickers : list string.
Hypothesis fetched : ∀ t, t ∈ tickers → is_Some (stock_data !! t).

Lemma build_table_spec (sh : Sheet) :
  ∃ sh', build_table stock_data tickers sh = Normal sh' ∧
    (∀ r c, table_cell (length tickers) r c = false → sh' r c = sh r c) ∧
    sh' 10%nat 1%nat = VStr "STOCK COMPARISON" ∧
    sh' 12%nat 1%nat = VStr "Metric" ∧
    sh' 13%nat 1%nat = VStr "Company Name" ∧
    (∀ j t e, tickers !! j = Some t → stock_data !! t = Some e →
       sh' 12%nat (j + 2)%nat = VStr t ∧
       sh' 13%nat (j + 2)%nat = get_or (e_info e) "longName" (VStr t)) ∧
    (∀ r name, (r, name) ∈ header_layout 14 sections →
       sh' r 1%nat = VStr name ∧
       ∀ j, (j < length tickers)%nat → sh' r (j + 2)%nat = VStr "") ∧
    (∀ r label, (r, label) ∈ metric_layout 14 sections →
       shows stock_data tickers sh' r label).
Proof.
  unfold build_table, seq. cbv beta iota.
  set (sh1 := write (write sh 10 1 (VStr "STOCK COMPARISON")) 12 1 (VStr "Metric")).
  set (sh2 := write_row sh1 12 2 (map VStr tickers)).
  set (sh3 := write sh2 13 1 (VStr "Company Name")).
  destruct (write_row_spec (map VStr tickers) sh1 12 2) as [Hnames Hframe2].
  fold sh2 in Hnames, Hframe2. rewrite length_map in Hframe2.
  destruct (fill_columns_spec stock_data
              (λ entry ticker, get_or (e_info entry) "longName" (VStr ticker)) 13
              tickers 0 sh3 fetched) as (sh4 & Hrun4 & Hframe4 & Hcells4).
  rewrite Hrun4.
  destruct (section_rows_spec stock_data tickers fetched sections 14 sh4)
    as (sh5 & Hrun5 & Hframe5 & Hheads5 & Hcells5).
  exists sh5. split; [exact Hrun5|].
  assert (Habove : ∀ r c, (r < 14)%nat → sh5 r c = sh4 r c).
  { intros r c Hr. apply Hframe5. left. intros Hin.
    apply written_rows_range in Hin. lia. }
  split; [|split; [|split; [|split; [|split; [|split]]]]].
  - intros r c H. apply table_cell_false in H as (H10 & H12 & H13 & Hw).
    rewrite Hframe5 by exact Hw. rewrite Hframe4 by lia.
    unfold sh3. rewrite write_ne by lia. rewrite Hframe2 by lia.
    unfold sh1. rewrite !write_ne by lia. reflexivity.
  - rewrite Habove, Hframe4 by lia. unfold sh3. rewrite write_ne by lia.
    rewrite Hframe2 by lia. unfold sh1. rewrite write_ne by lia. apply write_eq.
  - rewrite Habove, Hframe4 by lia. unfold sh3. rewrite write_ne by lia.
    rewrite Hframe2 by lia. apply write_eq.
  - rewrite Habove, Hframe4 by lia. apply write_eq.
  - intros j t e Hj He. split.
    + rewrite Habove, Hframe4 by lia. unfold sh3. rewrite write_ne by lia.
      replace (j + 2)%nat with (2 + j)%nat by lia. apply Hnames.
      rewrite list_lookup_fmap, Hj. reflexivity.
    + rewrite Habove by lia. apply (Hcells4 j t e Hj He).
  - exact Hheads5.
  - exact Hcells5.
Qed.

End BuildTable.

Section CompareSuccess.

Variable get_stock_data : string → string → option (Ticker * history * pymap).
Variable float_repr : spec_float → string.
Variable exn_message : exn → string.
Variable draw_chart : list (string * history) → result unit.

Lemma set_status_ne (sh : Sheet) (msg : string) (r c : nat) :
  (r, c) ≠ (7, 2)%nat → set_status sh msg r c = sh r c.
Proof. intros H. apply set_status_cells. exact H. Qed.

(** When every ticker still to fetch is acquired the loop completes: it has
    changed the status cell only, and it holds for every ticker what the
    provider gave for it. *)
Lemma fetch_all_success (period : string) (n : nat) (todo : list string) :
  ∀ (i : nat) (sh : Sheet) (stock_data : gmap string stock_entry),
  Forall (λ t, acquired (get_stock_data t period) = true) todo →
  (∀ t e, stock_data !! t = Some e → entry_for get_stock_data period t = Some e) →
  ∃ sh' stock_data',
    fetch_all get_stock_data period n todo i sh stock_data = inl (sh', stock_data') ∧
    (∀ r c, (r, c) ≠ (7, 2)%nat → sh' r c = sh r c) ∧
    (∀ t e, stock_data' !! t = Some e → entry_for get_stock_data period t = Some e) ∧
    (∀ t, t ∈ todo ∨ is_Some (stock_data !! t) → is_Some (stock_data' !! t)).
Proof.
  induction todo as [|t todo IH]; intros i sh stock_data Hall Hinv.
  - exists sh, stock_data. split; [reflexivity|]. split; [reflexivity|].
    split; [exact Hinv|]. intros t [H|H]; [apply elem_of_nil in H; contradiction|exact H].
  - apply Forall_cons in Hall as [Ht Hall]. cbn [fetch_all].
    destruct (get_stock_data t period) as [[[stock hist] info]|] eqn:Hget; [|discriminate].
    destruct hist as [|bar hist]; [discriminate|].
    set (entry := {| e_stock := stock; e_hist := bar :: hist; e_info := info;
                     e_metrics := calculate_key_metrics info (bar :: hist)
                                    (get_statement_metrics stock) |}).
    destruct (IH (S i)
                (set_status sh ("Loading " +:+ t +:+ " (" +:+ dec_of_nat (i + 1) +:+ "/" +:+
                                dec_of_nat n +:+ ")..."))
                (<[t := entry]> stock_data) Hall)
      as (sh' & stock_data' & Hrun & Hframe & Hinv' & Hdom).
    { intros t' e'. destruct (decide (t = t')) as [<-|Hne].
      - rewrite lookup_insert_eq. intros [= <-]. unfold entry_for. rewrite Hget. reflexivity.
      - rewrite lookup_insert_ne by exact Hne. apply Hinv. }
    exists sh', stock_data'. split; [exact Hrun|]. split; [|split; [exact Hinv'|]].
    + intros r c Hrc. rewrite Hframe by exact Hrc. apply set_status_ne. exact Hrc.
    + intros t' [Hin|Hin]; apply Hdom.
      * apply elem_of_cons in Hin as [->|Hin]; [|left; exact Hin].
        right. rewrite lookup_insert_eq. eexists. reflexivity.
      * right. destruct (decide (t = t')) as [<-|Hne].
        -- rewrite lookup_insert_eq. eexists. reflexivity.
        -- rewrite lookup_insert_ne by exact Hne. exact Hin.
Qed.

Lemma chart_step_spec (stock_data : gmap string stock_entry) (tickers : list string)
    (sh : Sheet) :
  ∃ sh', chart_step exn_message draw_chart stock_data tickers sh = Normal sh' ∧
         ∀ r c, (r, c) ≠ (7, 2)%nat → sh' r c = sh r c.
Proof.
  unfold chart_step. destruct (draw_chart _) as [u|e].
  - exists sh. split; reflexivity.
  - eexists. split; [reflexivity|]. intros r c H. apply set_status_ne. exact H.
Qed.

End CompareSuccess.

Lemma table_cell_in_range (n r c : nat) :
  (n ≤ 3)%nat → table_cell n r c = true → in_table_range r c = true ∧ (r, c) ≠ (7, 2)%nat.
Proof.
  intros Hn H. unfold table_cell in H. unfold in_table_range.
  apply orb_true_iff in H as [H|H].
  - apply andb_true_iff in H as [Hr Hc].
    apply Nat.eqb_eq in Hr as ->. apply Nat.eqb_eq in Hc as ->. split; [reflexivity|congruence].
  - apply andb_true_iff in H as [H Hc2]. apply andb_true_iff in H as [H Hc1].
    apply bool_decide_eq_true in H. apply Nat.leb_le in Hc1, Hc2.
    assert (Hr : (12 ≤ r ≤ 45)%nat).
    { apply elem_of_app in H as [H|H].
      - repeat (apply elem_of_cons in H as [->|H]; [lia|]). apply elem_of_nil in H. contradiction.
      - apply written_rows_sections in H. lia. }
    split; [|intros [= -> ->]; lia].
    destruct (Nat.leb_spec 10 r); [|lia]. destruct (Nat.leb_spec r 200); [|lia].
    destruct (Nat.leb_spec 1 c); [|lia]. destruct (Nat.leb_spec c 26); [|lia]. reflexivity.
Qed.

Section CompareRuns.

Variable get_stock_data : string → string → option (Ticker * history * pymap).
Variable float_repr : spec_float → string.
Variable exn_message : exn → string.
Variable draw_chart : list (string * history) → result unit.

Lemma read_tickers_length (sheet : Sheet) : (length (read_tickers float_repr sheet) ≤ 3)%nat.
Proof.
  unfold read_tickers. cbn [fold_left].
  repeat match goal with
    | |- context [if ?c then _ else _] => destruct c
    end; rewrite ?length_app; simpl; lia.
Qed.

(** The run in which every ticker is acquired. *)
Lemma compare_stocks_success (sheet : Sheet) :
  let tickers := read_tickers float_repr sheet in
  let period := read_period float_repr sheet in
  let final := compare_stocks get_stock_data float_repr exn_message draw_chart sheet in
  (2 ≤ length tickers)%nat →
  Forall (λ t, acquired (get_stock_data t period) = true) tickers →
  ∃ stock_data,
    (∀ t e, stock_data !! t = Some e → entry_for get_stock_data period t = Some e) ∧
    (∀ t, t ∈ tickers → is_Some (stock_data !! t)) ∧
    final 7%nat 2%nat = VStr "âœ“ Comparison complete!" ∧
    (∀ r c, (r, c) ≠ (7, 2)%nat → table_cell (length tickers) r c = false →
            final r c = clear_contents sheet 10 1 200 26 r c) ∧
    final 10%nat 1%nat = VStr "STOCK COMPARISON" ∧
    final 12%nat 1%nat = VStr "Metric" ∧
    final 13%nat 1%nat = VStr "Company Name" ∧
    (∀ j t e, tickers !! j = Some t → stock_data !! t = Some e →
       final 12%nat (j + 2)%nat = VStr t ∧
       final 13%nat (j + 2)%nat = get_or (e_info e) "longName" (VStr t)) ∧
    (∀ r name, (r, name) ∈ header_layout 14 sections →
       final r 1%nat = VStr name ∧
       ∀ j, (j < length tickers)%nat → final r (j + 2)%nat = VStr "") ∧
    (∀ r label, (r, label) ∈ metric_layout 14 sections →
       shows stock_data tickers final r label).
Proof.
  intros tickers period final Hlen Hall. subst final. unfold compare_stocks.
  fold tickers. fold period.
  destruct (Nat.ltb_spec (length tickers) 2) as [Hlt|_]; [lia|].
  destruct (fetch_all_success get_stock_data period (length tickers) tickers 0
              (clear_contents sheet 10 1 200 26) ∅ Hall)
    as (sh1 & stock_data & -> & Hframe1 & Hinv & Hdom).
  { intros t e H. rewrite lookup_empty in H. discriminate. }
  assert (fetched : ∀ t, t ∈ tickers → is_Some (stock_data !! t)).
  { intros t Ht. apply Hdom. left. exact Ht. }
  unfold seq. cbv beta iota.
  destruct (build_table_spec stock_data tickers fetched
              (set_status sh1 "Building comparison table..."))
    as (sh2 & -> & Hframe2 & H10 & H12 & H13 & Hnames & Hheads & Hcells).
  destruct (chart_step_spec exn_message draw_chart stock_data tickers
              (set_status sh2 "Creating chart...")) as (sh3 & -> & Hframe3).
  assert (Hfinal : ∀ r c, (r, c) ≠ (7, 2)%nat →
            set_status sh3 "âœ“ Comparison complete!" r c = sh2 r c).
  { intros r c Hrc. rewrite set_status_ne, Hframe3, set_status_ne by exact Hrc. reflexivity. }
  exists stock_data. split; [exact Hinv|]. split; [exact fetched|].
  split; [reflexivity|]. split.
  { intros r c Hrc Hcell. rewrite Hfinal, Hframe2, set_status_ne, Hframe1 by assumption.
    reflexivity. }
  rewrite !Hfinal by congruence.
  split; [exact H10|]. split; [exact H12|]. split; [exact H13|]. split; [|split].
  - intros j t e Hj He. rewrite !Hfinal by congruence. apply (Hnames j t e Hj He).
  - intros r name H. pose proof (header_layout_range _ _ _ _ H) as Hr.
    destruct (Hheads r name H) as [Hn Hblank]. split.
    + rewrite Hfinal by (intros [= -> ->]; lia). exact Hn.
    + intros j Hj. rewrite Hfinal by (intros [= -> ?]; lia). apply Hblank. exact Hj.
  - intros r label H. pose proof (metric_layout_range _ _ _ _ H) as Hr.
    destruct (Hcells r label H) as [Hl Hv]. split.
    + rewrite Hfinal by (intros [= -> ->]; lia). exact Hl.
    + intros j t e Hj He. rewrite Hfinal by (intros [= -> ?]; lia).
      apply (Hv j t e Hj He).
Qed.

(** X15: When every ticker is acquired, the run ends with the status "Comparison
    complete", whether or not the chart could be drawn, and the sheet holds
    the comparison table: the title in A10, the tickers in row 12 and the
    company names (the ticker itself where the snapshot has none) in row 13,
    and from row 14 the six sections, each a header row with empty cells
    under the tickers followed by one row per label; the cell of a label
    under a ticker is what the metrics table of that ticker holds for the
    label, or "N/A" if the table lacks it. *)
Theorem comparison_table (sheet : Sheet) :
  let tickers := read_tickers float_repr sheet in
  let period := read_period float_repr sheet in
  let final := compare_stocks get_stock_data float_repr exn_message draw_chart sheet in
  (2 ≤ length tickers)%nat →
  Forall (λ t, acquired (get_stock_data t period) = true) tickers →
  final 7%nat 2%nat = VStr "âœ“ Comparison complete!" ∧
  final 10%nat 1%nat = VStr "STOCK COMPARISON" ∧
  final 12%nat 1%nat = VStr "Metric" ∧
  final 13%nat 1%nat = VStr "Company Name" ∧
  (∀ r name, (r, name) ∈ header_layout 14 sections → final r 1%nat = VStr name) ∧
  (∀ r label, (r, label) ∈ metric_layout 14 sections → final r 1%nat = VStr label) ∧
  (∀ j t stock hist info,
     tickers !! j = Some t → get_stock_data t period = Some (stock, hist, info) →
     final 12%nat (j + 2)%nat = VStr t ∧
     final 13%nat (j + 2)%nat = get_or info "longName" (VStr t) ∧
     (∀ r name, (r, name) ∈ header_layout 14 sections → final r (j + 2)%nat = VStr "") ∧
     (∀ r label, (r, label) ∈ metric_layout 14 sections →
        final r (j + 2)%nat =
        rendered (calculate_key_metrics info hist (get_statement_metrics stock)) label)).
Proof.
  intros tickers period final Hlen Hall.
  destruct (compare_stocks_success sheet Hlen Hall)
    as (stock_data & Hinv & Hdom & Hstatus & _ & H10 & H12 & H13 & Hnames & Hheads & Hcells).
  fold tickers period final in Hinv, Hdom, Hstatus, H10, H12, H13, Hnames, Hheads, Hcells.
  split; [exact Hstatus|]. split; [exact H10|]. split; [exact H12|]. split; [exact H13|].
  split; [intros r name H; apply (Hheads r name H)|].
  split; [intros r label H; apply (Hcells r label H)|].
  intros j t stock hist info Hj Hget.
  destruct (Hdom t (list_elem_of_lookup_2 _ _ _ Hj)) as [e He].
  pose proof (Hinv t e He) as Hentry. unfold entry_for in Hentry. rewrite Hget in Hentry.
  destruct hist as [|bar hist]; [discriminate|]. injection Hentry as <-.
  destruct (Hnames j t _ Hj He) as [Hn Hc].
  split; [exact Hn|]. split; [exact Hc|]. split.
  - intros r name H. destruct (Hheads r name H) as [_ Hblank]. apply Hblank.
    apply lookup_lt_Some in Hj. exact Hj.
  - intros r label H. destruct (Hcells r label H) as [_ Hv].
    apply (Hv j t _ Hj He).
Qed.

End CompareRuns.

Section CompareFrame.

Variable get_stock_data : string → string → option (Ticker * history * pymap).
Variable float_repr : spec_float → string.
Variable exn_message : exn → string.
Variable draw_chart : list (string * history) → result unit.

(** X16: Whatever the sheet holds and whatever the provider and the chart do,
    the macro changes no cell outside the range A10:Z200 other than the
    status cell B7; and once two tickers are entered, nothing of what the
    range held before is left: a cell of the range that is not a cell of the
    table written in this run is empty. *)
Theorem comparison_confined (sheet : Sheet) :
  let tickers := read_tickers float_repr sheet in
  let final := compare_stocks get_stock_data float_repr exn_message draw_chart sheet in
  (∀ r c, in_table_range r c = false → (r, c) ≠ (7, 2)%nat → final r c = sheet r c) ∧
  ((2 ≤ length tickers)%nat →
   ∀ r c, in_table_range r c = true → table_cell (length tickers) r c = false →
          final r c = VNone).
Proof.
  intros tickers final.
  set (period := read_period float_repr sheet).
  assert (Hclear_out : ∀ r c, in_table_range r c = false →
            clear_contents sheet 10 1 200 26 r c = sheet r c).
  { intros r c Hr. unfold clear_contents. unfold in_table_range in Hr. rewrite Hr. reflexivity. }
  assert (Hclear_in : ∀ r c, in_table_range r c = true →
            clear_contents sheet 10 1 200 26 r c = VNone).
  { intros r c Hr. unfold clear_contents. unfold in_table_range in Hr. rewrite Hr. reflexivity. }
  destruct (Nat.lt_ge_cases (length tickers) 2) as [Hlt|Hge].
  - split; [|lia]. intros r c _ Hrc. subst final. unfold compare_stocks. fold tickers.
    apply Nat.ltb_lt in Hlt. rewrite Hlt. apply set_status_ne. exact Hrc.
  - destruct (decide (Forall (λ t, acquired (get_stock_data t period) = true) tickers))
      as [Hall|Hnot].
    + destruct (compare_stocks_success get_stock_data float_repr exn_message draw_chart
                  sheet Hge Hall) as (_ & _ & _ & _ & Hframe & _).
      fold tickers final in Hframe. split.
      * intros r c Hr Hrc. rewrite Hframe; [apply Hclear_out; exact Hr|exact Hrc|].
        destruct (table_cell (length tickers) r c) eqn:Hcell; [|reflexivity].
        apply table_cell_in_range in Hcell as [Hin _];
          [congruence|apply read_tickers_length].
      * intros _ r c Hr Hcell. rewrite Hframe; [apply Hclear_in; exact Hr| |exact Hcell].
        intros [= -> ->]. discriminate Hr.
    + apply not_Forall_Exists in Hnot; [|apply _].
      assert (Hex : Exists (λ t, acquired (get_stock_data t period) = false) tickers).
      { apply (Exists_impl _ _ _ Hnot). intros t Ht. simpl in Ht.
        destruct (acquired (get_stock_data t period)); [congruence|reflexivity]. }
      destruct (fetch_all_failure get_stock_data period (length tickers) tickers 0
                  (clear_contents sheet 10 1 200 26) ∅ Hex)
        as (t & sh' & _ & _ & Hrun & Hsh).
      assert (Hfinal : ∀ r c, final r c =
                set_status (clear_contents sheet 10 1 200 26)
                  ("Error loading " +:+ t +:+ " - no data returned") r c).
      { intros r c. subst final. unfold compare_stocks. fold tickers. fold period.
        destruct (Nat.ltb_spec (length tickers) 2) as [Hlt|_]; [lia|].
        rewrite Hrun. apply Hsh. }
      split.
      * intros r c Hr Hrc. rewrite Hfinal, set_status_ne by exact Hrc.
        apply Hclear_out. exact Hr.
      * intros _ r c Hr _. rewrite Hfinal, set_status_ne; [apply Hclear_in; exact Hr|].
        intros [= -> ->]. discriminate Hr.
Qed.

End CompareFrame.

Lemma comparison_table_witness :
  let final := compare_stocks every_ticker (λ _, "") (λ _, "") (λ _, Err ExternalError)
                 sample_sheet in
  final 7%nat 2%nat = VStr "âœ“ Comparison complete!" ∧
  final 13%nat 3%nat = VStr "MSFT Inc." ∧
  final 31%nat 3%nat = VFloat (S754_finite false 5286451906347008 (-45)).
Proof.
  intros final.
  destruct (comparison_table every_ticker (λ _, "") (λ _, "") (λ _, Err ExternalError)
              sample_sheet) as (Hstatus & _ & _ & _ & _ & _ & Hcol);
    [vm_compute; lia|decide_closed|].
  split; [exact Hstatus|].
  destruct (Hcol 1%nat "MSFT" sample_ticker [sample_bar]
              (<["longName" := VStr "MSFT Inc."]> info_priced) eq_refl eq_refl)
    as (_ & Hname & _ & Hcells).
  split; [exact Hname|].
  apply (Hcells 31%nat "Current Price"). decide_closed.
Defined.

Lemma comparison_confined_witness :
  let final := compare_stocks every_ticker (λ _, "") (λ _, "") (λ _, Ok ()) sample_sheet in
  final 2%nat 2%nat = VStr "aapl" ∧ final 50%nat 1%nat = VNone.
Proof.
  intros final.
  destruct (comparison_confined every_ticker (λ _, "") (λ _, "") (λ _, Ok ()) sample_sheet)
    as [Hout Hin].
  split.
  - apply (Hout 2%nat 2%nat); [reflexivity|congruence].
  - apply (Hin ltac:(vm_compute; lia) 50%nat 1%nat); vm_compute; reflexivity.
Defined.


(** ** The News sheet *)

(** Reads a cell through the writes made after it was written. *)
Ltac read_cell :=
  repeat first [rewrite write_eq | rewrite write_ne by lia]; try reflexivity.

(** Two cells differ in their row or in their column. *)
Ltac distinct_cell :=
  let E := fresh in intros E; injection E; intros; lia.

Section NewsSheetFacts.

Variable ticker_news : string → result (option (list feed_item)).
Variable timestamp_text : pyval → result string.
Variable requests_get : string → result Response.
Variable hyperlinks_add : nat → string → result unit.

Lemma news_row_spec (row : nat) (item : pydict) (sh : Sheet) (links : list (nat * string)) :
  let link := dict_get item "Link" (VStr "") in
  let st := news_row hyperlinks_add row item (sh, links) in
  (∀ r c, r ≠ row ∨ c = 0%nat ∨ (4 < c)%nat → st.1 r c = sh r c) ∧
  st.1 row 1%nat = dict_get item "Title" (VStr "") ∧
  st.1 row 2%nat = dict_get item "Publisher" (VStr "") ∧
  st.1 row 3%nat = dict_get item "Published" (VStr "") ∧
  st.1 row 4%nat = link_cell hyperlinks_add row link ∧
  st.2 = links ++ link_of hyperlinks_add row item.
Proof.
  intros link st. subst st. unfold news_row, link_of, link_cell. fold link.
  destruct link as [|b|z|f|address|z64]; cbn [fst snd link_failed is_http];
    try (rewrite app_nil_r; repeat split; intros; read_cell).
  destruct (is_prefix (chars "http") (chars address)); cbn [andb];
    [destruct (hyperlinks_add row address) as [u|e]; cbn [fst snd is_ok negb]|];
    rewrite ?app_nil_r; cbn [fst snd]; repeat split; intros; read_cell.
Qed.

Lemma news_rows_spec (news_data : list pydict) :
  ∀ (row : nat) (sh : Sheet) (links : list (nat * string)),
  let st := news_rows hyperlinks_add row news_data (sh, links) in
  (∀ r c, (r < row)%nat ∨ (row + length news_data ≤ r)%nat ∨ c = 0%nat ∨ (4 < c)%nat →
          st.1 r c = sh r c) ∧
  (∀ i item, news_data !! i = Some item →
     let link := dict_get item "Link" (VStr "") in
     st.1 (row + i)%nat 1%nat = dict_get item "Title" (VStr "") ∧
     st.1 (row + i)%nat 2%nat = dict_get item "Publisher" (VStr "") ∧
     st.1 (row + i)%nat 3%nat = dict_get item "Published" (VStr "") ∧
     st.1 (row + i)%nat 4%nat = link_cell hyperlinks_add (row + i) link) ∧
  st.2 = links ++ links_of hyperlinks_add row news_data.
Proof.
  induction news_data as [|item rest IH]; intros row sh links; cbn [news_rows].
  - cbv zeta. cbn [fst snd links_of]. rewrite app_nil_r.
    split; [reflexivity|]. split; [|reflexivity]. intros i item H. discriminate.
  - destruct (news_row_spec row item sh links) as (Hframe1 & Ht & Hp & Hd & Hl & Hlinks).
    destruct (news_row hyperlinks_add row item (sh, links)) as [sh1 links1].
    cbn [fst snd] in Hframe1, Ht, Hp, Hd, Hl, Hlinks.
    destruct (IH (S row) sh1 links1) as (Hframe & Hcells & Hrest).
    split; [|split].
    + intros r c H. simpl in H. rewrite Hframe by lia. apply Hframe1. lia.
    + intros [|i] item' Hi.
      * injection Hi as <-. rewrite Nat.add_0_r, !Hframe by lia. tauto.
      * replace (row + S i)%nat with (S row + i)%nat by lia. apply Hcells. exact Hi.
    + rewrite Hrest, Hlinks, <- app_assoc. reflexivity.
Qed.

Lemma links_of_spec (news_data : list pydict) (row r : nat) (address : string) :
  (r, address) ∈ links_of hyperlinks_add row news_data ↔
  ∃ i item, news_data !! i = Some item ∧ r = (row + i)%nat ∧
            dict_get item "Link" (VStr "") = VStr address ∧
            is_http (VStr address) = true ∧
            is_ok (hyperlinks_add r address) = true.
Proof.
  revert row. induction news_data as [|item rest IH]; intros row; cbn [links_of].
  - split; [intros H; apply elem_of_nil in H; contradiction|].
    intros (i & item & H & _). discriminate.
  - rewrite elem_of_app, IH. split.
    + intros [H|(i & item' & Hi & -> & Hrest)].
      * exists 0%nat, item. unfold link_of in H.
        destruct (dict_get item "Link" (VStr "")) as [|b|z|f|a|z64];
          try (apply elem_of_nil in H; contradiction).
        destruct (is_http (VStr a)) eqn:Hh; cbn [andb] in H;
          [|apply elem_of_nil in H; contradiction].
        destruct (is_ok (hyperlinks_add row a)) eqn:Hok;
          [|apply elem_of_nil in H; contradiction].
        apply list_elem_of_singleton in H. injection H as -> ->.
        rewrite Nat.add_0_r. repeat split; assumption.
      * exists (S i), item'. split; [exact Hi|]. split; [lia|].
        replace (row + S i)%nat with (S row + i)%nat by lia. exact Hrest.
    + intros ([|i] & item' & Hi & -> & Hlink & Hh & Hok).
      * left. injection Hi as <-. rewrite Nat.add_0_r in *.
        unfold link_of. rewrite Hlink, Hh, Hok. apply list_elem_of_here.
      * right. exists i, item'. split; [exact Hi|]. split; [lia|].
        replace (S row + i)%nat with (row + S i)%nat by lia. tauto.
Qed.

(** X17: The News sheet after an update holds nothing but what the update
    wrote: the heading in A1, the four column titles in row 3 and one row
    per news item from row 4, with the title, the publisher and the
    publication text of the item in columns A to C. When the link of the
    item is text that starts with "http", column D of its row shows "View
    Article", the text of the hyperlink that was added, or the link itself
    when adding the hyperlink raised; for any other link it holds the empty
    text. The Single sheet is left as it was. *)
Theorem news_sheet_layout (ticker : string) (wb : Workbook) :
  let news_data := get_stock_news ticker_news timestamp_text requests_get ticker in
  let final :=
    update_news_sheet ticker_news timestamp_text requests_get hyperlinks_add ticker wb in
  single final = single wb ∧
  news final 1%nat 1%nat = VStr ("Recent News for " +:+ ticker) ∧
  news final 3%nat 1%nat = VStr "Title" ∧
  news final 3%nat 2%nat = VStr "Publisher" ∧
  news final 3%nat 3%nat = VStr "Published" ∧
  news final 3%nat 4%nat = VStr "Link" ∧
  (∀ i item, news_data !! i = Some item →
     let link := dict_get item "Link" (VStr "") in
     news final (4 + i)%nat 1%nat = dict_get item "Title" (VStr "") ∧
     news final (4 + i)%nat 2%nat = dict_get item "Publisher" (VStr "") ∧
     news final (4 + i)%nat 3%nat = dict_get item "Published" (VStr "") ∧
     news final (4 + i)%nat 4%nat = link_cell hyperlinks_add (4 + i) link) ∧
  (∀ r c, news_cell (length news_data) r c = false → news final r c = VNone).
Proof.
  intros news_data final. subst final. unfold update_news_sheet. fold news_data.
  set (sh0 := write (clear_sheet (news wb)) 1 1 (VStr ("Recent News for " +:+ ticker))).
  set (titles := [VStr "Title"; VStr "Publisher"; VStr "Published"; VStr "Link"]).
  destruct (write_row_spec titles sh0 3 1) as [Htitles Hframe0].
  destruct (news_rows_spec news_data 4 (write_row sh0 3 1 titles) (hyperlinks wb))
    as (Hframe & Hcells & _).
  destruct (news_rows hyperlinks_add 4 news_data (write_row sh0 3 1 titles, hyperlinks wb))
    as [sh links].
  cbn [fst snd single news] in *.
  split; [reflexivity|].
  split; [rewrite Hframe, Hframe0 by lia; apply write_eq|].
  split; [rewrite Hframe by lia; apply (Htitles 0%nat); reflexivity|].
  split; [rewrite Hframe by lia; apply (Htitles 1%nat); reflexivity|].
  split; [rewrite Hframe by lia; apply (Htitles 2%nat); reflexivity|].
  split; [rewrite Hframe by lia; apply (Htitles 3%nat); reflexivity|].
  split; [exact Hcells|].
  intros r c Hcell. unfold news_cell in Hcell.
  apply orb_false_iff in Hcell as [H11 Hcell].
  assert (Hout : (r ≠ 3 ∧ (r < 4 ∨ 4 + length news_data ≤ r) ∨ c = 0 ∨ 4 < c)%nat).
  { destruct (Nat.leb_spec 1 c); [|lia]. destruct (Nat.leb_spec c 4); [|lia].
    rewrite !andb_true_r in Hcell. apply orb_false_iff in Hcell as [H3 Hrows].
    apply Nat.eqb_neq in H3.
    destruct (Nat.leb_spec 4 r); [|lia]. destruct (Nat.ltb_spec r (4 + length news_data)); [|lia].
    discriminate. }
  rewrite Hframe by lia. rewrite Hframe0 by (simpl; lia).
  unfold sh0. rewrite write_ne; [reflexivity|].
  destruct (Nat.eqb_spec r 1); [|lia]. destruct (Nat.eqb_spec c 1); [discriminate|lia].
Qed.

(** X18: The hyperlinks on the News sheet after an update are those that were
    there, followed by one for each news item whose link is text that starts
    with "http" and for which adding the hyperlink did not raise; it is put
    on the row of the item and leads to the link. *)
Theorem news_sheet_links (ticker : string) (wb : Workbook) :
  let news_data := get_stock_news ticker_news timestamp_text requests_get ticker in
  let final :=
    update_news_sheet ticker_news timestamp_text requests_get hyperlinks_add ticker wb in
  ∃ added,
    hyperlinks final = hyperlinks wb ++ added ∧
    ∀ r address,
      (r, address) ∈ added ↔
      ∃ i item, news_data !! i = Some item ∧ r = (4 + i)%nat ∧
                dict_get item "Link" (VStr "") = VStr address ∧
                is_http (VStr address) = true ∧
                is_ok (hyperlinks_add r address) = true.
Proof.
  intros news_data final. exists (links_of hyperlinks_add 4 news_data). split.
  - subst final. unfold update_news_sheet. fold news_data.
    match goal with |- context [news_rows hyperlinks_add 4 news_data ?st] =>
      destruct (news_rows_spec news_data 4 st.1 st.2) as (_ & _ & Hlinks);
      cbn [fst snd] in Hlinks;
      destruct (news_rows hyperlinks_add 4 news_data st) as [sh links]
    end.
    exact Hlinks.
  - intros r address. apply links_of_spec.
Qed.

End NewsSheetFacts.

(** ** The Single sheet *)

Lemma single_metric_rows_spec (metrics : pydict) (keys : list string) :
  ∀ (row : nat) (sh : Sheet),
  let st := single_metric_rows metrics row keys sh in
  st.2 = (row + length keys)%nat ∧
  (∀ r c, (r < row)%nat ∨ (row + length keys ≤ r)%nat ∨ c = 0%nat ∨ (2 < c)%nat →
          st.1 r c = sh r c) ∧
  (∀ r label, (r, label) ∈ label_rows row keys →
     st.1 r 1%nat = VStr label ∧ st.1 r 2%nat = dict_get metrics label NA).
Proof.
  induction keys as [|key rest IH]; intros row sh; cbn [single_metric_rows].
  - cbv zeta. cbn [fst snd]. split; [simpl; lia|]. split; [reflexivity|].
    intros r label H. apply elem_of_nil in H. contradiction.
  - destruct (IH (S row) (write (write sh row 1 (VStr key)) row 2 (dict_get metrics key NA)))
      as (Hrow & Hframe & Hcells).
    cbv zeta in *. split; [rewrite Hrow; simpl; lia|]. split.
    + intros r c H. simpl in H. rewrite Hframe by lia. read_cell.
    + intros r label H. simpl in H. apply elem_of_cons in H as [[= -> ->]|H].
      * rewrite !Hframe by lia. split; read_cell.
      * apply Hcells. exact H.
Qed.

Lemma single_section_rows_spec (metrics : pydict) (secs : list (string * list string)) :
  ∀ (row : nat) (sh : Sheet),
  let st := single_section_rows metrics row secs sh in
  (∀ r c, (r ∉ (header_layout row secs).*1 ∨ c ≠ 1%nat) →
          (r ∉ (metric_layout row secs).*1 ∨ (c ≠ 1 ∧ c ≠ 2)%nat) →
          st.1 r c = sh r c) ∧
  (∀ r name, (r, name) ∈ header_layout row secs → st.1 r 1%nat = VStr name) ∧
  (∀ r label, (r, label) ∈ metric_layout row secs →
     st.1 r 1%nat = VStr label ∧ st.1 r 2%nat = dict_get metrics label NA).
Proof.
  induction secs as [|[name labels] secs IH]; intros row sh; cbn [single_section_rows].
  - cbv zeta. cbn [fst]. split; [reflexivity|].
    split; intros r x H; apply elem_of_nil in H; contradiction.
  - destruct (single_metric_rows_spec metrics labels (S row) (write sh row 1 (VStr name)))
      as (Hrow & Hframe1 & Hcells1).
    destruct (single_metric_rows metrics (S row) labels (write sh row 1 (VStr name)))
      as [sh1 row1].
    cbn [fst snd] in Hrow, Hframe1, Hcells1. subst row1.
    destruct (IH (S (S row + length labels)) sh1) as (Hframe2 & Hheads2 & Hcells2).
    cbv zeta in *.
    assert (Hlater : ∀ r c, (r < S (S row + length labels))%nat →
              (single_section_rows metrics (S (S row + length labels)) secs sh1).1 r c
              = sh1 r c).
    { intros r c Hr. apply Hframe2.
      - left. intros Hin. apply list_elem_of_fmap in Hin as ([r' x] & -> & Hin).
        apply header_layout_range in Hin. simpl in Hr. lia.
      - left. intros Hin. apply list_elem_of_fmap in Hin as ([r' x] & -> & Hin).
        apply metric_layout_range in Hin. simpl in Hr. lia. }
    split; [|split].
    + intros r c Hh Hm. cbn [header_layout metric_layout] in Hh, Hm.
      rewrite fmap_cons, elem_of_cons in Hh. rewrite fmap_app, elem_of_app in Hm.
      cbn [fst] in Hh.
      rewrite Hframe2 by tauto.
      destruct (Nat.lt_ge_cases r (S row)) as [Hlt|Hge].
      * rewrite Hframe1 by lia. apply write_ne.
        destruct (Nat.eq_dec r row) as [->|]; [|lia]. right. tauto.
      * destruct (Nat.lt_ge_cases r (S row + length labels)) as [Hin|Hout].
        -- assert (Hr : r ∈ (label_rows (S row) labels).*1).
           { destruct (lookup_lt_is_Some_2 labels (r - S row)) as [label Hk]; [lia|].
             apply list_elem_of_fmap. exists (r, label). split; [reflexivity|].
             apply label_rows_lookup. exists (r - S row)%nat. split; [exact Hk|lia]. }
           destruct Hm as [Hm|Hm]; [exfalso; apply Hm; left; exact Hr|].
           rewrite Hframe1 by lia. apply write_ne. lia.
        -- rewrite Hframe1 by lia. apply write_ne. lia.
    + intros r n H. cbn [header_layout] in H. apply elem_of_cons in H as [[= -> ->]|H].
      * rewrite Hlater, Hframe1 by lia. apply write_eq.
      * apply Hheads2. exact H.
    + intros r label H. cbn [metric_layout] in H. apply elem_of_app in H as [H|H].
      * pose proof (label_rows_range _ _ _ _ H) as Hr.
        rewrite !Hlater by lia. apply Hcells1. exact H.
      * apply Hcells2. exact H.
Qed.

Lemma single_cell_false (r c : nat) :
  single_cell r c = false →
  (r ∉ [7; 8; 9; 10; 12]%nat ∨ c ≠ 1%nat) ∧
  (r ∉ (header_layout 14 sections).*1 ∨ c ≠ 1%nat) ∧
  (r ∉ (metric_layout 14 sections).*1 ∨ (c ≠ 1 ∧ c ≠ 2)%nat).
Proof.
  unfold single_cell. intros H. apply orb_false_iff in H as [H1 H2].
  apply andb_false_iff in H1, H2.
  rewrite bool_decide_eq_false, elem_of_app in H1. rewrite bool_decide_eq_false in H2.
  rewrite Nat.eqb_neq in H1. rewrite orb_false_iff, !Nat.eqb_neq in H2. tauto.
Qed.

Lemma single_cell_in_range (r c : nat) :
  single_cell r c = true →
  in_single_range r c = true ∧ (r, c) ≠ (5, 2)%nat ∧ (r, c) ≠ (7, 5)%nat.
Proof.
  intros H.
  assert (Hrows : Forall (λ r, 7 ≤ r ≤ 45)%nat
            ([7; 8; 9; 10; 12]%nat ++ (header_layout 14 sections).*1 ++
             (metric_layout 14 sections).*1)) by decide_closed.
  rewrite Forall_forall in Hrows. unfold single_cell in H.
  assert (Hrc : (7 ≤ r ≤ 45 ∧ 1 ≤ c ≤ 2)%nat).
  { apply orb_true_iff in H as [H|H]; apply andb_true_iff in H as [Hr Hc];
      apply bool_decide_eq_true in Hr.
    - apply Nat.eqb_eq in Hc. split; [|lia]. apply Hrows.
      rewrite app_assoc, elem_of_app. left. exact Hr.
    - apply orb_true_iff in Hc. rewrite !Nat.eqb_eq in Hc. split; [|lia]. apply Hrows.
      rewrite !elem_of_app. right. right. exact Hr. }
  unfold in_single_range. split; [|split; intros [= -> ->]; lia].
  destruct (Nat.leb_spec 7 r); [|lia]. destruct (Nat.leb_spec r 200); [|lia].
  destruct (Nat.leb_spec 1 c); [|lia]. destruct (Nat.leb_spec c 3); [|lia]. reflexivity.
Qed.

Section AnalyzeFacts.

Variable get_stock_data : string → string → option (Ticker * history * pymap).
Variable float_repr : spec_float → string.
Variable exn_message : exn → string.
Variable now_text : string.
Variable draw_price_chart : string → pyval → history → pymap → result unit.
Variable ticker_news : string → result (option (list feed_item)).
Variable timestamp_text : pyval → result string.
Variable requests_get : string → result Response.
Variable hyperlinks_add : nat → string → result unit.

Local Abbreviation analyze :=
  (analyze_stock get_stock_data float_repr exn_message now_text draw_price_chart
     ticker_news timestamp_text requests_get hyperlinks_add).
Local Abbreviation update :=
  (update_news_sheet ticker_news timestamp_text requests_get hyperlinks_add).

Lemma update_news_sheet_single (ticker : string) (wb : Workbook) (sh : Sheet) :
  update ticker (with_single wb sh) = with_single (update ticker wb) sh.
Proof.
  unfold update_news_sheet, with_single. cbn [single news hyperlinks].
  destruct (news_rows hyperlinks_add 4 _ _) as [news_sheet links]. reflexivity.
Qed.

(** The run that gets as far as the table. *)
Lemma analyze_stock_success (wb : Workbook) (stock : Ticker) (hist : history) (info : pymap) :
  let ticker := read_ticker float_repr (single wb) in
  let period := read_single_period float_repr (single wb) in
  let metrics := calculate_key_metrics info hist (get_statement_metrics stock) in
  let final := analyze wb in
  py_truthy (single wb 2%nat 2%nat) = true →
  get_stock_data ticker period = Some (stock, hist, info) → hist ≠ [] →
  news final = news (update ticker wb) ∧
  hyperlinks final = hyperlinks (update ticker wb) ∧
  single final 5%nat 2%nat = VStr ("Analysis complete for " +:+ ticker +:+ "!") ∧
  single final 7%nat 5%nat =
    match draw_price_chart ticker (single wb 3%nat 2%nat) hist info with
    | Ok _ => single wb 7%nat 5%nat
    | Err e => VStr ("Chart error: " +:+ exn_message e)
    end ∧
  (∀ r c, (r, c) ≠ (5, 2)%nat → (r, c) ≠ (7, 5)%nat → single_cell r c = false →
          single final r c = clear_contents (single wb) 7 1 200 3 r c) ∧
  single final 7%nat 1%nat = VStr ("STOCK ANALYSIS: " +:+ ticker) ∧
  single final 8%nat 1%nat =
    VStr ("Company: " +:+ py_str float_repr (get_or info "longName" (VStr ticker))) ∧
  single final 9%nat 1%nat =
    VStr ("Sector: " +:+ py_str float_repr (get_or info "sector" NA) +:+
          " | Industry: " +:+ py_str float_repr (get_or info "industry" NA)) ∧
  single final 10%nat 1%nat = VStr ("Analysis Date: " +:+ now_text) ∧
  single final 12%nat 1%nat = VStr "KEY METRICS" ∧
  (∀ r name, (r, name) ∈ header_layout 14 sections → single final r 1%nat = VStr name) ∧
  (∀ r label, (r, label) ∈ metric_layout 14 sections →
     single final r 1%nat = VStr label ∧ single final r 2%nat = rendered metrics label).
Proof.
  intros ticker period metrics final Hticker Hget Hhist. subst final.
  unfold analyze_stock. rewrite Hticker. cbn [negb]. fold ticker. fold period.
  rewrite Hget. destruct hist as [|bar hist]; [congruence|].
  fold metrics.
  set (sh0 := clear_contents
                (write (single wb) 5 2 (VStr ("Loading data for " +:+ ticker +:+ "...")))
                7 1 200 3).
  set (sh1 := write (write (write (write (write sh0 7 1 _) 8 1 _) 9 1 _) 10 1 _) 12 1 _).
  destruct (single_section_rows_spec metrics sections 14 sh1) as (Hframe & Hheads & Hcells).
  destruct (single_section_rows metrics 14 sections sh1) as [sh2 row2].
  cbn [fst] in Hframe, Hheads, Hcells.
  set (sh3 := match draw_price_chart ticker (single wb 3%nat 2%nat) (bar :: hist) info with
              | Ok _ => sh2
              | Err e => write sh2 7 5 (VStr ("Chart error: " +:+ exn_message e))
              end).
  rewrite update_news_sheet_single. cbn [with_single single news hyperlinks].
  assert (Hsh3 : ∀ r c, (r, c) ≠ (7, 5)%nat → sh3 r c = sh2 r c).
  { intros r c Hrc. unfold sh3. destruct (draw_price_chart _ _ _ _); [reflexivity|].
    apply write_ne. destruct (Nat.eq_dec r 7%nat) as [->|]; [|lia].
    right. intros ->. congruence. }
  assert (Habove : ∀ r c, (r < 14)%nat → sh2 r c = sh1 r c).
  { intros r c Hr. apply Hframe.
    - left. intros Hin. apply list_elem_of_fmap in Hin as ([r' x] & -> & Hin).
      apply header_layout_range in Hin. simpl in Hr. lia.
    - left. intros Hin. apply list_elem_of_fmap in Hin as ([r' x] & -> & Hin).
      apply metric_layout_range in Hin. simpl in Hr. lia. }
  split; [reflexivity|]. split; [reflexivity|]. split; [apply write_eq|].
  split.
  { rewrite write_ne by lia. unfold sh3.
    destruct (draw_price_chart _ _ _ _); [|apply write_eq].
    rewrite Habove by lia. unfold sh1. rewrite !write_ne by lia.
    unfold sh0, clear_contents. simpl. apply write_ne. lia. }
  split.
  { intros r c H52 H75 Hcell. apply single_cell_false in Hcell as (Hhead & Hh & Hm).
    rewrite write_ne by (destruct (Nat.eq_dec r 5%nat) as [->|]; [right; congruence|lia]).
    rewrite Hsh3 by exact H75. rewrite Hframe by assumption.
    unfold sh1. rewrite !elem_of_cons, elem_of_nil in Hhead.
    rewrite !write_ne by (destruct (Nat.eq_dec c 1%nat); [left; tauto|lia]).
    unfold sh0, clear_contents.
    destruct ((7 <=? r) && (r <=? 200) && (1 <=? c) && (c <=? 3))%nat; [reflexivity|].
    apply write_ne. destruct (Nat.eq_dec r 5%nat) as [->|]; [right; congruence|lia]. }
  assert (Hfinal : ∀ r c, (r, c) ≠ (5, 2)%nat → (r, c) ≠ (7, 5)%nat →
            write sh3 5 2 (VStr ("Analysis complete for " +:+ ticker +:+ "!")) r c
            = sh2 r c).
  { intros r c H52 H75.
    rewrite write_ne by (destruct (Nat.eq_dec r 5%nat) as [->|]; [right; congruence|lia]).
    apply Hsh3. exact H75. }
  rewrite !Hfinal by congruence. rewrite !Habove by lia. unfold sh1.
  split; [read_cell|]. split; [read_cell|]. split; [read_cell|]. split; [read_cell|].
  split; [read_cell|]. split.
  - intros r name H. pose proof (header_layout_range _ _ _ _ H) as Hr.
    rewrite Hfinal by distinct_cell. apply (Hheads r name H).
  - intros r label H. pose proof (metric_layout_range _ _ _ _ H) as Hr.
    rewrite !Hfinal by distinct_cell. apply (Hcells r label H).
Qed.

End AnalyzeFacts.

Section AnalyzeRuns.

Variable get_stock_data : string → string → option (Ticker * history * pymap).
Variable float_repr : spec_float → string.
Variable exn_message : exn → string.
Variable now_text : string.
Variable draw_price_chart : string → pyval → history → pymap → result unit.
Variable ticker_news : string → result (option (list feed_item)).
Variable timestamp_text : pyval → result string.
Variable requests_get : string → result Response.
Variable hyperlinks_add : nat → string → result unit.

Local Abbreviation analyze :=
  (analyze_stock get_stock_data float_repr exn_message now_text draw_price_chart
     ticker_news timestamp_text requests_get hyperlinks_add).
Local Abbreviation update :=
  (update_news_sheet ticker_news timestamp_text requests_get hyperlinks_add).

Lemma write_status_ne (sh : Sheet) (v : pyval) (r c : nat) :
  (r, c) ≠ (5, 2)%nat → write sh 5 2 v r c = sh r c.
Proof.
  intros Hrc. apply write_ne.
  destruct (Nat.eq_dec r 5%nat) as [->|]; [right; congruence|lia].
Qed.

(** A run that stops early changes the status cell only. *)
Lemma analyze_stock_early (wb : Workbook) :
  py_truthy (single wb 2%nat 2%nat) = false ∨
  acquired (get_stock_data (read_ticker float_repr (single wb))
              (read_single_period float_repr (single wb))) = false →
  (∀ r c, (r, c) ≠ (5, 2)%nat → single (analyze wb) r c = single wb r c) ∧
  news (analyze wb) = news wb ∧ hyperlinks (analyze wb) = hyperlinks wb.
Proof.
  intros H. unfold analyze_stock.
  destruct (py_truthy (single wb 2%nat 2%nat)); cbn [negb].
  - destruct H as [H|H]; [discriminate|].
    destruct (get_stock_data _ _) as [[[stock hist] info]|];
      [destruct hist as [|bar hist]; [|discriminate]|];
      cbn [with_single single news hyperlinks];
      (split; [|split; reflexivity]);
      intros r c Hrc; rewrite !write_status_ne by exact Hrc; reflexivity.
  - cbn [with_single single news hyperlinks]. split; [|split; reflexivity].
    intros r c Hrc. apply write_status_ne. exact Hrc.
Qed.

(** X19: When the ticker cell is empty, or the data of the ticker cannot be
    acquired, the run changes the status cell B5 and nothing else: it says
    "Please enter a ticker symbol" in the first case and names the ticker it
    could not fetch in the second; what an earlier run left on the Single
    sheet and on the News sheet stays. *)
Theorem analysis_stops (wb : Workbook) :
  let ticker := read_ticker float_repr (single wb) in
  let period := read_single_period float_repr (single wb) in
  let final := analyze wb in
  py_truthy (single wb 2%nat 2%nat) = false ∨
  acquired (get_stock_data ticker period) = false →
  single final 5%nat 2%nat =
    VStr (if py_truthy (single wb 2%nat 2%nat)
          then "Error: Could not fetch data for " +:+ ticker
          else "Please enter a ticker symbol") ∧
  (∀ r c, (r, c) ≠ (5, 2)%nat → single final r c = single wb r c) ∧
  news final = news wb ∧ hyperlinks final = hyperlinks wb.
Proof.
  intros ticker period final H. split; [|exact (analyze_stock_early wb H)].
  subst final. unfold analyze_stock. fold ticker. fold period.
  destruct (py_truthy (single wb 2%nat 2%nat)); cbn [negb]; [|apply write_eq].
  destruct H as [H|H]; [discriminate|].
  destruct (get_stock_data ticker period) as [[[stock hist] info]|];
    [destruct hist as [|bar hist]; [|discriminate]|]; apply write_eq.
Qed.

(** X20: When the ticker cell is filled and the data of the ticker are acquired,
    the run ends with the status "Analysis complete" for the ticker, whether
    or not the chart could be drawn and whatever the news update did. The
    Single sheet then holds the five heading lines in A7 to A12 and, from row
    14, the six sections: a header, then one row per label with the label in
    column A and in column B what the metrics table holds for it, or "N/A"
    if the table lacks it. The cell E7 holds the chart error when drawing
    raised and is left as it was otherwise, and the News sheet is the one
    the news update gives. *)
Theorem analysis_table (wb : Workbook) (stock : Ticker) (hist : history) (info : pymap) :
  let ticker := read_ticker float_repr (single wb) in
  let period := read_single_period float_repr (single wb) in
  let metrics := calculate_key_metrics info hist (get_statement_metrics stock) in
  let final := analyze wb in
  py_truthy (single wb 2%nat 2%nat) = true →
  get_stock_data ticker period = Some (stock, hist, info) → hist ≠ [] →
  single final 5%nat 2%nat = VStr ("Analysis complete for " +:+ ticker +:+ "!") ∧
  single final 7%nat 1%nat = VStr ("STOCK ANALYSIS: " +:+ ticker) ∧
  single final 8%nat 1%nat =
    VStr ("Company: " +:+ py_str float_repr (get_or info "longName" (VStr ticker))) ∧
  single final 9%nat 1%nat =
    VStr ("Sector: " +:+ py_str float_repr (get_or info "sector" NA) +:+
          " | Industry: " +:+ py_str float_repr (get_or info "industry" NA)) ∧
  single final 10%nat 1%nat = VStr ("Analysis Date: " +:+ now_text) ∧
  single final 12%nat 1%nat = VStr "KEY METRICS" ∧
  (∀ r name, (r, name) ∈ header_layout 14 sections → single final r 1%nat = VStr name) ∧
  (∀ r label, (r, label) ∈ metric_layout 14 sections →
     single final r 1%nat = VStr label ∧ single final r 2%nat = rendered metrics label) ∧
  single final 7%nat 5%nat =
    match draw_price_chart ticker (single wb 3%nat 2%nat) hist info with
    | Ok _ => single wb 7%nat 5%nat
    | Err e => VStr ("Chart error: " +:+ exn_message e)
    end ∧
  news final = news (update ticker wb) ∧
  hyperlinks final = hyperlinks (update ticker wb).
Proof.
  intros ticker period metrics final Hticker Hget Hhist.
  destruct (analyze_stock_success get_stock_data float_repr exn_message now_text
              draw_price_chart ticker_news timestamp_text requests_get hyperlinks_add
              wb stock hist info Hticker Hget Hhist)
    as (Hnews & Hlinks & Hstatus & Hchart & _ & H7 & H8 & H9 & H10 & H12 & Hheads & Hcells).
  repeat split; try assumption.
  - apply (Hcells r label). assumption.
  - apply (Hcells r label). assumption.
Qed.

(** X21: Whatever the workbook holds and whatever the provider, the chart and
    the news update do, a run changes no cell of the Single sheet outside
    the range A7:C200 other than the status cell B5 and the chart-error cell
    E7; and a run that acquires the data leaves nothing of what the range
    held before: a cell of the range that the run does not write is empty. *)
Theorem analysis_confined (wb : Workbook) :
  let ticker := read_ticker float_repr (single wb) in
  let period := read_single_period float_repr (single wb) in
  let final := analyze wb in
  (∀ r c, in_single_range r c = false → (r, c) ≠ (5, 2)%nat → (r, c) ≠ (7, 5)%nat →
          single final r c = single wb r c) ∧
  (py_truthy (single wb 2%nat 2%nat) = true →
   acquired (get_stock_data ticker period) = true →
   ∀ r c, in_single_range r c = true → single_cell r c = false →
          single final r c = VNone).
Proof.
  intros ticker period final.
  assert (Hclear : ∀ r c, clear_contents (single wb) 7 1 200 3 r c =
            if in_single_range r c then VNone else single wb r c) by reflexivity.
  destruct (py_truthy (single wb 2%nat 2%nat)) eqn:Ht;
    [destruct (acquired (get_stock_data ticker period)) eqn:Hacq|].
  - destruct (get_stock_data ticker period) as [[[stock hist] info]|] eqn:Hget;
      [|discriminate].
    destruct hist as [|bar hist]; [discriminate|].
    destruct (analyze_stock_success get_stock_data float_repr exn_message now_text
                draw_price_chart ticker_news timestamp_text requests_get hyperlinks_add
                wb stock (bar :: hist) info Ht Hget ltac:(discriminate))
      as (_ & _ & _ & _ & Hframe & _).
    fold final in Hframe. split.
    + intros r c Hr H52 H75. rewrite Hframe, Hclear, Hr; [reflexivity|assumption..|].
      destruct (single_cell r c) eqn:Hcell; [|reflexivity].
      apply single_cell_in_range in Hcell as [Hin _]. congruence.
    + intros _ _ r c Hr Hcell. rewrite Hframe, Hclear, Hr; [reflexivity| | |exact Hcell].
      * intros [= -> ->]. discriminate Hr.
      * intros [= -> ->]. discriminate Hr.
  - destruct (analyze_stock_early wb (or_intror Hacq)) as [Hsame _].
    split; [|discriminate]. intros r c _ H52 _. apply Hsame. exact H52.
  - destruct (analyze_stock_early wb (or_introl Ht)) as [Hsame _].
    split; [|discriminate]. intros r c _ H52 _. apply Hsame. exact H52.
Qed.

End AnalyzeRuns.

Lemma analysis_stops_witness :
  let final :=
    analyze_stock every_ticker (λ _, "") (λ _, "") "2024-01-02 10:00" (λ _ _ _ _, Ok ())
      (λ _, Err ExternalError) (λ _, Err ValueError) (λ _, Ok rss_not_found)
      hyperlinks_refused empty_workbook in
  single final 5%nat 2%nat = VStr "Please enter a ticker symbol" ∧
  single final 9%nat 1%nat = VStr "kept" ∧
  hyperlinks final = [(4%nat, "https://example.com/old")].
Proof.
  intros final.
  destruct (analysis_stops every_ticker (λ _, "") (λ _, "") "2024-01-02 10:00"
              (λ _ _ _ _, Ok ()) (λ _, Err ExternalError) (λ _, Err ValueError)
              (λ _, Ok rss_not_found) hyperlinks_refused empty_workbook)
    as (Hstatus & Hframe & _ & Hlinks); [left; reflexivity|].
  split; [exact Hstatus|]. split; [|exact Hlinks].
  apply (Hframe 9%nat 1%nat). congruence.
Defined.

Lemma analysis_table_witness :
  let final :=
    analyze_stock every_ticker (λ _, "") (λ _, "chart failed") "2024-01-02 10:00"
      (λ _ _ _ _, Err ExternalError)
      (λ _, Err ExternalError) (λ _, Err ValueError) (λ _, Ok rss_not_found)
      hyperlinks_refused sample_workbook in
  single final 5%nat 2%nat = VStr "Analysis complete for AAPL!" ∧
  single final 8%nat 1%nat = VStr "Company: AAPL Inc." ∧
  single final 31%nat 2%nat = VFloat (S754_finite false 5286451906347008 (-45)) ∧
  single final 7%nat 5%nat = VStr "Chart error: chart failed".
Proof.
  intros final.
  destruct (analysis_table every_ticker (λ _, "") (λ _, "chart failed") "2024-01-02 10:00"
              (λ _ _ _ _, Err ExternalError)
              (λ _, Err ExternalError) (λ _, Err ValueError) (λ _, Ok rss_not_found)
              hyperlinks_refused sample_workbook sample_ticker [sample_bar]
              (<["longName" := VStr "AAPL Inc."]> info_priced))
    as (Hstatus & _ & H8 & _ & _ & _ & _ & Hcells & Hchart & _);
    [reflexivity|reflexivity|discriminate|].
  split; [exact Hstatus|]. split; [exact H8|]. split; [|exact Hchart].
  apply (Hcells 31%nat "Current Price"). decide_closed.
Defined.

Lemma analysis_confined_witness :
  let final :=
    analyze_stock every_ticker (λ _, "") (λ _, "") "2024-01-02 10:00" (λ _ _ _ _, Ok ())
      (λ _, Err ExternalError) (λ _, Err ValueError) (λ _, Ok rss_not_found)
      hyperlinks_refused sample_workbook in
  single final 3%nat 2%nat = VStr "6 Months" ∧ single final 20%nat 3%nat = VNone.
Proof.
  intros final.
  destruct (analysis_confined every_ticker (λ _, "") (λ _, "") "2024-01-02 10:00"
              (λ _ _ _ _, Ok ()) (λ _, Err ExternalError) (λ _, Err ValueError)
              (λ _, Ok rss_not_found) hyperlinks_refused sample_workbook)
    as [Hout Hin].
  split.
  - apply (Hout 3%nat 2%nat); [reflexivity|congruence|congruence].
  - apply (Hin eq_refl eq_refl 20%nat 3%nat); vm_compute; reflexivity.
Defined.

(** A stale chart error survives a later run whose chart is drawn. *)
Example stale_chart_error :
  single (analyze_stock every_ticker (λ _, "") (λ _, "") "2024-01-02 10:00"
            (λ _ _ _ _, Ok ())
            (λ _, Err ExternalError) (λ _, Err ValueError) (λ _, Ok rss_not_found)
            hyperlinks_refused sample_workbook) 7%nat 5%nat
  = VStr "Chart error: old".
Proof. vm_compute. reflexivity. Qed.

(** ** Tickers on the two sheets *)

Section Tickers.

Variable float_repr : spec_float → string.


End Tickers.


Example blank_ticker_is_fetched :
  let wb := {| single := λ r c, match r, c with 2, 2 => VStr "  " | _, _ => VNone end%nat;
               news := λ _ _, VNone; hyperlinks := [] |} in
  single (analyze_stock (λ _ _, None) (λ _, "") (λ _, "") "" (λ _ _ _ _, Ok ())
            (λ _, Err ExternalError) (λ _, Err ValueError) (λ _, Ok rss_not_found)
            hyperlinks_refused wb) 5%nat 2%nat
  = VStr "Error: Could not fetch data for ".
Proof. vm_compute. reflexivity. Qed.

(** ** Exceptions of the provider *)

Section ProviderFacts.

Variable yf_Ticker : string → result Ticker.
Variable ticker_history : string → string → result history.
Variable ticker_info : string → result pymap.

Local Abbreviation fetch := (get_stock_data yf_Ticker ticker_history ticker_info).

Lemma get_stock_data_fails (ticker period : string) :
  provider_fails yf_Ticker ticker_history ticker_info period ticker = true →
  fetch ticker period = None.
Proof.
  unfold provider_fails, get_stock_data.
  destruct (yf_Ticker ticker) as [stock|]; [|reflexivity].
  destruct (ticker_history ticker period) as [hist|]; [|reflexivity].
  destruct (ticker_info ticker) as [info|]; [discriminate|reflexivity].
Qed.

(** X23: An exception raised by the provider never leaves the macros: the
    fetcher swallows it, the analysis reports that it could not fetch the
    data of the ticker, and the comparison reports for one of the tickers
    entered, which the fetcher returned no data for, that it could not be
    loaded. *)
Theorem provider_errors_are_reported
    (float_repr : spec_float → string) (exn_message : exn → string) :
  (∀ now_text draw_price_chart ticker_news timestamp_text requests_get hyperlinks_add
     (wb : Workbook),
     let ticker := read_ticker float_repr (single wb) in
     let period := read_single_period float_repr (single wb) in
     py_truthy (single wb 2%nat 2%nat) = true →
     provider_fails yf_Ticker ticker_history ticker_info period ticker = true →
     single (analyze_stock fetch float_repr exn_message now_text draw_price_chart
               ticker_news timestamp_text requests_get hyperlinks_add wb) 5%nat 2%nat
     = VStr ("Error: Could not fetch data for " +:+ ticker)) ∧
  (∀ draw_chart (sheet : Sheet),
     let tickers := read_tickers float_repr sheet in
     let period := read_period float_repr sheet in
     (2 ≤ length tickers)%nat →
     Exists (λ t, provider_fails yf_Ticker ticker_history ticker_info period t = true)
       tickers →
     ∃ t, t ∈ tickers ∧ acquired (fetch t period) = false ∧
          compare_stocks fetch float_repr exn_message draw_chart sheet 7%nat 2%nat
          = VStr ("Error loading " +:+ t +:+ " - no data returned")).
Proof.
  split.
  - intros now_text draw_price_chart ticker_news timestamp_text requests_get
      hyperlinks_add wb ticker period Ht Hfail.
    unfold analyze_stock. rewrite Ht. cbn [negb]. fold ticker. fold period.
    rewrite (get_stock_data_fails ticker period Hfail). apply write_eq.
  - intros draw_chart sheet tickers period Hlen Hex.
    assert (Hbad : Exists (λ t, acquired (fetch t period) = false) tickers).
    { apply (Exists_impl _ _ _ Hex). intros t Ht.
      rewrite (get_stock_data_fails t period Ht). reflexivity. }
    destruct (fetch_all_failure fetch period (length tickers) tickers 0
                (clear_contents sheet 10 1 200 26) ∅ Hbad)
      as (t & sh' & Hin & Hacq & Hrun & Hsh).
    exists t. split; [exact Hin|]. split; [exact Hacq|].
    unfold compare_stocks. fold tickers. fold period.
    destruct (Nat.ltb_spec (length tickers) 2) as [Hlt|_]; [lia|].
    rewrite Hrun, Hsh. reflexivity.
Qed.

End ProviderFacts.

Lemma provider_errors_are_reported_witness :
  (single (analyze_stock
             (get_stock_data yf_only_aapl (λ _ _, Ok [sample_bar]) (λ _, Err ExternalError))
             (λ _, "") (λ _, "") "2024-01-02 10:00" (λ _ _ _ _, Ok ())
             (λ _, Err ExternalError) (λ _, Err ValueError) (λ _, Ok rss_not_found)
             hyperlinks_refused sample_workbook) 5%nat 2%nat
   = VStr "Error: Could not fetch data for AAPL") ∧
  ∃ t, t ∈ ["AAPL"; "MSFT"] ∧
       compare_stocks
         (get_stock_data yf_only_aapl (λ _ _, Ok [sample_bar]) (λ _, Ok info_priced))
         (λ _, "") (λ _, "") (λ _, Ok ()) sample_sheet 7%nat 2%nat
       = VStr ("Error loading " +:+ t +:+ " - no data returned").
Proof.
  split.
  - destruct (provider_errors_are_reported yf_only_aapl (λ _ _, Ok [sample_bar])
                (λ _, Err ExternalError) (λ _, "") (λ _, "")) as [Hanalyze _].
    apply (Hanalyze "2024-01-02 10:00" (λ _ _ _ _, Ok ()) (λ _, Err ExternalError)
             (λ _, Err ValueError) (λ _, Ok rss_not_found) hyperlinks_refused
             sample_workbook); reflexivity.
  - destruct (provider_errors_are_reported yf_only_aapl (λ _ _, Ok [sample_bar])
                (λ _, Ok info_priced) (λ _, "") (λ _, "")) as [_ Hcompare].
    destruct (Hcompare (λ _, Ok ()) sample_sheet) as (t & Hin & _ & Hstatus).
    + vm_compute. lia.
    + apply Exists_cons_tl, Exists_cons_hd. reflexivity.
    + exists t. split; [exact Hin|exact Hstatus].
Defined.

